(** * Match-record pipeline: loader, record lookup, win rates, chart builders

    A shallow embedding of [manusia/data_loader.py], [manusia/records.py],
    [manusia/stats_analyzer.py] and [manusia/data_visualizer.py].

    Modelling conventions.
    - A pandas [DataFrame] is an ordered list of named, typed columns.
    - Numbers are exact rationals ([Q]), with the two infinities of
      floating point beside them; rounding is not modelled.  The cells of
      an [int64] and of a [float64] column are told apart by the dtype of
      the column; a column computed row by row is tagged [float64].
    - [df.apply(axis=1)] hands out the rows in the common dtype of the
      columns: on a frame of [int64] columns only the sum of two cells
      wraps around at 64 bits, on a frame of [bool] columns only it is a
      logical or, and on every other frame the cells are floats or Python
      objects.
    - A Python exception is the [Raises] branch of [outcome].  The cleaning
      stages assign into the frame in place, so a stage is a list of
      statements run by [run_steps], which keeps the frame as mutated so
      far when a statement raises.
    - [pd.to_datetime] on text, [str] of a timestamp and [pd.read_csv]
      are library functions taken as parameters ([parse_datetime],
      [timestamp_str], [read_csv]).
    - A dictionary is the list of its entries; the order of the entries
      carries no meaning. *)

From Stdlib Require Import String Ascii ZArith QArith Qround Qminmax.
From Stdlib Require Import DecimalString Bool Lia Arith List Permutation.
Import ListNotations.
Open Scope string_scope.
Open Scope list_scope.

(* ================================================================== *)
(** ** Cells, columns and frames *)

Inductive dtype := int64 | float64 | object | bool_ | datetime64.

Inductive value :=
| VNum (q : Q)
| VStr (s : string)
| VBool (b : bool)
| VTime (t : Z)
| VNaN
| VNaT
| VInf (negative : bool).

Record Series := mkSeries {
  name : string;
  dtype_of : dtype;
  values : list value
}.

Definition DataFrame := list Series.

(** [pd.isna] / [Series.isna] on one cell. *)
Definition isna (v : value) : bool :=
  match v with VNaN | VNaT => true | _ => false end.

Definition notna (v : value) : bool := negb (isna v).

(** Which cells a column of a given dtype can hold. *)
Definition conforms (d : dtype) (v : value) : bool :=
  match d, v with
  | int64, VNum _ => true
  | float64, (VNum _ | VNaN | VInf _) => true
  | bool_, VBool _ => true
  | datetime64, (VTime _ | VNaT) => true
  | object, _ => true
  | _, _ => false
  end.

Definition well_typed (df : DataFrame) : bool :=
  forallb (fun c => forallb (conforms (dtype_of c)) (values c)) df.

(** [df.columns] *)
Definition columns (df : DataFrame) : list string := map name df.

(** [col in df.columns] *)
Definition has_column (df : DataFrame) (n : string) : bool :=
  existsb (String.eqb n) (columns df).

(** [df[n]] as a lookup; the first column of that name. *)
Fixpoint get_column (df : DataFrame) (n : string) : option Series :=
  match df with
  | [] => None
  | c :: rest => if String.eqb n (name c) then Some c else get_column rest n
  end.

(** [df[n] = s]: replaces the column in place, or appends a new one. *)
Fixpoint set_column (n : string) (d : dtype) (vs : list value) (df : DataFrame)
  : DataFrame :=
  match df with
  | [] => [mkSeries n d vs]
  | c :: rest =>
      if String.eqb n (name c) then mkSeries n d vs :: rest
      else c :: set_column n d vs rest
  end.

(** [len(df)] *)
Definition nrows (df : DataFrame) : nat :=
  match df with [] => 0%nat | c :: _ => length (values c) end.

(** Every column has one cell per row. *)
Definition rectangular (df : DataFrame) : bool :=
  forallb (fun c => Nat.eqb (length (values c)) (nrows df)) df.

(** [df[mask]]: keep the rows whose mask entry is [True]. *)
Fixpoint keep {A} (mask : list bool) (l : list A) : list A :=
  match mask, l with
  | b :: mask', x :: l' => if b then x :: keep mask' l' else keep mask' l'
  | _, _ => []
  end.

Definition filter_rows (mask : list bool) (df : DataFrame) : DataFrame :=
  map (fun c => mkSeries (name c) (dtype_of c) (keep mask (values c))) df.

(** A row as seen by [df.apply(f, axis=1)] and [iloc[i]]. *)
Definition row := string -> option value.

Definition row_at (df : DataFrame) (i : nat) : row :=
  fun n => match get_column df n with
           | Some c => nth_error (values c) i
           | None => None
           end.

(** [select_dtypes(include=['float64', 'int64'])] *)
Definition is_float_or_int (d : dtype) : bool :=
  match d with int64 | float64 => true | _ => false end.

(** [pd.api.types.is_numeric_dtype] *)
Definition is_numeric_dtype (d : dtype) : bool :=
  match d with int64 | float64 | bool_ => true | _ => false end.

(** [pd.api.types.is_object_dtype] *)
Definition is_object_dtype (d : dtype) : bool :=
  match d with object => true | _ => false end.

(** [pd.api.types.is_datetime64_dtype] *)
Definition is_datetime64_dtype (d : dtype) : bool :=
  match d with datetime64 => true | _ => false end.

(* ================================================================== *)
(** ** Exceptions *)

Inductive exn :=
| KeyError (key : string)
| TypeError
| ValueError
| ZeroDivisionError
| ParserError (text : string).

Inductive outcome (A : Type) :=
| Returns (a : A)
| Raises (e : exn).
Arguments Returns {A} a.
Arguments Raises {A} e.

Definition bind {A B} (m : outcome A) (k : A -> outcome B) : outcome B :=
  match m with Returns a => k a | Raises e => Raises e end.

Notation "x <- m ;; k" := (bind m (fun x => k))
  (at level 61, m at next level, right associativity).

Fixpoint mapM {A B} (f : A -> outcome B) (l : list A) : outcome (list B) :=
  match l with
  | [] => Returns []
  | x :: rest => y <- f x ;; ys <- mapM f rest ;; Returns (y :: ys)
  end.

(** Statements that assign into one frame, run in order; the frame keeps
    every assignment made before the statement that raises. *)
Fixpoint run_steps (steps : list (DataFrame -> outcome DataFrame))
  (df : DataFrame) : DataFrame * option exn :=
  match steps with
  | [] => (df, None)
  | s :: rest =>
      match s df with
      | Returns df' => run_steps rest df'
      | Raises e => (df, Some e)
      end
  end.

(** [row[n]] *)
Definition row_get (r : row) (n : string) : outcome value :=
  match r n with Some v => Returns v | None => Raises (KeyError n) end.

(** The dtype of [df.values]: the dtype the columns share, [float64] for
    integer and float columns together, [object] for any other mix. *)
Definition join_dtype (a b : dtype) : dtype :=
  match a, b with
  | int64, int64 => int64
  | float64, float64 => float64
  | bool_, bool_ => bool_
  | datetime64, datetime64 => datetime64
  | int64, float64 | float64, int64 => float64
  | _, _ => object
  end.

Definition common_dtype (df : DataFrame) : dtype :=
  match df with
  | [] => object
  | c :: rest => fold_left join_dtype (map dtype_of rest) (dtype_of c)
  end.

(** What the cells of a row are when [df.apply(f, axis=1)] hands it to
    [f].  The rows are cut from [df.values]: in a frame of integer columns
    only the cells are [numpy.int64], in a frame of Boolean columns only
    they are [numpy.bool_]; otherwise they are floats or the Python
    objects of an object array, which add up the same way. *)
Inductive kind := Int64Cells | BoolCells | PlainCells.

Definition row_kind (df : DataFrame) : kind :=
  match common_dtype df with
  | int64 => Int64Cells
  | bool_ => BoolCells
  | _ => PlainCells
  end.

(** [df.apply(f, axis=1)]: [f] on each row in turn, the results as the
    cells of a new column (for a frame with at least one row). *)
Definition apply_axis1 (f : kind -> row -> outcome value) (df : DataFrame)
  : outcome (list value) :=
  mapM (fun i => f (row_kind df) (row_at df i)) (seq 0 (nrows df)).

(* ================================================================== *)
(** ** Python arithmetic on cells *)

Definition Qlt_bool (a b : Q) : bool := negb (Qle_bool b a).

Definition bool_num (b : bool) : Q := if b then 1 else 0.

(** A sum of 64-bit integers wraps around. *)
Definition wrap64 (z : Z) : Z := ((z + 2 ^ 63) mod 2 ^ 64 - 2 ^ 63)%Z.

(** [a + b] on floats and on Python objects. *)
Definition plain_add (a b : value) : outcome value :=
  match a, b with
  | VNum x, VNum y => Returns (VNum (x + y))
  | VNum x, VBool y => Returns (VNum (x + bool_num y))
  | VBool x, VNum y => Returns (VNum (bool_num x + y))
  | VBool x, VBool y => Returns (VNum (bool_num x + bool_num y))
  | VInf n, VInf m => Returns (if Bool.eqb n m then VInf n else VNaN)
  | VInf n, (VNum _ | VBool _) => Returns (VInf n)
  | (VNum _ | VBool _), VInf n => Returns (VInf n)
  | VNaN, (VNum _ | VBool _ | VNaN | VInf _) => Returns VNaN
  | (VNum _ | VBool _ | VInf _), VNaN => Returns VNaN
  | VStr x, VStr y => Returns (VStr (String.append x y))
  | _, _ => Raises TypeError
  end.

(** [a + b] on two cells of a row: [numpy.int64] cells wrap around,
    [numpy.bool_] cells are joined by a logical or. *)
Definition py_add (k : kind) (a b : value) : outcome value :=
  match k, a, b with
  | Int64Cells, VNum x, VNum y =>
      Returns (VNum (inject_Z (wrap64 (Qfloor x + Qfloor y))))
  | BoolCells, VBool x, VBool y => Returns (VBool (x || y))
  | _, _, _ => plain_add a b
  end.

(** [max(1, d)]: [d] when [d > 1], else [1]. *)
Definition py_max1 (d : value) : outcome value :=
  match d with
  | VNum q => Returns (VNum (if Qlt_bool 1 q then q else 1))
  | VBool _ => Returns (VNum 1)
  | VNaN => Returns (VNum 1)
  | VInf n => Returns (if n then VNum 1 else VInf false)
  | _ => Raises TypeError
  end.

(** [a / b]; below the divisor is what [max(1, _)] returned, never zero. *)
Definition py_div (a b : value) : outcome value :=
  match a, b with
  | (VNum _ | VBool _ | VNaN | VInf _), VNaN => Returns VNaN
  | VNum x, VNum y =>
      if Qeq_bool y 0 then Raises ZeroDivisionError else Returns (VNum (x / y))
  | VBool x, VNum y =>
      if Qeq_bool y 0 then Raises ZeroDivisionError
      else Returns (VNum (bool_num x / y))
  | VNaN, VNum _ => Returns VNaN
  | VNum x, VBool y =>
      if y then Returns (VNum (x / 1)) else Raises ZeroDivisionError
  | VBool x, VBool y =>
      if y then Returns (VNum (bool_num x / 1)) else Raises ZeroDivisionError
  | VNaN, VBool _ => Returns VNaN
  | (VNum _ | VBool _), VInf _ => Returns (VNum 0)
  | VInf n, VNum y =>
      if Qeq_bool y 0 then Raises ZeroDivisionError
      else Returns (VInf (xorb n (Qlt_bool y 0)))
  | VInf n, VBool y =>
      if y then Returns (VInf n) else Raises ZeroDivisionError
  | (VInf _ | VNaN), VInf _ => Returns VNaN
  | _, _ => Raises TypeError
  end.

(** [v > 0] *)
Definition py_gt0 (v : value) : outcome bool :=
  match v with
  | VNum q => Returns (Qlt_bool 0 q)
  | VBool b => Returns b
  | VNaN => Returns false
  | VInf n => Returns (negb n)
  | _ => Raises TypeError
  end.

(* ================================================================== *)
(** ** [DataLoader._add_derived_features] *)

(** [lambda row: (row['kills'] + row['assists']) / max(1, row['deaths'])] *)
Definition kda_row (k : kind) (r : row) : outcome value :=
  x <- row_get r "kills" ;;
  a <- row_get r "assists" ;;
  s <- py_add k x a ;;
  d <- row_get r "deaths" ;;
  m <- py_max1 d ;;
  py_div s m.

(** [lambda row: (row['kills'] + row['assists']) / max(1, row['teamkills'])
    if row['teamkills'] > 0 else 0] *)
Definition kill_participation_row (k : kind) (r : row) : outcome value :=
  t <- row_get r "teamkills" ;;
  c <- py_gt0 t ;;
  if c then
    x <- row_get r "kills" ;;
    a <- row_get r "assists" ;;
    s <- py_add k x a ;;
    t' <- row_get r "teamkills" ;;
    m <- py_max1 t' ;;
    py_div s m
  else Returns (VNum 0).

Definition add_kda (df : DataFrame) : outcome DataFrame :=
  if forallb (has_column df) ["kills"; "deaths"; "assists"] then
    vs <- apply_axis1 kda_row df ;;
    Returns (set_column "kda" float64 vs df)
  else Returns df.

Definition add_kill_participation (df : DataFrame) : outcome DataFrame :=
  if forallb (has_column df) ["kills"; "assists"; "teamkills"] then
    vs <- apply_axis1 kill_participation_row df ;;
    Returns (set_column "kill_participation" float64 vs df)
  else Returns df.

Definition _add_derived_features (df : DataFrame) : DataFrame * option exn :=
  run_steps [add_kda; add_kill_participation] df.

(* ================================================================== *)
(** ** [DataLoader._handle_missing_values] *)

(** [Series.fillna(fill)] *)
Definition fillna (fill : value) (c : Series) : Series :=
  mkSeries (name c) (dtype_of c)
    (map (fun v => if isna v then fill else v) (values c)).

(** [numeric_cols = df.select_dtypes(include=['float64', 'int64']).columns;
    df[numeric_cols] = df[numeric_cols].fillna(0)] *)
Definition fill_numeric (df : DataFrame) : DataFrame :=
  map (fun c => if is_float_or_int (dtype_of c) then fillna (VNum 0) c else c) df.

(** [categorical_cols = df.select_dtypes(include=['object']).columns;
    df[categorical_cols] = df[categorical_cols].fillna('unknown')] *)
Definition fill_categorical (df : DataFrame) : DataFrame :=
  map (fun c => if is_object_dtype (dtype_of c) then fillna (VStr "unknown") c
                else c) df.

Definition _handle_missing_values (df : DataFrame) : DataFrame * option exn :=
  run_steps [fun d => Returns (fill_numeric d);
             fun d => Returns (fill_categorical d)] df.

(* ================================================================== *)
(** ** [DataLoader._convert_data_types] *)

(** [df[n]] as an expression *)
Definition getitem (df : DataFrame) (n : string) : outcome Series :=
  match get_column df n with
  | Some c => Returns c
  | None => Raises (KeyError n)
  end.

(** [bool(v)] for one Python object. *)
Definition truthy (v : value) : bool :=
  match v with
  | VBool b => b
  | VNum q => negb (Qeq_bool q 0)
  | VStr s => negb (String.eqb s "")
  | VNaN | VNaT | VTime _ | VInf _ => true
  end.

(** The cast of one cell of a column of dtype [d] to [bool]: the truth
    value of the object, and for a datetime column whether the timestamp
    is not the epoch. *)
Definition cast_bool (d : dtype) (v : value) : bool :=
  match d, v with
  | datetime64, VTime t => negb (Z.eqb t 0)
  | _, _ => truthy v
  end.

(** [Series.astype(bool)] *)
Definition astype_bool (c : Series) : outcome Series :=
  Returns (mkSeries (name c) bool_
             (map (fun v => VBool (cast_bool (dtype_of c) v)) (values c))).

Definition bool_cols : list string :=
  ["playoffs"; "firstblood"; "firstbloodkill"; "firstbloodassist";
   "firstbloodvictim"].

Definition convert_bool (col : string) (df : DataFrame) : outcome DataFrame :=
  if has_column df col then
    c <- getitem df col ;;
    c' <- astype_bool c ;;
    Returns (set_column col (dtype_of c') (values c') df)
  else Returns df.

Section Library.

(** [pd.to_datetime] on one text cell: the timestamp, or no parse. *)
Variable parse_datetime : string -> option Z.
(** [str(pd.Timestamp)] *)
Variable timestamp_str : Z -> string.
(** [pd.read_csv(path, low_memory=False)] *)
Variable read_csv : string -> outcome DataFrame.

Definition to_datetime_cell (v : value) : outcome value :=
  match v with
  | VTime t => Returns (VTime t)
  | VNaN | VNaT => Returns VNaT
  | VStr s => match parse_datetime s with
              | Some t => Returns (VTime t)
              | None => Raises (ParserError s)
              end
  | VNum q => Returns (VTime (Qfloor q))
  | VInf _ => Raises ValueError
  | VBool _ => Raises TypeError
  end.

(** [pd.to_datetime(series)]: a datetime column comes back as it is. *)
Definition to_datetime (c : Series) : outcome Series :=
  if is_datetime64_dtype (dtype_of c) then Returns c
  else
    vs <- mapM to_datetime_cell (values c) ;;
    Returns (mkSeries (name c) datetime64 vs).

Definition convert_date (df : DataFrame) : outcome DataFrame :=
  if has_column df "date" then
    c <- getitem df "date" ;;
    c' <- to_datetime c ;;
    Returns (set_column "date" (dtype_of c') (values c') df)
  else Returns df.

Definition _convert_data_types (df : DataFrame) : DataFrame * option exn :=
  run_steps (convert_date :: map convert_bool bool_cols) df.

(* ================================================================== *)
(** ** [DataLoader]: loading, the pipeline and the split *)

Record DataLoader := mkLoader {
  file_path : string;
  data : option DataFrame;
  player_data : option DataFrame;
  team_data : option DataFrame
}.

(** [DataLoader(file_path)] *)
Definition new_loader (path : string) : DataLoader :=
  mkLoader path None None None.

Definition set_data (L : DataLoader) (df : DataFrame) : DataLoader :=
  mkLoader (file_path L) (Some df) (player_data L) (team_data L).

Definition set_player_data (L : DataLoader) (df : DataFrame) : DataLoader :=
  mkLoader (file_path L) (data L) (Some df) (team_data L).

Definition set_team_data (L : DataLoader) (df : DataFrame) : DataLoader :=
  mkLoader (file_path L) (data L) (player_data L) (Some df).

Definition load_data (L : DataLoader) : DataLoader * outcome DataFrame :=
  match read_csv (file_path L) with
  | Returns df => (set_data L df, Returns df)
  | Raises e => (L, Raises e)
  end.

Definition cleaning_pipeline : list (DataFrame -> DataFrame * option exn) :=
  [_handle_missing_values; _convert_data_types; _add_derived_features].

(** [reduce(lambda df, func: func(df), cleaning_pipeline, self.data)]; the
    stages work on the one frame object, so it holds whatever was assigned
    before an exception. *)
Fixpoint reduce_pipeline (stages : list (DataFrame -> DataFrame * option exn))
  (df : DataFrame) : DataFrame * option exn :=
  match stages with
  | [] => (df, None)
  | f :: rest =>
      match f df with
      | (df', None) => reduce_pipeline rest df'
      | (df', Some e) => (df', Some e)
      end
  end.

Definition zip_and (a b : list bool) : list bool :=
  map (fun p => andb (fst p) (snd p)) (combine a b).

Definition _split_data (L : DataLoader) : DataLoader * outcome unit :=
  match data L with
  | None => (L, Returns tt)
  | Some df =>
      match getitem df "playername" with
      | Raises e => (L, Raises e)
      | Returns p =>
          let L1 := set_player_data L (filter_rows (map notna (values p)) df) in
          match getitem df "teamname" with
          | Raises e => (L1, Raises e)
          | Returns t =>
              (set_team_data L1
                 (filter_rows (zip_and (map isna (values p))
                                       (map notna (values t))) df),
               Returns tt)
          end
      end
  end.

Definition preprocess_data (L : DataLoader) : DataLoader * outcome DataFrame :=
  let loaded :=
    match data L with
    | None => load_data L
    | Some df => (L, Returns df)
    end in
  match loaded with
  | (L0, Raises e) => (L0, Raises e)
  | (L0, Returns df) =>
      match reduce_pipeline cleaning_pipeline df with
      | (df', Some e) => (set_data L0 df', Raises e)
      | (df', None) =>
          match _split_data (set_data L0 df') with
          | (L1, Raises e) => (L1, Raises e)
          | (L1, Returns _) => (L1, Returns df')
          end
      end
  end.

(* ================================================================== *)
(** ** [DataLoader.get_record_by_id] and the [/record/<id>] route *)

(** The Python objects found in the dictionary of one row. *)
Inductive pyobj :=
| PyNone
| PyNumber (q : Q)
| PyNaN
| PyBool (b : bool)
| PyStr (s : string)
| NpNumber (q : Q)
| NpNaN
| NpBool (b : bool)
| Timestamp (t : Z)
| NaT
| PyInf (negative : bool)
| NpInf (negative : bool).

(** How a cell of a row comes out of [iloc[0].to_dict()]: cells of numeric
    and boolean columns are numpy scalars, cells of datetime columns are
    timestamps, cells of object columns are the stored Python objects. *)
Definition box (d : dtype) (v : value) : pyobj :=
  match v with
  | VNum q => if is_numeric_dtype d then NpNumber q else PyNumber q
  | VNaN => if is_numeric_dtype d then NpNaN else PyNaN
  | VBool b => if is_numeric_dtype d then NpBool b else PyBool b
  | VStr s => PyStr s
  | VTime t => Timestamp t
  | VNaT => NaT
  | VInf n => if is_numeric_dtype d then NpInf n else PyInf n
  end.

(** [self.data[n] == record_id] on one cell, [record_id] being text. *)
Definition eq_str (record_id : string) (v : value) : bool :=
  match v with VStr s => String.eqb s record_id | _ => false end.

(** [record.empty] *)
Definition empty (df : DataFrame) : bool :=
  orb (Nat.eqb (length df) 0) (Nat.eqb (nrows df) 0).

(** [df.iloc[i].to_dict()] *)
Definition iloc_to_dict (i : nat) (df : DataFrame) : list (string * pyobj) :=
  map (fun c => (name c, box (dtype_of c) (nth i (values c) VNaN))) df.

Definition get_record_by_id (L : DataLoader) (record_id : string)
  : DataLoader * outcome (option (list (string * pyobj))) :=
  let ready :=
    match data L with
    | None => preprocess_data L
    | Some df => (L, Returns df)
    end in
  match ready with
  | (L0, Raises e) => (L0, Raises e)
  | (L0, Returns df) =>
      match getitem df "gameid" with
      | Raises e => (L0, Raises e)
      | Returns g =>
          let record := filter_rows (map (eq_str record_id) (values g)) df in
          if empty record then (L0, Returns None)
          else (L0, Returns (Some (iloc_to_dict 0 record)))
      end
  end.



(** [value.item()] *)
Definition item (o : pyobj) : pyobj :=
  match o with
  | NpNumber q => PyNumber q
  | NpNaN => PyNaN
  | NpBool b => PyBool b
  | NpInf n => PyInf n
  | _ => o
  end.





End Library.


(* ================================================================== *)
(** ** Keys, distinct values and counts *)

(** Equality of two cells used as keys (of a group, of a category): Python
    equality, under which [True == 1]; for [unique] a missing cell equals
    a missing cell of its kind. *)
Definition key_eqb (a b : value) : bool :=
  match a, b with
  | VNum x, VNum y => Qeq_bool x y
  | VNum x, VBool y => Qeq_bool x (bool_num y)
  | VBool x, VNum y => Qeq_bool (bool_num x) y
  | VBool x, VBool y => Qeq_bool (bool_num x) (bool_num y)
  | VStr x, VStr y => String.eqb x y
  | VTime x, VTime y => Z.eqb x y
  | VNaN, VNaN => true
  | VNaT, VNaT => true
  | VInf n, VInf m => Bool.eqb n m
  | _, _ => false
  end.

(** [Series.unique()]: distinct cells in order of first appearance, a
    missing cell included. *)
Fixpoint unique (l : list value) : list value :=
  match l with
  | [] => []
  | x :: rest => x :: filter (fun y => negb (key_eqb x y)) (unique rest)
  end.

(** [Series.nunique()]: missing cells are not counted. *)
Definition nunique (l : list value) : nat := length (unique (filter notna l)).

Definition count_key (k : value) (l : list value) : Z :=
  Z.of_nat (length (filter (key_eqb k) l)).

(** Stable insertion sort by count, largest first. *)
Fixpoint insert_desc (x : value * Z) (l : list (value * Z)) : list (value * Z) :=
  match l with
  | [] => [x]
  | y :: rest =>
      if Z.ltb (snd x) (snd y) then y :: insert_desc x rest else x :: y :: rest
  end.

Fixpoint sort_desc (l : list (value * Z)) : list (value * Z) :=
  match l with
  | [] => []
  | x :: rest => insert_desc x (sort_desc rest)
  end.

(** [Series.value_counts()]: one entry per distinct non-missing cell,
    most frequent first. *)
Definition value_counts (l : list value) : list (value * Z) :=
  sort_desc (map (fun k => (k, count_key k l)) (unique (filter notna l))).

(** [counts.nlargest(n)]: the first [n] entries by count; none for [n <= 0]. *)
Definition nlargest (n : Z) (counts : list (value * Z)) : list (value * Z) :=
  firstn (Z.to_nat n) (sort_desc counts).

(** [counts.sum()] *)
Definition counts_sum (counts : list (value * Z)) : Z :=
  fold_right Z.add 0%Z (map snd counts).

(** [series.isin(categories)] on one cell *)
Definition isin (categories : list value) (v : value) : bool :=
  existsb (key_eqb v) categories.

(* ================================================================== *)
(** ** [StatsAnalyzer.calculate_win_rates] *)

(** The cells of [vs] on the rows whose key is [k]. *)
Definition group_cells (ks vs : list value) (k : value) : list value :=
  map snd (filter (fun kv => key_eqb k (fst kv)) (combine ks vs)).

(** The ['count'] aggregate: cells that are not missing. *)
Definition agg_count (cells : list value) : Z :=
  Z.of_nat (length (filter notna cells)).

(** The ['sum'] aggregate: missing cells are skipped; text and timestamps
    do not add up to a number. *)
Fixpoint agg_sum (cells : list value) : outcome value :=
  match cells with
  | [] => Returns (VNum 0)
  | v :: rest =>
      s <- agg_sum rest ;;
      match v with
      | VNum _ | VBool _ | VInf _ => plain_add v s
      | VNaN | VNaT => Returns s
      | _ => Raises TypeError
      end
  end.

(** [frame.reset_index()]: the index becomes the first column, unless a
    column of that name is already there. *)
Definition reset_index (index : Series) (df : DataFrame) : outcome DataFrame :=
  if has_column df (name index) then Raises ValueError
  else Returns (index :: df).

Fixpoint drop_column (n : string) (df : DataFrame) : DataFrame :=
  match df with
  | [] => []
  | c :: rest => if String.eqb n (name c) then rest else c :: drop_column n rest
  end.

(** [frame.set_index(n)] *)
Definition set_index (n : string) (df : DataFrame) : outcome (Series * DataFrame) :=
  c <- getitem df n ;;
  Returns (c, drop_column n df).

(** One cell of [a / b] on two float columns; a zero divisor gives no
    exception but NaN or an infinite float. *)
Definition np_div (a b : value) : value :=
  match a, b with
  | VNum x, VNum y =>
      if Qeq_bool y 0 then
        if Qeq_bool x 0 then VNaN else VInf (Qlt_bool x 0)
      else VNum (x / y)
  | VInf n, VNum y => VInf (xorb n (Qlt_bool y 0))
  | VNum _, VInf _ => VNum 0
  | _, _ => VNaN
  end.

Definition series_div (a b : Series) : list value :=
  map (fun p => np_div (fst p) (snd p)) (combine (values a) (values b)).

(** [frame.to_dict(orient='index')]: one entry per index label, which must
    be distinct. *)
Definition to_dict_index (index : Series) (df : DataFrame)
  : outcome (list (value * list (string * value))) :=
  if Nat.eqb (length (unique (values index))) (length (values index)) then
    Returns (map (fun i => (nth i (values index) VNaN,
                            map (fun c => (name c, nth i (values c) VNaN)) df))
                 (seq 0 (length (values index))))
  else Raises ValueError.

Definition calculate_win_rates (data : option DataFrame) (group_column : string)
  : outcome (list (value * list (string * value))) :=
  match data with
  | None => Returns []
  | Some df =>
      if negb (has_column df group_column) || negb (has_column df "result")
      then Returns []
      else
        g <- getitem df group_column ;;
        r <- getitem df "result" ;;
        let keys := unique (filter notna (values g)) in
        let cells := group_cells (values g) (values r) in
        let games := map (fun k => VNum (inject_Z (agg_count (cells k)))) keys in
        wins <- mapM (fun k => agg_sum (cells k)) keys ;;
        win_rates <- reset_index (mkSeries group_column (dtype_of g) keys)
                       [mkSeries "games_played" int64 games;
                        mkSeries "wins" (dtype_of r) wins] ;;
        w <- getitem win_rates "wins" ;;
        p <- getitem win_rates "games_played" ;;
        let win_rates := set_column "win_rate" float64 (series_div w p) win_rates in
        ix <- set_index group_column win_rates ;;
        to_dict_index (fst ix) (snd ix)
  end.

(** [d.get(k)] on the resulting dictionary *)
Fixpoint dict_get {A} (d : list (value * A)) (k : value) : option A :=
  match d with
  | [] => None
  | (k', a) :: rest => if key_eqb k' k then Some a else dict_get rest k
  end.

(* ================================================================== *)
(** ** [DataVisualizer]: chart builders

    A figure is described by what is drawn on it; the correlation values
    of a heat map and the pixels are not modelled. *)

Inductive Figure :=
| TextFigure (text : string)
| HistFigure (column : string) (bins : Z) (xs : list value) (title : string)
| ScatterFigure (plot_data : DataFrame) (x_column y_column : string)
    (hue : option string) (note : option string) (title : string)
| BarFigure (bars : list (value * Z)) (title : string)
| HeatmapFigure (numeric_cols : list string) (title : string)
| BoxFigure (plot_data : DataFrame) (value_column : string)
    (group : option string) (note : option string) (title : string)
| PieFigure (slices : list (value * Z)) (title : string).


(** [title if title else default] *)
Definition title_or (title : option string) (default : string) : string :=
  match title with
  | Some t => if String.eqb t "" then default else t
  | None => default
  end.

(** [str(n)] for an integer *)
Definition str_int (n : Z) : string := NilZero.string_of_int (Z.to_int n).

Definition no_data : Figure := TextFigure "Dados não disponíveis".

Definition top10_note : string :=
  "Mostrando apenas as 10 categorias mais frequentes".


(** The rows drawn when a grouping column is given: all of them, or those
    of its ten most frequent categories. *)
Definition cap_categories (df : DataFrame) (g : Series) : DataFrame * option string :=
  if is_object_dtype (dtype_of g) && Nat.ltb 10 (nunique (values g)) then
    let top_categories := map fst (nlargest 10 (value_counts (values g))) in
    (filter_rows (map (isin top_categories) (values g)) df, Some top10_note)
  else (df, None).

Definition create_scatter_plot (data : option DataFrame) (x_column y_column : string)
  (hue_column : option string) (title : option string) : Figure :=
  match data with
  | None => no_data
  | Some df =>
      match get_column df x_column, get_column df y_column with
      | Some x, Some y =>
          if negb (is_numeric_dtype (dtype_of x) && is_numeric_dtype (dtype_of y))
          then TextFigure "As colunas devem ser numéricas"
          else
            let t := title_or title (y_column ++ " vs " ++ x_column)%string in
            match hue_column with
            | Some h =>
                match (if String.eqb h "" then None else get_column df h) with
                | Some g =>
                    let (plot_data, note) := cap_categories df g in
                    ScatterFigure plot_data x_column y_column (Some h) note t
                | None => ScatterFigure df x_column y_column None None t
                end
            | None => ScatterFigure df x_column y_column None None t
            end
      | _, _ => no_data
      end
  end.

Definition create_bar_chart (data : option DataFrame) (column : string)
  (top_n : Z) (title : option string) : Figure :=
  match data with
  | None => no_data
  | Some df =>
      match get_column df column with
      | None => no_data
      | Some c =>
          let counts := nlargest top_n (value_counts (values c)) in
          BarFigure counts
            (title_or title
               ("Top " ++ str_int top_n ++ " valores de " ++ column)%string)
      end
  end.

Definition create_heatmap (data : option DataFrame) (columns_ : option (list string))
  (title : option string) : Figure :=
  match data with
  | None => no_data
  | Some df =>
      let numeric_cols :=
        match columns_ with
        | Some ((_ :: _) as cols) =>
            filter (fun col => match get_column df col with
                               | Some c => is_numeric_dtype (dtype_of c)
                               | None => false
                               end) cols
        | _ => map name (filter (fun c => is_float_or_int (dtype_of c)) df)
        end in
      let numeric_cols :=
        if Nat.ltb 20 (length numeric_cols) then firstn 20 numeric_cols
        else numeric_cols in
      match numeric_cols with
      | [] => TextFigure "Nenhuma coluna numérica disponível"
      | _ => HeatmapFigure numeric_cols
               (title_or title "Mapa de Calor de Correlação")
      end
  end.

Definition create_box_plot (data : option DataFrame) (value_column : string)
  (group_column : option string) (title : option string) : Figure :=
  match data with
  | None => no_data
  | Some df =>
      match get_column df value_column with
      | None => no_data
      | Some c =>
          if negb (is_numeric_dtype (dtype_of c)) then
            TextFigure ("A coluna " ++ value_column ++ " não é numérica")%string
          else
            let default :=
              match group_column with
              | Some g => if String.eqb g "" then ("Box Plot de " ++ value_column)%string
                          else ("Box Plot de " ++ value_column ++ " por " ++ g)%string
              | None => ("Box Plot de " ++ value_column)%string
              end in
            let t := title_or title default in
            match group_column with
            | Some h =>
                match (if String.eqb h "" then None else get_column df h) with
                | Some g =>
                    let (plot_data, note) := cap_categories df g in
                    BoxFigure plot_data value_column (Some h) note t
                | None => BoxFigure df value_column None None t
                end
            | None => BoxFigure df value_column None None t
            end
      end
  end.

(** [ax.pie] raises [ValueError] when no slice is larger than zero. *)
Definition create_pie_chart (data : option DataFrame) (column : string)
  (top_n : Z) (title : option string) : outcome Figure :=
  match data with
  | None => Returns no_data
  | Some df =>
      match get_column df column with
      | None => Returns no_data
      | Some c =>
          let counts := nlargest top_n (value_counts (values c)) in
          let counts :=
            if Z.ltb top_n (Z.of_nat (length (unique (values c)))) then
              counts ++ [(VStr "Outros",
                          (counts_sum (value_counts (values c)) - counts_sum counts)%Z)]
            else counts in
          if forallb (fun slice => Z.eqb (snd slice) 0) counts
          then Raises ValueError
          else Returns (PieFigure counts
                          (title_or title ("Distribuição de " ++ column)%string))
      end
  end.

(* ================================================================== *)
(** ** Vocabulary of the statements *)

(** The value of an outcome that returned. *)
Definition result_or {A} (d : A) (o : outcome A) : A :=
  match o with Returns a => a | Raises _ => d end.

(** A column of the frame that is numeric by dtype and holds only cells of
    that dtype: numbers and, in a float column, NaN and the infinite
    floats. *)
Definition number_column (df : DataFrame) (n : string) : bool :=
  match get_column df n with
  | Some c => is_float_or_int (dtype_of c)
              && forallb (conforms (dtype_of c)) (values c)
  | None => false
  end.

(** The cell is not an infinite float. *)
Definition no_inf (v : value) : bool :=
  match v with VInf _ => false | _ => true end.

(** A numeric column of numbers and missing cells, without infinite
    floats. *)
Definition numeric_column (df : DataFrame) (n : string) : bool :=
  match get_column df n with
  | Some c => is_float_or_int (dtype_of c)
              && forallb (conforms (dtype_of c)) (values c)
              && forallb no_inf (values c)
  | None => false
  end.

(** The cell of column [n] on row [i]. *)
Definition cell (df : DataFrame) (n : string) (i : nat) : option value :=
  row_at df i n.


(** A cell of a numeric column: a number, a float NaN or an infinite
    float. *)
Definition is_number (v : value) : bool :=
  match v with VNum _ | VNaN | VInf _ => true | _ => false end.

(** [kills + assists] of two numbers as a row of kind [k] adds them. *)
Definition cell_sum (k : kind) (x y : Q) : Q :=
  match k with
  | Int64Cells => inject_Z (wrap64 (Qfloor x + Qfloor y))
  | _ => x + y
  end.

(** The sum as the first statement of the derived-feature stage takes it
    on the rows of [df]. *)
Definition row_sum (df : DataFrame) (x y : Q) : Q :=
  cell_sum (row_kind df) x y.

(** The sum as the second statement takes it: when the first statement
    has added the float column [kda], the rows are rows of floats. *)
Definition participation_sum (df : DataFrame) (x y : Q) : Q :=
  if has_column df "deaths" then x + y else row_sum df x y.

(** The cell is a whole number within the 64-bit range. *)
Definition int64_range (q : Q) : Prop :=
  q == inject_Z (Qfloor q) /\ (- 2 ^ 63 <= Qfloor q < 2 ^ 63)%Z.

(** A text cell. *)
Definition is_text (v : value) : bool :=
  match v with VStr _ => true | _ => false end.

(** A frame whose every column is [int64], with a sum beyond the 64-bit
    range. *)
Definition large_integers : DataFrame :=
  [ mkSeries "kills" int64 [VNum (inject_Z (2 ^ 63 - 1))];
    mkSeries "deaths" int64 [VNum 0];
    mkSeries "assists" int64 [VNum 1] ].

(** A frame whose [kills] column holds text. *)
Definition text_kills : DataFrame :=
  [ mkSeries "kills" object [VStr "five"];
    mkSeries "deaths" int64 [VNum 1];
    mkSeries "assists" int64 [VNum 3] ].

(** A frame of [int64] columns only, without a [deaths] column, with a
    sum beyond the 64-bit range. *)
Definition large_participation : DataFrame :=
  [ mkSeries "kills" int64 [VNum (inject_Z (2 ^ 63 - 1))];
    mkSeries "assists" int64 [VNum 1];
    mkSeries "teamkills" int64 [VNum 1] ].

(** A frame of [bool] columns only. *)
Definition all_flags : DataFrame :=
  [ mkSeries "kills" bool_ [VBool true];
    mkSeries "deaths" bool_ [VBool false];
    mkSeries "assists" bool_ [VBool true] ].

(** A frame whose [deaths] column holds text. *)
Definition text_deaths : DataFrame :=
  [ mkSeries "kills" int64 [VNum 5];
    mkSeries "deaths" object [VStr "one"];
    mkSeries "assists" int64 [VNum 3];
    mkSeries "teamkills" int64 [VNum 16] ].

(** A frame whose [teamkills] column holds text. *)
Definition text_teamkills : DataFrame :=
  [ mkSeries "kills" int64 [VNum 5];
    mkSeries "assists" int64 [VNum 3];
    mkSeries "teamkills" object [VStr "sixteen"] ].

(** The three records of the specification's scenario. *)
Definition scenario : DataFrame :=
  [ mkSeries "kills" int64 [VNum 5; VNum 2; VNum 10];
    mkSeries "deaths" int64 [VNum 1; VNum 2; VNum 0];
    mkSeries "assists" int64 [VNum 3; VNum 0; VNum 5] ].

(** A frame without a [deaths] column. *)
Definition no_deaths : DataFrame :=
  [ mkSeries "kills" int64 [VNum 5];
    mkSeries "assists" int64 [VNum 3] ].

(** One record with a fractional [teamkills] cell, one with none, one
    with a count. *)
Definition fractional_teamkills : DataFrame :=
  [ mkSeries "kills" int64 [VNum 1; VNum 4; VNum 3];
    mkSeries "assists" int64 [VNum 0; VNum 2; VNum 5];
    mkSeries "teamkills" float64 [VNum (1 # 2); VNum 0; VNum 16] ].

(** The shape shared by the two statements of the derived-feature stage:
    when all the source columns are there, compute one cell per row and
    assign the column [target]. *)
Definition derive (srcs : list string) (target : string)
  (f : kind -> row -> outcome value) (df : DataFrame) : outcome DataFrame :=
  if forallb (has_column df) srcs then
    vs <- apply_axis1 f df ;;
    Returns (set_column target float64 vs df)
  else Returns df.

(** The shape shared by the statements of the conversion stage: when the
    column is there, convert it and assign it back. *)
Definition convert_column (n : string) (conv : Series -> outcome Series)
  (df : DataFrame) : outcome DataFrame :=
  if has_column df n then
    c <- getitem df n ;;
    c' <- conv c ;;
    Returns (set_column n (dtype_of c') (values c') df)
  else Returns df.

(** [f] looks at a row through the columns [srcs] only. *)
Definition reads (f : kind -> row -> outcome value) (srcs : list string) : Prop :=
  forall (k : kind) (r r' : row),
    (forall n, In n srcs -> r n = r' n) -> f k r = f k r'.

(** A frame with text dates and numeric flags. *)
Definition dated : DataFrame :=
  [ mkSeries "date" object [VStr "2022-01-10"; VStr "2022-01-11"];
    mkSeries "playoffs" int64 [VNum 1; VNum 0];
    mkSeries "firstblood" float64 [VNum 0; VNaN] ].

(** A parser that knows two dates. *)
Definition two_dates (s : string) : option Z :=
  if String.eqb s "2022-01-10" then Some 1641772800%Z
  else if String.eqb s "2022-01-11" then Some 1641859200%Z
  else None.

(** A numeric column ([float64], [int64]) or a categorical one ([object])
    holds no missing cell. *)
Definition column_filled (c : Series) : bool :=
  if is_float_or_int (dtype_of c) || is_object_dtype (dtype_of c)
  then forallb notna (values c) else true.

Definition no_missing (df : DataFrame) : bool := forallb column_filled df.

(** A cell that is neither a float NaN nor an infinite float. *)
Definition finite_cell (v : value) : bool :=
  match v with VNaN | VInf _ => false | _ => true end.

(** No cell of the frame is an infinite float. *)
Definition finite_frame (df : DataFrame) : bool :=
  forallb (fun c => forallb no_inf (values c)) df.

(** What the pipeline keeps true from its first stage on, when it starts
    from a frame without infinite cells: no column at all holds a float
    NaN or an infinite float, and the numeric and categorical ones hold no
    missing cell of any kind. *)
Definition clean_column (c : Series) : bool :=
  forallb finite_cell (values c) && column_filled c.

Definition clean (df : DataFrame) : bool := forallb clean_column df.

(** What [fillna] makes of one cell of a column of dtype [d] in the
    missing-value stage. *)
Definition filled_cell (d : dtype) (v : value) : value :=
  if isna v then
    if is_float_or_int d then VNum 0
    else if is_object_dtype d then VStr "unknown"
    else v
  else v.

(** A raw frame with missing cells in a numeric and in two categorical
    columns. *)
Definition raw_matches : DataFrame :=
  [ mkSeries "gameid" object [VStr "g1"; VStr "g1"; VStr "g2"];
    mkSeries "playername" object [VStr "Faker"; VNaN; VNaN];
    mkSeries "teamname" object [VStr "T1"; VStr "T1"; VNaN];
    mkSeries "result" float64 [VNum 1; VNaN; VNum 0];
    mkSeries "playoffs" int64 [VNum 1; VNum 0; VNum 0];
    mkSeries "kills" int64 [VNum 5; VNum 2; VNum 10];
    mkSeries "deaths" int64 [VNum 1; VNum 2; VNum 0];
    mkSeries "assists" int64 [VNum 3; VNum 0; VNum 5] ].

(** A reader that finds the raw frame at any path. *)
Definition read_raw_matches (path : string) : outcome DataFrame :=
  Returns raw_matches.

(** A raw frame with infinite kills and deaths. *)
Definition infinite_kills : DataFrame :=
  [ mkSeries "playername" object [VStr "Faker"];
    mkSeries "teamname" object [VStr "T1"];
    mkSeries "kills" float64 [VInf false];
    mkSeries "deaths" float64 [VInf false];
    mkSeries "assists" float64 [VNum 0] ].

Definition read_infinite_kills (path : string) : outcome DataFrame :=
  Returns infinite_kills.

(** The frame [preprocess_data] starts from: the one the loader holds, or,
    when it holds none, the one read from its file. *)
Definition raw_frame (read_csv : string -> outcome DataFrame)
  (L : DataLoader) (df : DataFrame) : Prop :=
  match data L with
  | Some d => d = df
  | None => read_csv (file_path L) = Returns df
  end.

(** A player row and the team row of the same game, as the raw file has
    them: the team row carries no player name. *)
Definition player_and_team_rows : DataFrame :=
  [ mkSeries "gameid" object [VStr "g1"; VStr "g1"];
    mkSeries "playername" object [VStr "Faker"; VNaN];
    mkSeries "teamname" object [VStr "T1"; VStr "T1"];
    mkSeries "result" int64 [VNum 1; VNum 1] ].

Definition read_player_and_team_rows (path : string) : outcome DataFrame :=
  Returns player_and_team_rows.






(** The number in a numeric cell. *)
Definition cell_number (v : value) : Q :=
  match v with
  | VNum q => q
  | VBool b => bool_num b
  | _ => 0
  end.

(** [sum] of a list of numbers, as [agg_sum] adds them. *)
Definition Qsum (qs : list Q) : Q := fold_right Qplus 0 qs.

(** The names of the three columns the win-rate table gives its
    aggregates. *)
Definition win_rate_columns : list string :=
  ["games_played"; "wins"; "win_rate"].

(** The entry of one group in the dictionary of win rates. *)
Definition win_rate_entry (games_played : Z) (wins : Q) : list (string * value) :=
  [("games_played", VNum (inject_Z games_played));
   ("wins", VNum wins);
   ("win_rate", VNum (wins / inject_Z games_played))].

(** The outcome cells are all the numbers 0 or 1. *)
Definition binary (cells : list value) : Prop :=
  forall v, In v cells -> exists q, v = VNum q /\ (q == 0 \/ q == 1).

(** The cells are all numbers. *)
Definition numbers (cells : list value) : Prop :=
  forall v, In v cells -> exists q, v = VNum q.

(** A list without its element at position [i]. *)
Fixpoint remove_nth {A} (i : nat) (l : list A) : list A :=
  match l, i with
  | [], _ => []
  | _ :: rest, O => rest
  | x :: rest, S j => x :: remove_nth j rest
  end.

(** Two groups of teams with a 0/1 outcome. *)
Definition outcomes : DataFrame :=
  [ mkSeries "teamname" object [VStr "T1"; VStr "G2"; VStr "T1"; VStr "T1"];
    mkSeries "result" int64 [VNum 1; VNum 0; VNum 0; VNum 1] ].

(** Two groups of one game each under a grouping column named [n]. *)
Definition two_groups (n : string) : DataFrame :=
  [ mkSeries n object [VStr "a"; VStr "b"];
    mkSeries "result" int64 [VNum 1; VNum 0] ].

(** Frames whose grouping column is named like an aggregate, and one
    whose grouping column is not. *)
Definition wins_column : DataFrame := two_groups "wins".
Definition games_played_column : DataFrame := two_groups "games_played".
Definition win_rate_column : DataFrame := two_groups "win_rate".
Definition team_column : DataFrame := two_groups "team".

(** The columns a stage after the first one can assign. *)
Definition assigned_columns : list string :=
  "date" :: bool_cols ++ ["kda"; "kill_participation"].

(** A raw file in which one outcome is missing. *)
Definition missing_outcome : DataFrame :=
  [ mkSeries "teamname" object [VStr "T1"; VStr "T1"; VStr "G2"];
    mkSeries "playername" object [VStr "Faker"; VStr "Zeus"; VStr "Caps"];
    mkSeries "result" float64 [VNum 1; VNaN; VNum 0] ].

Definition read_missing_outcome (path : string) : outcome DataFrame :=
  Returns missing_outcome.

(** The column is in the frame and is a text or a float column. *)
Definition plain_column (df : DataFrame) (n : string) : bool :=
  match get_column df n with
  | Some c => match dtype_of c with float64 | object => true | _ => false end
  | None => false
  end.


(** A frame whose [playername] column holds no value at all: read from
    empty fields it is a float column of NaN. *)
Definition unnamed_players : DataFrame :=
  [ mkSeries "playername" float64 [VNaN; VNaN];
    mkSeries "kills" int64 [VNum 5; VNum 2] ].

(** A frame with a categorical and a numeric column. *)
Definition champions : DataFrame :=
  [ mkSeries "champion" object
      [VStr "Ahri"; VStr "Zed"; VStr "Ahri"; VStr "Lux"; VStr "Ahri"; VStr "Zed"];
    mkSeries "kills" int64 [VNum 5; VNum 2; VNum 5; VNum 0; VNum 7; VNum 2] ].

(* ================================================================== *)
(** * The other operations of the loader *)

(** A value of the dictionary passed to [filter_data]: one value to
    equal, or a list of accepted values. *)
Inductive criterion :=
| Equals (v : value)
| OneOf (vs : list value).

Section LoaderQueries.

Variable parse_datetime : string -> option Z.
Variable read_csv : string -> outcome DataFrame.

(** One cell [v] of a column of dtype [d] against one given value: a
    datetime column compares a text by the timestamp it reads as. *)
Definition scalar_eq (d : dtype) (given v : value) : bool :=
  match d, given, v with
  | datetime64, VStr s, VTime t =>
      match parse_datetime s with
      | Some t' => Z.eqb t t'
      | None => false
      end
  | _, _, _ => key_eqb v given
  end.

(** [series == value] and [series.isin(values)] on one cell: a missing
    cell equals nothing, and is in a list that holds a missing value. *)
Definition meets (d : dtype) (c : criterion) (v : value) : bool :=
  match c with
  | Equals given => notna v && scalar_eq d given v
  | OneOf given => existsb (fun g => scalar_eq d g v) given
  end.

(** The body of the loop of [filter_data] for one item of the dictionary. *)
Definition filter_step (df : DataFrame) (item : string * criterion) : DataFrame :=
  match get_column df (fst item) with
  | None => df
  | Some s => filter_rows (map (meets (dtype_of s) (snd item)) (values s)) df
  end.

(** The frame a loader works on in its query methods: the one it holds,
    or after [preprocess_data] when it holds none. *)
Definition ensure_data (L : DataLoader) : DataLoader * outcome DataFrame :=
  match data L with
  | None => preprocess_data parse_datetime read_csv L
  | Some df => (L, Returns df)
  end.

Definition filter_data (L : DataLoader) (filters : list (string * criterion))
  : DataLoader * outcome DataFrame :=
  match ensure_data L with
  | (L0, Raises e) => (L0, Raises e)
  | (L0, Returns df) => (L0, Returns (fold_left filter_step filters df))
  end.

Definition get_unique_values (L : DataLoader) (column : string)
  : DataLoader * outcome (list value) :=
  match ensure_data L with
  | (L0, Raises e) => (L0, Raises e)
  | (L0, Returns df) =>
      match get_column df column with
      | Some c => (L0, Returns (unique (values c)))
      | None => (L0, Returns [])
      end
  end.

(** [func] is any Python function of one cell; it may raise. *)
Definition apply_function_to_column (L : DataLoader) (column : string)
  (func : value -> outcome value) : DataLoader * outcome (list value) :=
  match ensure_data L with
  | (L0, Raises e) => (L0, Raises e)
  | (L0, Returns df) =>
      match get_column df column with
      | Some c => (L0, mapM func (values c))
      | None => (L0, Returns [])
      end
  end.

End LoaderQueries.

(** Whether record [i] of the frame meets every item of the dictionary
    whose column the frame has. *)
Definition row_meets (parse_datetime : string -> option Z) (df : DataFrame)
  (filters : list (string * criterion)) (i : nat) : bool :=
  forallb (fun item =>
             match get_column df (fst item) with
             | None => true
             | Some s => match nth_error (values s) i with
                         | Some v => meets parse_datetime (dtype_of s) (snd item) v
                         | None => false
                         end
             end) filters.

(** Number of [True] in a mask. *)
Definition count_true (mask : list bool) : nat := length (filter (fun b => b) mask).

(** A frame of four records for the examples of filtering. *)
Definition games : DataFrame :=
  [ mkSeries "gameid" object [VStr "g1"; VStr "g1"; VStr "g2"; VStr "g3"];
    mkSeries "league" object [VStr "LCK"; VStr "LCK"; VStr "LEC"; VNaN];
    mkSeries "result" int64 [VNum 1; VNum 0; VNum 1; VNum 0] ].

Definition games_loader : DataLoader :=
  mkLoader "matches.csv" (Some games) None None.

Definition no_file (path : string) : outcome DataFrame :=
  Raises (KeyError path).

(** A file that reads as [games]. *)
Definition read_games (path : string) : outcome DataFrame := Returns games.

(** [games] with its missing league filled in. *)
Definition games_filled : DataFrame :=
  [ mkSeries "gameid" object [VStr "g1"; VStr "g1"; VStr "g2"; VStr "g3"];
    mkSeries "league" object [VStr "LCK"; VStr "LCK"; VStr "LEC"; VStr "unknown"];
    mkSeries "result" int64 [VNum 1; VNum 0; VNum 1; VNum 0] ].

(** The columns of [d] are those of [df], in their order, followed by
    some of [added]. *)
Definition extends_by (added : list string) (df d : DataFrame) : Prop :=
  exists extra, columns d = columns df ++ extra /\ incl extra added.

(* ================================================================== *)
(** * The other operations of the analyzer *)

(** [StatsAnalyzer.get_categorical_distribution]; the dictionary as the
    list of its items, in the order of [value_counts]. *)
Definition get_categorical_distribution (data : option DataFrame) (column : string)
  : list (value * Z) :=
  match data with
  | None => []
  | Some df =>
      match get_column df column with
      | None => []
      | Some c =>
          if negb (is_object_dtype (dtype_of c)) then []
          else value_counts (values c)
      end
  end.

(** A column of three categories with a missing cell. *)
Definition roles : DataFrame :=
  [ mkSeries "position" object
      [VStr "mid"; VStr "top"; VNaN; VStr "mid"; VStr "sup"] ].

(* ================================================================== *)
(** * [DataVisualizer.create_multi_plot_dashboard] *)

(** What one of the axes of the dashboard shows. *)
Inductive Panel :=
| BlankPanel
| HistPanel (column : string) (xs : list value) (title : string)
| BarPanel (bars : list (value * Z)) (title : string)
| OffPanel.

Inductive Dashboard :=
| TextDashboard (text : string)
| GridDashboard (n_rows n_cols : nat) (axes : list Panel).

(** [axes[i] = x] on a Python list, for an index in range. *)
Fixpoint update {A} (i : nat) (x : A) (l : list A) : list A :=
  match l, i with
  | [], _ => []
  | _ :: rest, O => x :: rest
  | y :: rest, S j => y :: update j x rest
  end.

(** The body of the loop over the valid columns: a histogram of a
    numeric column, the bars of the ten most frequent values of another. *)
Definition draw_panel (df : DataFrame) (col : string) : outcome Panel :=
  c <- getitem df col ;;
  if is_numeric_dtype (dtype_of c) then
    Returns (HistPanel col (values c) ("Distribuição de " ++ col)%string)
  else
    Returns (BarPanel (nlargest 10 (value_counts (values c)))
               ("Top 10 valores de " ++ col)%string).

(** [for i, col in enumerate(valid_columns): if i < len(axes): ...] *)
Fixpoint draw_columns (df : DataFrame) (i : nat) (cols : list string)
  (axes : list Panel) : outcome (list Panel) :=
  match cols with
  | [] => Returns axes
  | col :: rest =>
      if Nat.ltb i (length axes) then
        p <- draw_panel df col ;;
        draw_columns df (S i) rest (update i p axes)
      else draw_columns df (S i) rest axes
  end.

(** [for i in range(len(valid_columns), len(axes)): axes[i].axis('off')] *)
Definition hide_unused (used : nat) (axes : list Panel) : list Panel :=
  fold_left (fun ax i => update i OffPanel ax)
    (seq used (length axes - used)) axes.

Definition create_multi_plot_dashboard (data : option DataFrame)
  (columns_ : list string) : outcome Dashboard :=
  match data with
  | None => Returns (TextDashboard "Dados não disponíveis")
  | Some df =>
      let valid_columns := filter (has_column df) columns_ in
      match valid_columns with
      | [] => Returns (TextDashboard "Nenhuma coluna válida especificada")
      | _ =>
          let n_cols := Nat.min 3 (length valid_columns) in
          let n_rows := ((length valid_columns + n_cols - 1) / n_cols)%nat in
          let axes :=
            repeat BlankPanel
              (if Nat.ltb 1 (n_rows * n_cols) then (n_rows * n_cols)%nat
               else 1%nat) in
          axes <- draw_columns df 0 valid_columns axes ;;
          Returns (GridDashboard n_rows n_cols
                     (hide_unused (length valid_columns) axes))
      end
  end.

(** A panel on which a chart was drawn. *)
Definition drawn (p : Panel) : bool :=
  match p with HistPanel _ _ _ | BarPanel _ _ => true | _ => false end.

(** Twelve records of eleven champions. *)
Definition eleven_champions : DataFrame :=
  [ mkSeries "champion" object
      [VStr "Ahri"; VStr "Zed"; VStr "Lux"; VStr "Jinx"; VStr "Vi"; VStr "Ashe";
       VStr "Garen"; VStr "Sona"; VStr "Ezreal"; VStr "Leona"; VStr "Yasuo";
       VStr "Ahri"];
    mkSeries "kills" int64
      [VNum 5; VNum 2; VNum 5; VNum 0; VNum 7; VNum 2; VNum 1; VNum 0;
       VNum 9; VNum 1; VNum 4; VNum 3];
    mkSeries "deaths" int64
      [VNum 1; VNum 2; VNum 0; VNum 3; VNum 2; VNum 2; VNum 4; VNum 1;
       VNum 0; VNum 5; VNum 6; VNum 2] ].

(* ================================================================== *)
(** * [StatsAnalyzer.get_performance_metrics] *)

(** [d[key]] on a dictionary with text keys, as the list of its items. *)
Fixpoint lookup {A} (d : list (string * A)) (key : string) : option A :=
  match d with
  | [] => None
  | (k, a) :: rest => if String.eqb k key then Some a else lookup rest key
  end.

(** The timestamps among the cells. *)
Definition times (cells : list value) : list Z :=
  flat_map (fun v => match v with VTime t => [t] | _ => [] end) cells.

Section Metrics.

(** The mean of the timestamps of a datetime column, as the library
    rounds it. *)
Variable mean_time : list Z -> Z.

(** [Series.mean()]: the mean of the cells that are not missing, NaN when
    there is none; text does not average.  The mean of a column of
    timestamps is a timestamp. *)
Definition series_mean (c : Series) : outcome value :=
  if is_datetime64_dtype (dtype_of c) then
    match times (values c) with
    | [] => Returns VNaT
    | ts => Returns (VTime (mean_time ts))
    end
  else
    s <- agg_sum (values c) ;;
    Returns (np_div s (VNum (inject_Z (agg_count (values c))))).

(** [mean / 60]; [NaT / 60] is [NaT]. *)
Definition minutes (v : value) : outcome value :=
  match v with
  | VNaT => Returns VNaT
  | _ => py_div v (VNum 60)
  end.

(** [if column in self.data.columns: metrics[key] = post(self.data[column].mean())] *)
Definition add_metric (df : DataFrame) (column key : string)
  (post : value -> outcome value) (metrics : list (string * value))
  : outcome (list (string * value)) :=
  if has_column df column then
    c <- getitem df column ;;
    m <- series_mean c ;;
    v <- post m ;;
    Returns (metrics ++ [(key, v)])
  else Returns metrics.

(** The loop over [['dragons', 'barons', 'towers', 'inhibitors']]. *)
Fixpoint add_averages (df : DataFrame) (names : list string)
  (metrics : list (string * value)) : outcome (list (string * value)) :=
  match names with
  | [] => Returns metrics
  | metric :: rest =>
      metrics' <- add_metric df metric ("avg_" ++ metric)%string
                    (fun v => Returns v) metrics ;;
      add_averages df rest metrics'
  end.

(** The dictionary as the list of its items, in the order the keys are
    assigned (for a frame with at least one row). *)
Definition get_performance_metrics (data : option DataFrame)
  : outcome (list (string * value)) :=
  match data with
  | None => Returns []
  | Some df =>
      metrics <-
        (if forallb (has_column df) ["kills"; "deaths"; "assists"] then
           vs <- apply_axis1 kda_row df ;;
           a <- series_mean (mkSeries "" float64 vs) ;;
           Returns [("avg_kda", a)]
         else Returns []) ;;
      metrics <- add_metric df "gamelength" "avg_game_duration" minutes metrics ;;
      metrics <- add_metric df "firstblood" "first_blood_rate"
                   (fun v => Returns v) metrics ;;
      add_averages df ["dragons"; "barons"; "towers"; "inhibitors"] metrics
  end.

End Metrics.

(** A mean of timestamps for examples: the first one. *)
Definition first_time (ts : list Z) : Z := hd 0%Z ts.

(** The cells are all Booleans. *)
Definition flags (cells : list value) : Prop :=
  forall v, In v cells -> exists b, v = VBool b.

(** Three games with the derived column a loader adds. *)
Definition played : DataFrame :=
  [ mkSeries "kills" int64 [VNum 5; VNum 2; VNum 10];
    mkSeries "deaths" int64 [VNum 1; VNum 2; VNum 0];
    mkSeries "assists" int64 [VNum 3; VNum 0; VNum 5];
    mkSeries "gamelength" int64 [VNum 1800; VNum 2400; VNum 1200];
    mkSeries "firstblood" bool_ [VBool true; VBool false; VBool true] ].

(* ================================================================== *)
(** * [StatsAnalyzer.get_basic_stats] *)

(** The order of two numbers, the infinities included. *)
Definition num_leb (a b : value) : bool :=
  match a, b with
  | VInf true, _ => true
  | _, VInf false => true
  | VNum x, VNum y => Qle_bool x y
  | _, _ => false
  end.

Definition num_min (a b : value) : value := if num_leb a b then a else b.

Definition num_max (a b : value) : value := if num_leb a b then b else a.

(** The sum of two floats. *)
Definition num_add (a b : value) : value := result_or VNaN (plain_add a b).

Definition num_sum (xs : list value) : value := fold_right num_add (VNum 0) xs.

(** Ascending insertion sort, for the median. *)
Fixpoint insert_asc (x : value) (l : list value) : list value :=
  match l with
  | [] => [x]
  | y :: rest => if num_leb x y then x :: y :: rest else y :: insert_asc x rest
  end.

Fixpoint sort_asc (l : list value) : list value :=
  match l with
  | [] => []
  | x :: rest => insert_asc x (sort_asc rest)
  end.

(** The number in a cell of a numeric column, as a float. *)
Definition as_number (v : value) : outcome value :=
  match v with
  | VNum q => Returns (VNum q)
  | VBool b => Returns (VNum (bool_num b))
  | VInf n => Returns (VInf n)
  | _ => Raises TypeError
  end.

(** The numbers of a list when all of them are finite. *)
Fixpoint finite_numbers (xs : list value) : option (list Q) :=
  match xs with
  | [] => Some []
  | VNum q :: rest => option_map (cons q) (finite_numbers rest)
  | _ :: _ => None
  end.

(** A minimum or maximum of a column of Booleans is a Boolean. *)
Definition extreme (d : dtype) (v : value) : value :=
  match d, v with
  | bool_, VNum q => VBool (negb (Qeq_bool q 0))
  | _, _ => v
  end.

Definition count_of (xs : list value) : value :=
  VNum (inject_Z (Z.of_nat (length xs))).

Section BasicStats.

(** [np.sqrt] *)
Variable sqrt : Q -> Q.

Definition np_mean (xs : list value) : value :=
  match xs with
  | [] => VNaN
  | _ => np_div (num_sum xs) (count_of xs)
  end.

Definition np_median (xs : list value) : value :=
  match xs with
  | [] => VNaN
  | _ =>
      let s := sort_asc xs in
      let n := length xs in
      if Nat.even n
      then np_div (num_add (nth (n / 2 - 1) s VNaN) (nth (n / 2) s VNaN)) (VNum 2)
      else nth (n / 2) s VNaN
  end.

(** The mean squared deviation of finite numbers over [n - ddof]. *)
Definition variance (ddof : Z) (qs : list Q) : Q :=
  let m := Qsum qs / inject_Z (Z.of_nat (length qs)) in
  Qsum (map (fun x => (x - m) * (x - m)) qs)
  / inject_Z (Z.of_nat (length qs) - ddof).

(** [np.std]: the root of the mean squared deviation ([ddof=0]); NaN as
    soon as a cell is infinite. *)
Definition np_std (xs : list value) : value :=
  match xs with
  | [] => VNaN
  | _ => match finite_numbers xs with
         | Some qs => VNum (sqrt (variance 0 qs))
         | None => VNaN
         end
  end.

Definition np_min (d : dtype) (xs : list value) : value :=
  match xs with
  | [] => VNaN
  | x :: rest => extreme d (fold_left num_min rest x)
  end.

Definition np_max (d : dtype) (xs : list value) : value :=
  match xs with
  | [] => VNaN
  | x :: rest => extreme d (fold_left num_max rest x)
  end.

(** [{stat_name: stat_func(numeric_data[col].dropna()) for ...}] *)
Definition column_stats (c : Series) : outcome (list (string * value)) :=
  xs <- mapM as_number (filter notna (values c)) ;;
  Returns [("mean", np_mean xs);
           ("median", np_median xs);
           ("std", np_std xs);
           ("min", np_min (dtype_of c) xs);
           ("max", np_max (dtype_of c) xs);
           ("count", count_of xs)].

(** The columns the statistics are computed for: the float and integer
    ones, or those of the given names that the frame has as numeric
    columns. *)
Definition numeric_data (df : DataFrame) (columns_ : option (list string))
  : DataFrame :=
  match columns_ with
  | None => filter (fun c => is_float_or_int (dtype_of c)) df
  | Some cols =>
      flat_map (fun col => match get_column df col with
                           | Some c => if is_numeric_dtype (dtype_of c) then [c]
                                       else []
                           | None => []
                           end) cols
  end.

(** The dictionary as the list of its items (column names taken to be
    distinct, as in a frame read from a file). *)
Definition get_basic_stats (data : option DataFrame)
  (columns_ : option (list string))
  : outcome (list (string * list (string * value))) :=
  match data with
  | None => Returns []
  | Some df =>
      mapM (fun c => s <- column_stats c ;; Returns (name c, s))
        (numeric_data df columns_)
  end.

End BasicStats.

(** A root for examples: the integer part. *)
Definition floor_root (q : Q) : Q := inject_Z (Z.sqrt (Qfloor q)).

(* ================================================================== *)
(** * [StatsAnalyzer.get_group_comparison] *)

Section GroupComparison.

Variable sqrt : Q -> Q.




End GroupComparison.

(** The cells [as_number] returns: numbers and infinite floats. *)
Definition ordered (v : value) : bool :=
  match v with VNum _ | VInf _ => true | _ => false end.

(** The names a request stands for: those of the list, or without a list
    those of the frame. *)
Definition requested (df : DataFrame) (columns_ : option (list string))
  : list string :=
  match columns_ with Some cols => cols | None => columns df end.
(* ================================================================== *)
(** * Facts about frames *)

Lemma has_column_get df n :
  has_column df n = match get_column df n with Some _ => true | None => false end.
Proof.
  unfold has_column, columns.
  induction df as [|c df IH]; simpl; auto.
  destruct (String.eqb n (name c)); simpl; auto.
Qed.

Lemma get_column_In df n c : get_column df n = Some c -> In c df /\ name c = n.
Proof.
  induction df as [|c0 df IH]; simpl; [discriminate|].
  destruct (String.eqb n (name c0)) eqn:E; intros H.
  - inversion H; subst. apply String.eqb_eq in E. auto.
  - destruct (IH H); auto.
Qed.

Lemma get_set_same n d vs df :
  get_column (set_column n d vs df) n = Some (mkSeries n d vs).
Proof.
  induction df as [|c df IH]; simpl.
  - now rewrite String.eqb_refl.
  - destruct (String.eqb n (name c)) eqn:E; simpl.
    + now rewrite String.eqb_refl.
    + now rewrite E.
Qed.

Lemma get_set_other n m d vs df :
  m <> n -> get_column (set_column n d vs df) m = get_column df m.
Proof.
  intros Hne. apply String.eqb_neq in Hne.
  induction df as [|c df IH]; simpl.
  - now rewrite Hne.
  - destruct (String.eqb n (name c)) eqn:E; simpl.
    + apply String.eqb_eq in E. subst n. now rewrite Hne.
    + now rewrite IH.
Qed.

Lemma set_set n d vs d' vs' df :
  set_column n d vs (set_column n d' vs' df) = set_column n d vs df.
Proof.
  induction df as [|c df IH]; simpl.
  - now rewrite String.eqb_refl.
  - destruct (String.eqb n (name c)) eqn:E; simpl.
    + now rewrite String.eqb_refl.
    + now rewrite E, IH.
Qed.

Lemma has_set_other n m d vs df :
  m <> n -> has_column (set_column n d vs df) m = has_column df m.
Proof. intros. now rewrite !has_column_get, get_set_other. Qed.

Lemma has_set_column n m d vs df :
  has_column df m = true -> has_column (set_column n d vs df) m = true.
Proof.
  intros H. destruct (String.eqb_spec m n) as [->|Hne].
  - now rewrite has_column_get, get_set_same.
  - now rewrite has_set_other.
Qed.

Lemma row_at_set_other n m d vs df i :
  m <> n -> row_at (set_column n d vs df) i m = row_at df i m.
Proof. intros. unfold row_at. now rewrite get_set_other. Qed.

Lemma nrows_set n d vs df :
  length vs = nrows df -> nrows (set_column n d vs df) = nrows df.
Proof.
  destruct df as [|c df]; simpl; auto.
  destruct (String.eqb n (name c)); simpl; auto.
Qed.

Lemma rectangular_forall df :
  rectangular df = true <-> (forall c, In c df -> length (values c) = nrows df).
Proof.
  unfold rectangular. rewrite forallb_forall.
  split; intros H c Hc; specialize (H c Hc); now apply Nat.eqb_eq.
Qed.

Lemma rectangular_get df n c :
  rectangular df = true -> get_column df n = Some c ->
  length (values c) = nrows df.
Proof.
  intros R G. apply get_column_In in G. rewrite rectangular_forall in R.
  now apply R.
Qed.

Lemma In_set_column n d vs df c :
  In c (set_column n d vs df) -> In c df \/ c = mkSeries n d vs.
Proof.
  induction df as [|c0 df IH]; simpl.
  - intros [H|[]]; auto.
  - destruct (String.eqb n (name c0)); simpl; intros [H|H]; auto.
    destruct (IH H); auto.
Qed.

Lemma rectangular_set n d vs df :
  rectangular df = true -> length vs = nrows df ->
  rectangular (set_column n d vs df) = true.
Proof.
  intros R L. apply rectangular_forall. intros c Hc.
  rewrite nrows_set by assumption.
  apply In_set_column in Hc. destruct Hc as [Hc| ->]; simpl; auto.
  rewrite rectangular_forall in R. now apply R.
Qed.

(** * Facts about [mapM] and row-wise application *)

Lemma mapM_ext {A B} (f g : A -> outcome B) l :
  (forall x, In x l -> f x = g x) -> mapM f l = mapM g l.
Proof.
  induction l as [|x l IH]; simpl; intros H; auto.
  rewrite (H x) by auto. rewrite IH; auto.
Qed.

Lemma mapM_all_return {A B} (f : A -> outcome B) (d : B) l :
  (forall x, In x l -> exists y, f x = Returns y) ->
  mapM f l = Returns (map (fun x => result_or d (f x)) l).
Proof.
  induction l as [|x l IH]; simpl; intros H; auto.
  destruct (H x) as [y Hy]; auto.
  rewrite Hy, IH; simpl; auto.
Qed.

Lemma mapM_length {A B} (f : A -> outcome B) l ys :
  mapM f l = Returns ys -> length ys = length l.
Proof.
  revert ys. induction l as [|x l IH]; simpl; intros ys H.
  - now inversion H.
  - destruct (f x); simpl in H; [|discriminate].
    destruct (mapM f l); simpl in H; [|discriminate].
    inversion H; subst; simpl. now rewrite (IH _ eq_refl).
Qed.

Lemma mapM_raises {A B} (f : A -> outcome B) l x e :
  In x l -> f x = Raises e -> exists e', mapM f l = Raises e'.
Proof.
  induction l as [|y l IH]; simpl; intros H E; [tauto|].
  destruct (f y) as [b|e0] eqn:Fy; simpl; eauto.
  destruct H as [->|H]; [congruence|].
  destruct (IH H E) as [e' ->]. simpl. eauto.
Qed.

Lemma apply_axis1_ext f g df :
  (forall i, (i < nrows df)%nat ->
             f (row_kind df) (row_at df i) = g (row_kind df) (row_at df i)) ->
  apply_axis1 f df = apply_axis1 g df.
Proof.
  intros H. apply mapM_ext. intros i Hi. apply in_seq in Hi. apply H. lia.
Qed.

Lemma apply_axis1_length f df vs :
  apply_axis1 f df = Returns vs -> length vs = nrows df.
Proof.
  intros H. apply mapM_length in H. now rewrite length_seq in H.
Qed.

Lemma apply_axis1_all_return f df :
  (forall i, (i < nrows df)%nat ->
             exists y, f (row_kind df) (row_at df i) = Returns y) ->
  apply_axis1 f df =
  Returns (map (fun i => result_or VNaN (f (row_kind df) (row_at df i)))
               (seq 0 (nrows df))).
Proof.
  intros H. apply mapM_all_return. intros i Hi. apply in_seq in Hi.
  apply H. lia.
Qed.

Lemma apply_axis1_raises f df i e :
  (i < nrows df)%nat -> f (row_kind df) (row_at df i) = Raises e ->
  exists e', apply_axis1 f df = Raises e'.
Proof.
  intros Hi E. apply (mapM_raises _ _ i e); auto. apply in_seq. lia.
Qed.

Lemma nth_error_map_seq {A} (g : nat -> A) n i :
  (i < n)%nat -> nth_error (map g (seq 0 n)) i = Some (g i).
Proof.
  intros H. rewrite nth_error_map, nth_error_seq.
  destruct (Nat.ltb_spec i n); [reflexivity|lia].
Qed.

(* ================================================================== *)
(** * The kind of the rows *)

Lemma join_dtype_plain ds d :
  d = float64 \/ d = object ->
  fold_left join_dtype ds d = float64 \/ fold_left join_dtype ds d = object.
Proof.
  revert d. induction ds as [|x ds IH]; simpl; intros d H; auto.
  apply IH. destruct H as [-> | ->]; destruct x; simpl; auto.
Qed.

Lemma join_dtype_in ds d x :
  In x ds -> x = float64 \/ x = object ->
  fold_left join_dtype ds d = float64 \/ fold_left join_dtype ds d = object.
Proof.
  revert d. induction ds as [|y ds IH]; simpl; intros d I X; [tauto|].
  destruct I as [->|I].
  - apply join_dtype_plain. destruct X as [-> | ->]; destruct d; simpl; auto.
  - now apply IH.
Qed.

(** A frame with a float or an object column hands out rows of floats or
    of Python objects. *)
Lemma row_kind_plain df c :
  In c df -> dtype_of c = float64 \/ dtype_of c = object ->
  row_kind df = PlainCells.
Proof.
  intros I F. unfold row_kind, common_dtype.
  destruct df as [|c0 rest]; [destruct I|].
  assert (H : fold_left join_dtype (map dtype_of rest) (dtype_of c0) = float64
              \/ fold_left join_dtype (map dtype_of rest) (dtype_of c0) = object).
  { destruct I as [->|I].
    - now apply join_dtype_plain.
    - apply (join_dtype_in _ _ (dtype_of c)); auto. now apply in_map. }
  destruct H as [-> | ->]; reflexivity.
Qed.

Lemma row_kind_set_float n vs df :
  row_kind (set_column n float64 vs df) = PlainCells.
Proof.
  apply (row_kind_plain _ (mkSeries n float64 vs)); auto.
  apply (get_column_In _ n). apply get_set_same.
Qed.

(* ================================================================== *)
(** * Derived features *)

Lemma max1_Qmax d : (if Qlt_bool 1 d then d else 1) = Qmax 1 d.
Proof.
  unfold Qmax, GenericMinMax.gmax, Qlt_bool.
  destruct (Qle_bool d 1) eqn:E; cbn [negb].
  - apply Qle_bool_iff in E.
    destruct (1 ?= d)%Q eqn:C; auto.
    apply Qlt_alt in C. exfalso. now apply (Qlt_not_le 1 d).
  - assert (H : 1 < d).
    { apply Qnot_le_lt. intros H. apply Qle_bool_iff in H. congruence. }
    destruct (1 ?= d)%Q eqn:C; auto; exfalso.
    + apply Qeq_alt in C. rewrite C in H. now apply (Qlt_irrefl d).
    + apply Qgt_alt in C. apply (Qlt_irrefl d). now apply Qlt_trans with 1.
Qed.

Lemma Qmax1_nonzero d : Qeq_bool (Qmax 1 d) 0 = false.
Proof.
  destruct (Qeq_bool (Qmax 1 d) 0) eqn:E; auto.
  apply Qeq_bool_iff in E.
  pose proof (Q.le_max_l 1 d) as H. rewrite E in H.
  exfalso. revert H. apply Qlt_not_le. reflexivity.
Qed.

Lemma py_max1_num d : py_max1 (VNum d) = Returns (VNum (Qmax 1 d)).
Proof. simpl. now rewrite max1_Qmax. Qed.

Lemma number_column_cell df n i :
  number_column df n = true -> rectangular df = true -> (i < nrows df)%nat ->
  exists v, row_at df i n = Some v /\ is_number v = true.
Proof.
  unfold number_column, row_at. intros N R Hi.
  destruct (get_column df n) as [c|] eqn:G; [|discriminate].
  apply andb_prop in N. destruct N as [T F].
  pose proof (rectangular_get _ _ _ R G) as L.
  destruct (nth_error (values c) i) as [v|] eqn:E.
  - exists v. split; auto.
    rewrite forallb_forall in F. specialize (F v (nth_error_In _ _ E)).
    destruct (dtype_of c), v; simpl in *; try discriminate; eauto.
  - apply nth_error_None in E. lia.
Qed.

Lemma number_column_has df n : number_column df n = true -> has_column df n = true.
Proof.
  unfold number_column. rewrite has_column_get.
  destruct (get_column df n); auto.
Qed.

Lemma py_add_num kd k a :
  py_add kd (VNum k) (VNum a) = Returns (VNum (cell_sum kd k a)).
Proof. destruct kd; reflexivity. Qed.

Lemma kda_row_value kd (r : row) k a d :
  r "kills" = Some (VNum k) -> r "assists" = Some (VNum a) ->
  r "deaths" = Some (VNum d) ->
  kda_row kd r = Returns (VNum (cell_sum kd k a / Qmax 1 d)).
Proof.
  intros K A D. unfold kda_row, row_get. rewrite K, A, D. cbn [bind].
  rewrite py_add_num. cbn [bind]. rewrite py_max1_num. cbn [bind].
  simpl. now rewrite Qmax1_nonzero.
Qed.

(** Dividing a number by what [max(1, _)] made of a number returns. *)
Lemma py_div_max1_returns s d :
  is_number s = true -> is_number d = true ->
  exists y, (m <- py_max1 d ;; py_div s m) = Returns y.
Proof.
  destruct s, d; simpl; try discriminate; intros _ _;
    rewrite ?max1_Qmax, ?Qmax1_nonzero; eauto;
    match goal with
    | |- context [if ?n then _ else _] => destruct n; simpl; eauto
    end.
Qed.

Lemma py_add_returns kd k a :
  is_number k = true -> is_number a = true ->
  exists s, py_add kd k a = Returns s /\ is_number s = true.
Proof.
  destruct kd, k, a; simpl; try discriminate; intros _ _; eauto;
    match goal with
    | |- context [if ?n then _ else _] => destruct n; simpl; eauto
    end.
Qed.

Lemma kda_row_returns kd (r : row) k a d :
  r "kills" = Some k -> r "assists" = Some a -> r "deaths" = Some d ->
  is_number k = true -> is_number a = true -> is_number d = true ->
  exists y, kda_row kd r = Returns y.
Proof.
  intros K A D Nk Na Nd. unfold kda_row, row_get. rewrite K, A, D. cbn [bind].
  destruct (py_add_returns kd k a Nk Na) as (s & -> & Ns). cbn [bind].
  now apply py_div_max1_returns.
Qed.

(** A text cell among the three makes the row raise. *)
Lemma kda_row_text kd (r : row) k a d :
  r "kills" = Some k -> r "assists" = Some a -> r "deaths" = Some d ->
  is_text k || is_text a || is_text d = true ->
  exists e, kda_row kd r = Raises e.
Proof.
  intros K A D T. unfold kda_row, row_get. rewrite K, A, D. cbn [bind].
  destruct kd, k, a, d; simpl in *; try discriminate; eauto;
    repeat match goal with
    | |- context [if ?n then _ else _] => destruct n; simpl; eauto
    end.
Qed.

Lemma add_kda_numeric df :
  rectangular df = true ->
  number_column df "kills" = true -> number_column df "deaths" = true ->
  number_column df "assists" = true ->
  add_kda df =
  Returns (set_column "kda" float64
             (map (fun i => result_or VNaN (kda_row (row_kind df) (row_at df i)))
                  (seq 0 (nrows df))) df).
Proof.
  intros R K D A. unfold add_kda. simpl forallb.
  rewrite !number_column_has by assumption. simpl.
  rewrite apply_axis1_all_return; [reflexivity|].
  intros i Hi.
  destruct (number_column_cell _ _ i K R Hi) as (k & Hk & Nk).
  destruct (number_column_cell _ _ i D R Hi) as (d & Hd & Nd).
  destruct (number_column_cell _ _ i A R Hi) as (a & Ha & Na).
  eapply kda_row_returns; eauto.
Qed.

Lemma add_kda_absent df :
  forallb (has_column df) ["kills"; "deaths"; "assists"] = false ->
  add_kda df = Returns df.
Proof. intros H. unfold add_kda. now rewrite H. Qed.

Lemma add_kill_participation_other df df' m :
  add_kill_participation df = Returns df' -> m <> "kill_participation" ->
  get_column df' m = get_column df m.
Proof.
  unfold add_kill_participation. intros H Hm.
  destruct (forallb _ _).
  - destruct (apply_axis1 _ df); simpl in H; inversion H; subst.
    now apply get_set_other.
  - now inversion H.
Qed.

Lemma add_kda_other df df' m :
  add_kda df = Returns df' -> m <> "kda" -> get_column df' m = get_column df m.
Proof.
  unfold add_kda. intros H Hm.
  destruct (forallb _ _).
  - destruct (apply_axis1 _ df); simpl in H; inversion H; subst.
    now apply get_set_other.
  - now inversion H.
Qed.

(** The [kda] column of the frame the stage leaves behind is the one its
    first statement made, whether or not the second statement raises. *)
Lemma derived_features_kda df :
  get_column (fst (_add_derived_features df)) "kda" =
  match add_kda df with
  | Returns df1 => get_column df1 "kda"
  | Raises _ => get_column df "kda"
  end.
Proof.
  unfold _add_derived_features. simpl.
  destruct (add_kda df) as [df1|e]; simpl; auto.
  destruct (add_kill_participation df1) as [df2|e] eqn:E; simpl; auto.
  apply (add_kill_participation_other _ _ "kda" E). discriminate.
Qed.

Lemma cell_in_range df n i v :
  rectangular df = true -> cell df n i = Some v ->
  (i < nrows df)%nat /\ has_column df n = true.
Proof.
  unfold cell, row_at. intros R H. rewrite has_column_get.
  destruct (get_column df n) as [c|] eqn:G; [|discriminate].
  split; auto.
  rewrite <- (rectangular_get _ _ _ R G). apply nth_error_Some. congruence.
Qed.

(** A text cell among [kills], [deaths] and [assists] makes the first
    statement of the stage raise. *)
Lemma add_kda_text df i k d a :
  rectangular df = true ->
  cell df "kills" i = Some k -> cell df "deaths" i = Some d ->
  cell df "assists" i = Some a ->
  is_text k || is_text a || is_text d = true ->
  exists e, add_kda df = Raises e.
Proof.
  intros R Hk Hd Ha T.
  destruct (cell_in_range _ _ _ _ R Hk) as [Hi Ck].
  destruct (cell_in_range _ _ _ _ R Hd) as [_ Cd].
  destruct (cell_in_range _ _ _ _ R Ha) as [_ Ca].
  destruct (kda_row_text (row_kind df) (row_at df i) k a d Hk Ha Hd T)
    as [e E].
  destruct (apply_axis1_raises kda_row df i e Hi E) as [e' E'].
  exists e'. unfold add_kda. simpl forallb.
  rewrite Ck, Cd, Ca. simpl. now rewrite E'.
Qed.

(** Within the 64-bit range the wrapped sum is the sum. *)
Lemma wrap64_in_range z : (- 2 ^ 63 <= z < 2 ^ 63)%Z -> wrap64 z = z.
Proof.
  intros H. unfold wrap64. rewrite Z.mod_small; lia.
Qed.

Lemma cell_sum_in_range kd k a :
  k == inject_Z (Qfloor k) -> a == inject_Z (Qfloor a) ->
  (- 2 ^ 63 <= Qfloor k + Qfloor a < 2 ^ 63)%Z ->
  cell_sum kd k a == k + a.
Proof.
  intros K A H. destruct kd; simpl; try reflexivity.
  rewrite wrap64_in_range by assumption.
  rewrite inject_Z_plus. rewrite <- K, <- A. reflexivity.
Qed.

(** C3, as the code has it.  When [kills], [deaths] and [assists] are
    numeric columns of the frame, the derived-feature stage leaves a [kda]
    column with one cell per record, and on every record whose three
    cells are numbers that cell is (kills + assists) / max(1, deaths),
    the sum being the one the rows of the frame take: the exact sum,
    unless every column of the frame is [int64], where it wraps around
    at 64 bits (and is still the exact sum of whole numbers within the
    range).  When one of the three columns is absent the stage leaves
    the [kda] column as it found it: absent if it was absent.  When the
    three columns are there and a record holds text in one of them, the
    stage raises and leaves the frame as it found it. *)
Theorem kda_column (df : DataFrame) :
  (rectangular df = true ->
   number_column df "kills" = true -> number_column df "deaths" = true ->
   number_column df "assists" = true ->
   exists c,
     get_column (fst (_add_derived_features df)) "kda" = Some c /\
     length (values c) = nrows df /\
     forall i k d a,
       cell df "kills" i = Some (VNum k) ->
       cell df "deaths" i = Some (VNum d) ->
       cell df "assists" i = Some (VNum a) ->
       nth_error (values c) i = Some (VNum (row_sum df k a / Qmax 1 d)))
  /\
  (row_kind df <> Int64Cells -> forall k a, row_sum df k a = k + a)
  /\
  (forall k a, int64_range k -> int64_range a ->
               (- 2 ^ 63 <= Qfloor k + Qfloor a < 2 ^ 63)%Z ->
               row_sum df k a == k + a)
  /\
  (forallb (has_column df) ["kills"; "deaths"; "assists"] = false ->
   get_column (fst (_add_derived_features df)) "kda" = get_column df "kda")
  /\
  (rectangular df = true ->
   forall i k d a,
     cell df "kills" i = Some k -> cell df "deaths" i = Some d ->
     cell df "assists" i = Some a ->
     is_text k || is_text a || is_text d = true ->
     exists e, _add_derived_features df = (df, Some e)).
Proof.
  split; [|split; [|split; [|split]]].
  - intros R K D A. rewrite derived_features_kda, add_kda_numeric by assumption.
    rewrite get_set_same. eexists. split; [reflexivity|]. simpl.
    split; [now rewrite length_map, length_seq|].
    intros i k d a Hk Hd Ha.
    destruct (cell_in_range _ _ _ _ R Hk) as [Hi _]. unfold cell in *.
    rewrite nth_error_map_seq by assumption.
    now rewrite (kda_row_value _ _ k a d).
  - intros H k a. unfold row_sum. destruct (row_kind df); auto. congruence.
  - intros k a [K _] [A _] H. now apply cell_sum_in_range.
  - intros H. rewrite derived_features_kda, add_kda_absent; auto.
  - intros R i k d a Hk Hd Ha T.
    destruct (add_kda_text df i k d a R Hk Hd Ha T) as [e E].
    exists e. unfold _add_derived_features. simpl. now rewrite E.
Qed.

Lemma kda_column_witness :
  (exists c,
     get_column (fst (_add_derived_features scenario)) "kda" = Some c /\
     length (values c) = nrows scenario /\
     forall i k d a,
       cell scenario "kills" i = Some (VNum k) ->
       cell scenario "deaths" i = Some (VNum d) ->
       cell scenario "assists" i = Some (VNum a) ->
       nth_error (values c) i = Some (VNum (row_sum scenario k a / Qmax 1 d)))
  /\ row_sum no_deaths 5 3 == 5 + 3
  /\ get_column (fst (_add_derived_features no_deaths)) "kda"
     = get_column no_deaths "kda"
  /\ exists e, _add_derived_features text_kills = (text_kills, Some e).
Proof.
  split; [|split; [|split]].
  - apply (proj1 (kda_column scenario)); reflexivity.
  - apply (proj1 (proj2 (proj2 (kda_column no_deaths)))).
    + split; [reflexivity | split; discriminate || reflexivity].
    + split; [reflexivity | split; discriminate || reflexivity].
    + split; discriminate || reflexivity.
  - apply (proj1 (proj2 (proj2 (proj2 (kda_column no_deaths))))). reflexivity.
  - apply (proj2 (proj2 (proj2 (proj2 (kda_column text_kills)))) eq_refl
             0%nat (VStr "five") (VNum 1) (VNum 3)); reflexivity.
Defined.

(** The scenario of the specification: ratios 8, 1 and 15. *)
Example kda_scenario :
  exists c,
    get_column (fst (_add_derived_features scenario)) "kda" = Some c /\
    Forall2 (fun v q => exists x, v = VNum x /\ x == q) (values c) [8; 1; 15].
Proof.
  eexists. split; [reflexivity|].
  repeat constructor; eexists; (split; [reflexivity|reflexivity]).
Qed.

(** C3 as stated fails on two kinds of dataset.  On a frame of [int64]
    columns only, kills = 2^63 - 1 and assists = 1 give the ratio
    -2^63, not 2^63: the sum of two 64-bit integers wraps around.  On a
    frame whose [kills] column holds text the three columns are there,
    yet the stage raises and adds no [kda] column. *)
Lemma kda_wraps_or_raises :
  (number_column large_integers "kills" = true /\
   number_column large_integers "deaths" = true /\
   number_column large_integers "assists" = true /\
   cell large_integers "kills" 0 = Some (VNum (inject_Z (2 ^ 63 - 1))) /\
   cell large_integers "deaths" 0 = Some (VNum 0) /\
   cell large_integers "assists" 0 = Some (VNum 1) /\
   exists v,
     cell (fst (_add_derived_features large_integers)) "kda" 0 = Some (VNum v) /\
     v == inject_Z (- 2 ^ 63) /\
     ~ v == (inject_Z (2 ^ 63 - 1) + 1) / Qmax 1 0)
  /\
  (forallb (has_column text_kills) ["kills"; "deaths"; "assists"] = true /\
   _add_derived_features text_kills = (text_kills, Some TypeError) /\
   get_column (fst (_add_derived_features text_kills)) "kda" = None).
Proof.
  split.
  - repeat (split; [reflexivity|]).
    eexists. split; [reflexivity|]. split; [reflexivity|]. discriminate.
  - repeat split.
Qed.

(** ** Kill participation *)

Lemma kill_participation_row_value kd (r : row) k a t :
  r "kills" = Some (VNum k) -> r "assists" = Some (VNum a) ->
  r "teamkills" = Some (VNum t) ->
  kill_participation_row kd r =
  Returns (VNum (if Qlt_bool 0 t then cell_sum kd k a / Qmax 1 t else 0)).
Proof.
  intros K A T. unfold kill_participation_row, row_get. rewrite K, A, T.
  cbn [bind py_gt0]. destruct (Qlt_bool 0 t); auto.
  rewrite py_add_num. cbn [bind]. rewrite py_max1_num. cbn [bind].
  simpl. now rewrite Qmax1_nonzero.
Qed.

Lemma kill_participation_row_returns kd (r : row) k a t :
  r "kills" = Some k -> r "assists" = Some a -> r "teamkills" = Some t ->
  is_number k = true -> is_number a = true -> is_number t = true ->
  exists y, kill_participation_row kd r = Returns y.
Proof.
  intros K A T Nk Na Nt. unfold kill_participation_row, row_get.
  rewrite K, A, T. cbn [bind].
  assert (G : exists c, py_gt0 t = Returns c)
    by (destruct t; simpl in *; try discriminate; eauto).
  destruct G as [c ->]. cbn [bind]. destruct c; eauto.
  destruct (py_add_returns kd k a Nk Na) as (s & -> & Ns). cbn [bind].
  now apply py_div_max1_returns.
Qed.

(** A text [teamkills] cell makes the row raise, and so does a text
    [kills] or [assists] cell beside a positive number of team kills. *)
Lemma kill_participation_row_text kd (r : row) k a t :
  r "kills" = Some k -> r "assists" = Some a -> r "teamkills" = Some t ->
  is_text t = true \/
  (is_text k || is_text a = true /\ exists q, t = VNum q /\ 0 < q) ->
  exists e, kill_participation_row kd r = Raises e.
Proof.
  intros K A T H. unfold kill_participation_row, row_get.
  rewrite K, A, T. cbn [bind].
  destruct H as [H | [H (q & -> & Hq)]].
  - destruct t; simpl in *; try discriminate; eauto.
  - cbn [py_gt0 bind]. unfold Qlt_bool.
    destruct (Qle_bool q 0) eqn:E.
    { apply Qle_bool_iff in E. exfalso. now apply (Qlt_not_le 0 q). }
    cbn [negb]. rewrite py_max1_num.
    destruct kd, k, a; simpl in *; try discriminate; eauto.
Qed.

Lemma add_kill_participation_numeric df :
  rectangular df = true ->
  number_column df "kills" = true -> number_column df "assists" = true ->
  number_column df "teamkills" = true ->
  add_kill_participation df =
  Returns (set_column "kill_participation" float64
             (map (fun i => result_or VNaN
                              (kill_participation_row (row_kind df) (row_at df i)))
                  (seq 0 (nrows df))) df).
Proof.
  intros R K A T. unfold add_kill_participation. simpl forallb.
  rewrite !number_column_has by assumption. simpl.
  rewrite apply_axis1_all_return; [reflexivity|].
  intros i Hi.
  destruct (number_column_cell _ _ i K R Hi) as (k & Hk & Nk).
  destruct (number_column_cell _ _ i A R Hi) as (a & Ha & Na).
  destruct (number_column_cell _ _ i T R Hi) as (t & Ht & Nt).
  eapply kill_participation_row_returns; eauto.
Qed.

(** What the first statement of the stage leaves for the second one. *)
Lemma add_kda_frame df :
  rectangular df = true ->
  number_column df "kills" = true -> number_column df "assists" = true ->
  (has_column df "deaths" = true -> number_column df "deaths" = true) ->
  exists df1,
    add_kda df = Returns df1 /\ rectangular df1 = true /\
    nrows df1 = nrows df /\
    (forall m, m <> "kda" -> get_column df1 m = get_column df m) /\
    (forall k a, cell_sum (row_kind df1) k a = participation_sum df k a).
Proof.
  intros R K A D. unfold participation_sum.
  destruct (has_column df "deaths") eqn:H.
  - rewrite add_kda_numeric; auto. eexists. split; [reflexivity|].
    assert (L : length (map (fun i => result_or VNaN
                                        (kda_row (row_kind df) (row_at df i)))
                          (seq 0 (nrows df))) = nrows df)
      by now rewrite length_map, length_seq.
    split; [now apply rectangular_set|].
    split; [now apply nrows_set|].
    split; [intros m Hm; now apply get_set_other|].
    intros k a. now rewrite row_kind_set_float.
  - rewrite add_kda_absent.
    + exists df. auto.
    + simpl. rewrite H. now rewrite andb_false_r.
Qed.

Lemma add_kda_nrows df df1 : add_kda df = Returns df1 -> nrows df1 = nrows df.
Proof.
  unfold add_kda. destruct (forallb _ _); [|now inversion 1].
  destruct (apply_axis1 kda_row df) as [vs|e] eqn:E; simpl; inversion 1; subst.
  apply nrows_set. now apply apply_axis1_length in E.
Qed.

Lemma number_column_same df df' n :
  get_column df' n = get_column df n ->
  number_column df' n = number_column df n.
Proof. unfold number_column. now intros ->. Qed.

Lemma has_column_same df df' n :
  get_column df' n = get_column df n -> has_column df' n = has_column df n.
Proof. rewrite !has_column_get. now intros ->. Qed.

Lemma row_at_same df df' n i :
  get_column df' n = get_column df n -> row_at df' i n = row_at df i n.
Proof. unfold row_at. now intros ->. Qed.

Lemma Qmax1_ge1 t : 1 <= t -> Qmax 1 t == t.
Proof. apply Q.max_r. Qed.

(** C4, as the code has it.  When [kills], [assists] and [teamkills] are
    numeric columns of the frame, and [deaths], if present, is numeric
    too, the stage leaves a [kill_participation] column with one cell per
    record; on a record whose three cells are numbers the cell is
    (kills + assists) / max(1, teamkills) when teamkills > 0 and 0
    otherwise, which is (kills + assists) / teamkills whenever
    teamkills >= 1.  The sum is the exact one, unless every column of the
    frame is [int64] and there is no [deaths] column, where it wraps
    around at 64 bits (and is still the exact sum of whole numbers within
    the range).  When one of the three columns is absent the stage leaves
    the column as it found it.  When a record holds text in [teamkills],
    or in [kills] or [assists] beside a positive [teamkills], or in
    [deaths], which the statement before this one reads, the stage raises
    and leaves the column as it found it. *)
Theorem kill_participation_column (df : DataFrame) :
  (rectangular df = true ->
   number_column df "kills" = true -> number_column df "assists" = true ->
   number_column df "teamkills" = true ->
   (has_column df "deaths" = true -> number_column df "deaths" = true) ->
   exists c,
     get_column (fst (_add_derived_features df)) "kill_participation" = Some c /\
     length (values c) = nrows df /\
     (forall i k a t,
        cell df "kills" i = Some (VNum k) ->
        cell df "assists" i = Some (VNum a) ->
        cell df "teamkills" i = Some (VNum t) ->
        (0 < t -> nth_error (values c) i
                  = Some (VNum (participation_sum df k a / Qmax 1 t))) /\
        (1 <= t -> exists v, nth_error (values c) i = Some (VNum v)
                             /\ v == participation_sum df k a / t) /\
        (t <= 0 -> nth_error (values c) i = Some (VNum 0))))
  /\
  (has_column df "deaths" = true \/ row_kind df <> Int64Cells ->
   forall k a, participation_sum df k a = k + a)
  /\
  (forall k a, int64_range k -> int64_range a ->
               (- 2 ^ 63 <= Qfloor k + Qfloor a < 2 ^ 63)%Z ->
               participation_sum df k a == k + a)
  /\
  (forallb (has_column df) ["kills"; "assists"; "teamkills"] = false ->
   get_column (fst (_add_derived_features df)) "kill_participation"
   = get_column df "kill_participation")
  /\
  (rectangular df = true ->
   forall i k a t,
     cell df "kills" i = Some k -> cell df "assists" i = Some a ->
     cell df "teamkills" i = Some t ->
     (is_text t = true \/
      (is_text k || is_text a = true /\ exists q, t = VNum q /\ 0 < q) \/
      (exists d, cell df "deaths" i = Some d /\ is_text d = true)) ->
     (exists e, snd (_add_derived_features df) = Some e) /\
     get_column (fst (_add_derived_features df)) "kill_participation"
     = get_column df "kill_participation").
Proof.
  split; [|split; [|split; [|split]]].
  - intros R K A T D.
    destruct (add_kda_frame df R K A D) as (df1 & E1 & R1 & N1 & G1 & S1).
    assert (S : forall n i, n <> "kda" -> row_at df1 i n = row_at df i n).
    { intros n i Hn. apply row_at_same. now apply G1. }
    unfold _add_derived_features. simpl. rewrite E1.
    rewrite add_kill_participation_numeric; auto;
      try (rewrite (number_column_same df df1) by (apply G1; discriminate);
           assumption).
    simpl. rewrite get_set_same. eexists. split; [reflexivity|]. simpl.
    split; [now rewrite length_map, length_seq|].
    intros i k a t Hk Ha Ht.
    destruct (cell_in_range _ _ _ _ R Ht) as [Hi _]. rewrite <- N1 in Hi.
    unfold cell in *.
    rewrite nth_error_map_seq by assumption.
    rewrite (kill_participation_row_value _ _ k a t)
      by (rewrite S by discriminate; assumption).
    rewrite S1. simpl. unfold Qlt_bool.
    split; [|split].
    + intros Hpos. destruct (Qle_bool t 0) eqn:E; simpl; auto.
      apply Qle_bool_iff in E. exfalso. now apply (Qlt_not_le 0 t).
    + intros Hge. destruct (Qle_bool t 0) eqn:E; simpl.
      * apply Qle_bool_iff in E. exfalso.
        apply (Qlt_not_le 0 1); [reflexivity|]. now apply Qle_trans with t.
      * eexists. split; [reflexivity|]. now rewrite Qmax1_ge1.
    + intros Hle. apply Qle_bool_iff in Hle. now rewrite Hle.
  - intros H k a. unfold participation_sum, row_sum.
    destruct (has_column df "deaths"); auto.
    destruct H as [H|H]; [discriminate|].
    destruct (row_kind df); auto. congruence.
  - intros k a [K _] [A _] H. unfold participation_sum, row_sum.
    destruct (has_column df "deaths"); [reflexivity|].
    now apply cell_sum_in_range.
  - intros H. unfold _add_derived_features. simpl.
    destruct (add_kda df) as [df1|e] eqn:E1; simpl; auto.
    assert (G : forall m, m <> "kda" -> get_column df1 m = get_column df m)
      by (intros; now apply (add_kda_other df)).
    assert (E2 : add_kill_participation df1 = Returns df1).
    { unfold add_kill_participation.
      assert (F : forallb (has_column df1) ["kills"; "assists"; "teamkills"]
                  = forallb (has_column df) ["kills"; "assists"; "teamkills"]).
      { simpl.
        rewrite !(has_column_same df df1) by (apply G; discriminate).
        reflexivity. }
      now rewrite F, H. }
    rewrite E2. simpl. apply G. discriminate.
  - intros R i k a t Hk Ha Ht H.
    unfold _add_derived_features. simpl.
    destruct (add_kda df) as [df1|e] eqn:E1; simpl; [|eauto].
    assert (G : forall m, m <> "kda" -> get_column df1 m = get_column df m)
      by (intros; now apply (add_kda_other df)).
    destruct (cell_in_range _ _ _ _ R Hk) as [Hi Ck].
    destruct (cell_in_range _ _ _ _ R Ha) as [_ Ca].
    destruct (cell_in_range _ _ _ _ R Ht) as [_ Ct].
    assert (X : is_text t = true \/
                (is_text k || is_text a = true /\ exists q, t = VNum q /\ 0 < q)).
    { destruct H as [H|[H|(d & Hd & Td)]]; auto.
      destruct (add_kda_text df i k d a R Hk Hd Ha) as [e E].
      - rewrite Td. now rewrite orb_true_r.
      - congruence. }
    unfold cell in *.
    destruct (kill_participation_row_text (row_kind df1) (row_at df1 i) k a t)
      as [e E]; auto;
      try (rewrite (row_at_same df df1) by (apply G; discriminate); assumption).
    rewrite <- (add_kda_nrows _ _ E1) in Hi.
    destruct (apply_axis1_raises kill_participation_row df1 i e Hi E) as [e' E'].
    unfold add_kill_participation. simpl forallb.
    rewrite !(has_column_same df df1) by (apply G; discriminate).
    rewrite Ck, Ca, Ct. simpl. rewrite E'. simpl.
    split; [eauto|]. apply G. discriminate.
Qed.

Lemma kill_participation_column_witness :
  (exists c,
     get_column (fst (_add_derived_features fractional_teamkills))
       "kill_participation" = Some c /\
     length (values c) = 3%nat)
  /\ participation_sum scenario 5 3 = 5 + 3
  /\ participation_sum large_participation 5 3 == 5 + 3
  /\ get_column (fst (_add_derived_features scenario)) "kill_participation"
     = None
  /\ get_column (fst (_add_derived_features text_teamkills))
       "kill_participation" = None.
Proof.
  split; [|split; [|split; [|split]]].
  - destruct (proj1 (kill_participation_column fractional_teamkills))
      as (c & G & L & _); try reflexivity.
    + discriminate.
    + exists c. split; [exact G | exact L].
  - apply (proj1 (proj2 (kill_participation_column scenario))).
    left. reflexivity.
  - apply (proj1 (proj2 (proj2 (kill_participation_column large_participation)))).
    + split; [reflexivity | split; discriminate || reflexivity].
    + split; [reflexivity | split; discriminate || reflexivity].
    + split; discriminate || reflexivity.
  - apply (proj1 (proj2 (proj2 (proj2 (kill_participation_column scenario))))).
    reflexivity.
  - apply (proj2 (proj2 (proj2 (proj2
             (kill_participation_column text_teamkills)))) eq_refl
             0%nat (VNum 5) (VNum 3) (VStr "sixteen")); try reflexivity.
    left. reflexivity.
Defined.

(** C4 as stated fails in four ways.  With teamkills = 1/2 the code
    divides by max(1, 1/2) = 1 and yields 1, not (1 + 0) / (1/2) = 2.  On
    a frame of [int64] columns only, kills = 2^63 - 1, assists = 1 and
    teamkills = 1 give -2^63: the sum wraps around.  With text in
    [teamkills], or in [deaths], the three columns of the ratio are there,
    yet the stage raises and adds no column. *)
Lemma kill_participation_diverges :
  (cell fractional_teamkills "kills" 0 = Some (VNum 1) /\
   cell fractional_teamkills "assists" 0 = Some (VNum 0) /\
   cell fractional_teamkills "teamkills" 0 = Some (VNum (1 # 2)) /\
   0 < 1 # 2 /\
   exists v,
     cell (fst (_add_derived_features fractional_teamkills))
       "kill_participation" 0 = Some (VNum v) /\
     ~ v == (1 + 0) / (1 # 2))
  /\
  (cell large_participation "kills" 0 = Some (VNum (inject_Z (2 ^ 63 - 1))) /\
   cell large_participation "assists" 0 = Some (VNum 1) /\
   cell large_participation "teamkills" 0 = Some (VNum 1) /\
   exists v,
     cell (fst (_add_derived_features large_participation))
       "kill_participation" 0 = Some (VNum v) /\
     v == inject_Z (- 2 ^ 63) /\
     ~ v == (inject_Z (2 ^ 63 - 1) + 1) / 1)
  /\
  (forallb (has_column text_teamkills) ["kills"; "assists"; "teamkills"] = true /\
   _add_derived_features text_teamkills = (text_teamkills, Some TypeError) /\
   get_column (fst (_add_derived_features text_teamkills))
     "kill_participation" = None)
  /\
  (forallb (has_column text_deaths) ["kills"; "assists"; "teamkills"] = true /\
   number_column text_deaths "kills" = true /\
   number_column text_deaths "assists" = true /\
   number_column text_deaths "teamkills" = true /\
   _add_derived_features text_deaths = (text_deaths, Some TypeError) /\
   get_column (fst (_add_derived_features text_deaths))
     "kill_participation" = None).
Proof.
  split; [|split; [|split]].
  - repeat (split; [reflexivity|]).
    eexists. split; [reflexivity|]. discriminate.
  - repeat (split; [reflexivity|]).
    eexists. split; [reflexivity|]. split; [reflexivity|]. discriminate.
  - repeat split.
  - repeat split.
Qed.

(* ================================================================== *)
(** * Idempotence of the three stages *)

Lemma run_steps_preserves (P : DataFrame -> Prop) steps :
  Forall (fun t => forall df df', P df -> t df = Returns df' -> P df') steps ->
  forall df df', P df -> run_steps steps df = (df', None) -> P df'.
Proof.
  induction 1 as [|t steps Ht _ IH]; simpl; intros df df' HP Hrun.
  - now inversion Hrun; subst.
  - destruct (t df) as [df1|e] eqn:E; [|discriminate].
    eapply IH; [|exact Hrun]. eapply Ht; eauto.
Qed.

(** Statements that are each idempotent, and that do not disturb the
    statements before them, make an idempotent stage. *)
Lemma run_steps_idempotent steps :
  Forall (fun s => forall df df1, s df = Returns df1 -> s df1 = Returns df1)
    steps ->
  ForallOrdPairs
    (fun s t => forall df df', s df = Returns df -> t df = Returns df' ->
                               s df' = Returns df') steps ->
  forall df df', run_steps steps df = (df', None) ->
                 run_steps steps df' = (df', None).
Proof.
  induction steps as [|s rest IH]; intros Hidem Hpairs df df' Hrun.
  - reflexivity.
  - inversion Hidem as [|? ? Hs Hrest]; subst.
    inversion Hpairs as [|? ? Hsr Hrr]; subst.
    simpl in Hrun. destruct (s df) as [df1|e] eqn:E; [|discriminate].
    assert (F : s df' = Returns df').
    { apply (run_steps_preserves (fun d => s d = Returns d) rest) with (df := df1).
      - revert Hsr. apply Forall_impl. intros t Ht d d' Hd Htd. eauto.
      - eauto.
      - exact Hrun. }
    simpl. rewrite F. eauto.
Qed.

(** The same for statements that are idempotent on the frames of a kind
    [P] that they all keep. *)
Lemma run_steps_idempotent_on (P : DataFrame -> Prop) steps :
  Forall (fun s => forall df df1, P df -> s df = Returns df1 ->
                                  P df1 /\ s df1 = Returns df1) steps ->
  ForallOrdPairs
    (fun s t => forall df df', P df -> s df = Returns df -> t df = Returns df' ->
                               s df' = Returns df') steps ->
  forall df df', P df -> run_steps steps df = (df', None) ->
                 run_steps steps df' = (df', None).
Proof.
  induction steps as [|s rest IH]; intros Hidem Hpairs df df' HP Hrun.
  - reflexivity.
  - inversion Hidem as [|? ? Hs Hrest]; subst.
    inversion Hpairs as [|? ? Hsr Hrr]; subst.
    simpl in Hrun. destruct (s df) as [df1|e] eqn:E; [|discriminate].
    destruct (Hs _ _ HP E) as [P1 F1].
    assert (F : P df' /\ s df' = Returns df').
    { apply (run_steps_preserves (fun d => P d /\ s d = Returns d) rest)
        with (df := df1); auto.
      rewrite Forall_forall in Hsr, Hrest. apply Forall_forall.
      intros t Ht d d' [Pd Hd] Htd. split.
      - apply (Hrest t Ht d d' Pd Htd).
      - apply (Hsr t Ht d d' Pd Hd Htd). }
    simpl. rewrite (proj2 F). eauto.
Qed.

Lemma set_same n d vs df :
  get_column df n = Some (mkSeries n d vs) -> set_column n d vs df = df.
Proof.
  induction df as [|c df IH]; simpl; [discriminate|].
  destruct (String.eqb n (name c)); intros H.
  - now inversion H.
  - now rewrite IH.
Qed.

(** ** Missing values *)

Lemma fillna_fillna fill c :
  isna fill = false -> fillna fill (fillna fill c) = fillna fill c.
Proof.
  intros F. unfold fillna. simpl. f_equal. rewrite map_map.
  apply map_ext. intros v. destruct (isna v) eqn:E; [now rewrite F | now rewrite E].
Qed.

Lemma handle_missing_values_eq df :
  _handle_missing_values df = (fill_categorical (fill_numeric df), None).
Proof. reflexivity. Qed.

Lemma fill_twice df :
  fill_categorical (fill_numeric (fill_categorical (fill_numeric df)))
  = fill_categorical (fill_numeric df).
Proof.
  unfold fill_categorical, fill_numeric. rewrite !map_map.
  apply map_ext. intros c.
  destruct (dtype_of c) eqn:D; simpl; rewrite ?D; simpl; rewrite ?D; simpl;
    rewrite ?D; simpl; auto; now rewrite fillna_fillna.
Qed.

(** ** Conversions *)

Lemma convert_column_idempotent n conv :
  (forall c c', conv c = Returns c' -> name c' = name c) ->
  (forall c c', conv c = Returns c' -> conv c' = Returns c') ->
  forall df df1, convert_column n conv df = Returns df1 ->
                 convert_column n conv df1 = Returns df1.
Proof.
  intros Hname Hidem df df1. unfold convert_column, getitem.
  rewrite !has_column_get.
  destruct (get_column df n) as [c|] eqn:G; simpl.
  - destruct (conv c) as [c'|e] eqn:C; simpl; [|discriminate].
    intros H. inversion H; subst. clear H.
    rewrite get_set_same. simpl.
    assert (N : name c' = n).
    { rewrite (Hname _ _ C). now apply get_column_In in G. }
    assert (Q : mkSeries n (dtype_of c') (values c') = c')
      by (destruct c'; simpl in *; now subst).
    rewrite Q, (Hidem _ _ C). simpl. now rewrite set_set.
  - intros H. inversion H; subst. now rewrite G.
Qed.

(** A conversion that has nothing left to do on a frame has nothing to do
    after another column was assigned. *)
Lemma convert_column_undisturbed n conv m d vs df :
  m <> n ->
  convert_column n conv df = Returns df ->
  convert_column n conv (set_column m d vs df) = Returns (set_column m d vs df).
Proof.
  intros Hne. unfold convert_column, getitem.
  rewrite !has_column_get, get_set_other by auto.
  destruct (get_column df n) as [c|] eqn:G; simpl; auto.
  destruct (conv c) as [c'|e]; simpl; [|discriminate].
  intros H. inversion H as [H1]. f_equal. apply set_same.
  rewrite get_set_other by auto.
  rewrite <- H1 at 1. apply get_set_same.
Qed.

Lemma convert_column_result n conv df df' :
  convert_column n conv df = Returns df' ->
  df' = df \/ exists d vs, df' = set_column n d vs df.
Proof.
  unfold convert_column. destruct (has_column df n).
  - destruct (getitem df n) as [c|]; simpl; [|discriminate].
    destruct (conv c) as [c'|]; simpl; [|discriminate].
    intros H. inversion H. eauto.
  - intros H. inversion H. auto.
Qed.

Lemma convert_columns_apart n conv m conv' df df' :
  m <> n ->
  convert_column n conv df = Returns df ->
  convert_column m conv' df = Returns df' ->
  convert_column n conv df' = Returns df'.
Proof.
  intros Hne F H. apply convert_column_result in H.
  destruct H as [->|(d & vs & ->)]; auto.
  now apply convert_column_undisturbed.
Qed.

Lemma astype_bool_name c c' : astype_bool c = Returns c' -> name c' = name c.
Proof. unfold astype_bool. intros H. now inversion H. Qed.

Lemma astype_bool_idempotent c c' :
  astype_bool c = Returns c' -> astype_bool c' = Returns c'.
Proof.
  unfold astype_bool. intros H. inversion H; subst. simpl. do 2 f_equal.
  rewrite map_map. reflexivity.
Qed.

Section Conversions.

Variable parse_datetime : string -> option Z.

Lemma to_datetime_name c c' :
  to_datetime parse_datetime c = Returns c' -> name c' = name c.
Proof.
  unfold to_datetime. destruct (is_datetime64_dtype _).
  - intros H. now inversion H.
  - destruct (mapM _ _); simpl; [|discriminate]. intros H. now inversion H.
Qed.

Lemma to_datetime_idempotent c c' :
  to_datetime parse_datetime c = Returns c' ->
  to_datetime parse_datetime c' = Returns c'.
Proof.
  unfold to_datetime. destruct (is_datetime64_dtype (dtype_of c)) eqn:D.
  - intros H. inversion H; subst. now rewrite D.
  - destruct (mapM _ _); simpl; [|discriminate]. intros H. now inversion H.
Qed.

Lemma convert_date_eq :
  convert_date parse_datetime = convert_column "date" (to_datetime parse_datetime).
Proof. reflexivity. Qed.

Lemma convert_bool_eq col : convert_bool col = convert_column col astype_bool.
Proof. reflexivity. Qed.

Lemma convert_data_types_idempotent df df1 :
  _convert_data_types parse_datetime df = (df1, None) ->
  _convert_data_types parse_datetime df1 = (df1, None).
Proof.
  unfold _convert_data_types. apply run_steps_idempotent.
  - constructor.
    + apply convert_column_idempotent;
        [apply to_datetime_name | apply to_datetime_idempotent].
    + simpl. repeat constructor;
        (apply convert_column_idempotent;
         [apply astype_bool_name | apply astype_bool_idempotent]).
  - simpl. rewrite convert_date_eq, !convert_bool_eq.
    repeat constructor; intros d d';
      (apply convert_columns_apart; discriminate).
Qed.

End Conversions.

(** ** Derived features *)

Lemma add_kda_eq : add_kda = derive ["kills"; "deaths"; "assists"] "kda" kda_row.
Proof. reflexivity. Qed.

Lemma add_kill_participation_eq :
  add_kill_participation =
  derive ["kills"; "assists"; "teamkills"] "kill_participation"
    kill_participation_row.
Proof. reflexivity. Qed.

Lemma kda_row_reads : reads kda_row ["kills"; "deaths"; "assists"].
Proof.
  intros k r r' H. unfold kda_row, row_get.
  rewrite !(H _) by (simpl; auto). reflexivity.
Qed.

Lemma kill_participation_row_reads :
  reads kill_participation_row ["kills"; "assists"; "teamkills"].
Proof.
  intros k r r' H. unfold kill_participation_row, row_get.
  rewrite !(H _) by (simpl; auto). reflexivity.
Qed.

Lemma forallb_has_column_same df df' srcs :
  (forall n, In n srcs -> get_column df' n = get_column df n) ->
  forallb (has_column df') srcs = forallb (has_column df) srcs.
Proof.
  induction srcs as [|n srcs IH]; simpl; intros H; auto.
  rewrite (has_column_same df df' n) by auto. rewrite IH; auto.
Qed.

Lemma derive_result srcs target f df df' :
  derive srcs target f df = Returns df' ->
  nrows df' = nrows df /\
  forall m, m <> target -> get_column df' m = get_column df m.
Proof.
  unfold derive. destruct (forallb _ _).
  - destruct (apply_axis1 f df) as [vs|] eqn:E; simpl; [|discriminate].
    intros H. inversion H; subst. split.
    + apply nrows_set. now apply apply_axis1_length in E.
    + intros m Hm. now apply get_set_other.
  - intros H. inversion H; subst. auto.
Qed.

(** A statement of the stage leaves rows of floats or objects as such:
    the column it adds is a float column. *)
Lemma derive_plain srcs target f df df' :
  row_kind df = PlainCells -> derive srcs target f df = Returns df' ->
  row_kind df' = PlainCells.
Proof.
  unfold derive. intros P. destruct (forallb _ _).
  - destruct (apply_axis1 f df) as [vs|]; simpl; [|discriminate].
    intros H. inversion H; subst. apply row_kind_set_float.
  - intros H. now inversion H; subst.
Qed.

(** A frame that already carries the column the statement would compute,
    computed from the same source cells on rows of the same kind, is left
    as it is. *)
Lemma derive_settled srcs target f df df1 df' :
  reads f srcs ->
  (forall n, In n srcs -> get_column df' n = get_column df n) ->
  nrows df' = nrows df ->
  row_kind df' = row_kind df ->
  derive srcs target f df = Returns df1 ->
  get_column df' target = get_column df1 target ->
  derive srcs target f df' = Returns df'.
Proof.
  intros Hreads Hsrc Hn Hk. unfold derive.
  rewrite (forallb_has_column_same df df' srcs Hsrc).
  destruct (forallb (has_column df) srcs); auto.
  assert (E : apply_axis1 f df' = apply_axis1 f df).
  { unfold apply_axis1. rewrite Hn, Hk. apply mapM_ext. intros i _.
    apply Hreads. intros n Hin. now apply row_at_same, Hsrc. }
  rewrite E. destruct (apply_axis1 f df) as [vs|]; simpl; [|discriminate].
  intros H G. inversion H; subst. rewrite get_set_same in G.
  now rewrite (set_same _ _ _ _ G).
Qed.

Lemma derive_idempotent srcs target f :
  reads f srcs -> ~ In target srcs ->
  forall df df1, row_kind df = PlainCells ->
                 derive srcs target f df = Returns df1 ->
                 row_kind df1 = PlainCells /\
                 derive srcs target f df1 = Returns df1.
Proof.
  intros Hreads Hnot df df1 P H.
  pose proof (derive_plain _ _ _ _ _ P H) as P1. split; auto.
  destruct (derive_result _ _ _ _ _ H) as [Hn Hg].
  apply (derive_settled srcs target f df df1 df1); auto; [|congruence].
  intros n Hin. apply Hg. intros ->. contradiction.
Qed.

Lemma derive_undisturbed srcs target f srcs' target' f' :
  reads f srcs -> ~ In target' srcs -> target <> target' ->
  forall df df', row_kind df = PlainCells ->
                 derive srcs target f df = Returns df ->
                 derive srcs' target' f' df = Returns df' ->
                 derive srcs target f df' = Returns df'.
Proof.
  intros Hreads Hnot Hne df df' P F H.
  pose proof (derive_plain _ _ _ _ _ P H) as P1.
  destruct (derive_result _ _ _ _ _ H) as [Hn Hg].
  apply (derive_settled srcs target f df df df'); auto; [|congruence].
  intros n Hin. apply Hg. intros ->. contradiction.
Qed.

Lemma add_derived_features_idempotent df df1 :
  row_kind df = PlainCells ->
  _add_derived_features df = (df1, None) ->
  _add_derived_features df1 = (df1, None).
Proof.
  unfold _add_derived_features.
  apply (run_steps_idempotent_on (fun d => row_kind d = PlainCells)).
  - rewrite add_kda_eq, add_kill_participation_eq.
    repeat first [apply Forall_nil | apply Forall_cons].
    + apply derive_idempotent; [apply kda_row_reads|].
      simpl. intros [H|[H|[H|[]]]]; discriminate.
    + apply derive_idempotent; [apply kill_participation_row_reads|].
      simpl. intros [H|[H|[H|[]]]]; discriminate.
  - rewrite add_kda_eq, add_kill_participation_eq.
    repeat constructor.
    apply derive_undisturbed; [apply kda_row_reads| |discriminate].
    simpl. intros [H|[H|[H|[]]]]; discriminate.
Qed.

(** C9, as the code has it.  Missing-value handling always returns and is
    idempotent, and type conversion, whenever it returns a frame, returns
    it unchanged when run on it again.  The derived-feature stage does so
    on a frame whose rows are rows of floats or of Python objects, which
    is every frame with a float or a text column; its second run reads
    the rows of a frame that now holds the float column [kda]. *)
Theorem stages_idempotent (parse_datetime : string -> option Z) :
  (forall df, exists df1,
      _handle_missing_values df = (df1, None) /\
      _handle_missing_values df1 = (df1, None))
  /\
  (forall df df1,
      _convert_data_types parse_datetime df = (df1, None) ->
      _convert_data_types parse_datetime df1 = (df1, None))
  /\
  (forall df df1,
      row_kind df = PlainCells ->
      _add_derived_features df = (df1, None) ->
      _add_derived_features df1 = (df1, None))
  /\
  (forall df c,
      In c df -> dtype_of c = float64 \/ dtype_of c = object ->
      row_kind df = PlainCells).
Proof.
  split; [|split; [|split]].
  - intros df. eexists. split; [apply handle_missing_values_eq|].
    rewrite handle_missing_values_eq. now rewrite fill_twice.
  - apply convert_data_types_idempotent.
  - apply add_derived_features_idempotent.
  - apply row_kind_plain.
Qed.

Lemma stages_idempotent_witness :
  (exists df1, _convert_data_types two_dates dated = (df1, None) /\
               _convert_data_types two_dates df1 = (df1, None))
  /\
  (exists df1, _add_derived_features fractional_teamkills = (df1, None) /\
               _add_derived_features df1 = (df1, None))
  /\ row_kind fractional_teamkills = PlainCells.
Proof.
  split; [|split].
  - eexists. split; [reflexivity|].
    apply (proj1 (proj2 (stages_idempotent two_dates)) dated). reflexivity.
  - eexists. split; [reflexivity|].
    apply (proj1 (proj2 (proj2 (stages_idempotent two_dates)))
             fractional_teamkills); reflexivity.
  - apply (proj2 (proj2 (proj2 (stages_idempotent two_dates)))
             fractional_teamkills
             (mkSeries "teamkills" float64 [VNum (1 # 2); VNum 0; VNum 16])).
    + simpl. auto.
    + left. reflexivity.
Defined.

(** C9 as stated fails for the derived-feature stage.  On a frame of
    [bool] columns only the first run joins kills and assists by a
    logical or and gives kda = 1; the second run reads rows of Python
    objects, adds True + True = 2 and gives kda = 2.  On a frame of
    [int64] columns only the first run wraps the sum around and the
    second run, on rows of floats, does not. *)
Lemma derived_features_run_twice :
  (exists df1 df2,
     _add_derived_features all_flags = (df1, None) /\
     _add_derived_features df1 = (df2, None) /\
     cell df1 "kda" 0 = Some (VNum (1 / 1)) /\
     cell df2 "kda" 0 = Some (VNum ((1 + 1) / 1)) /\
     df2 <> df1)
  /\
  (exists df1 df2,
     _add_derived_features large_integers = (df1, None) /\
     _add_derived_features df1 = (df2, None) /\
     (exists v, cell df1 "kda" 0 = Some (VNum v) /\ v == inject_Z (- 2 ^ 63)) /\
     (exists v, cell df2 "kda" 0 = Some (VNum v) /\ v == inject_Z (2 ^ 63)) /\
     df2 <> df1).
Proof.
  split.
  - eexists. eexists. split; [reflexivity|]. split; [reflexivity|].
    split; [reflexivity|]. split; [reflexivity|]. discriminate.
  - eexists. eexists. split; [reflexivity|]. split; [reflexivity|].
    split; [eexists; split; reflexivity|].
    split; [eexists; split; reflexivity|]. discriminate.
Qed.

(* ================================================================== *)
(** * What the stages keep true: no missing value *)

Lemma get_column_map (g : Series -> Series) df n :
  (forall c, name (g c) = name c) ->
  get_column (map g df) n = option_map g (get_column df n).
Proof.
  intros Hg. induction df as [|c df IH]; simpl; auto.
  rewrite Hg. destruct (String.eqb n (name c)); auto.
Qed.

Lemma forallb_map {A B} (f : B -> bool) (g : A -> B) l :
  forallb f (map g l) = forallb (fun x => f (g x)) l.
Proof. induction l as [|x l IH]; simpl; auto. now rewrite IH. Qed.

Lemma fill_column_cells c :
  let fill := fun c => if is_float_or_int (dtype_of c) then fillna (VNum 0) c
                       else c in
  let fill' := fun c => if is_object_dtype (dtype_of c)
                        then fillna (VStr "unknown") c else c in
  fill' (fill c) =
  mkSeries (name c) (dtype_of c) (map (filled_cell (dtype_of c)) (values c)).
Proof.
  destruct c as [n d vs]. unfold filled_cell, fillna. destruct d; simpl;
    f_equal; try (apply map_ext; intros v; now destruct (isna v));
    rewrite <- (map_id vs) at 1; apply map_ext; intros v; now destruct (isna v).
Qed.

Lemma handle_missing_values_columns df :
  fst (_handle_missing_values df) =
  map (fun c => mkSeries (name c) (dtype_of c)
                  (map (filled_cell (dtype_of c)) (values c))) df.
Proof.
  rewrite handle_missing_values_eq. simpl.
  unfold fill_categorical, fill_numeric. rewrite map_map.
  apply map_ext. intros c. apply fill_column_cells.
Qed.

Lemma handle_missing_values_clean df :
  well_typed df = true -> finite_frame df = true ->
  clean (fst (_handle_missing_values df)) = true.
Proof.
  rewrite handle_missing_values_columns. unfold well_typed, finite_frame, clean.
  rewrite forallb_map. intros H F. rewrite forallb_forall in *.
  intros c Hc. specialize (H c Hc). specialize (F c Hc).
  rewrite forallb_forall in H, F.
  unfold clean_column, column_filled. simpl. rewrite !forallb_map.
  apply andb_true_intro. split.
  - apply forallb_forall. intros v Hv. specialize (H v Hv).
    specialize (F v Hv).
    unfold filled_cell. destruct (dtype_of c), v; simpl in *; auto; discriminate.
  - destruct (is_float_or_int (dtype_of c) || is_object_dtype (dtype_of c)) eqn:E;
      auto.
    apply forallb_forall. intros v Hv. unfold filled_cell.
    destruct (dtype_of c), v; simpl in *; auto; discriminate.
Qed.

Lemma clean_set_column n d vs df :
  clean df = true -> clean_column (mkSeries n d vs) = true ->
  clean (set_column n d vs df) = true.
Proof.
  unfold clean. rewrite !forallb_forall. intros H Hc c Hin.
  apply In_set_column in Hin. destruct Hin as [Hin| ->]; auto.
Qed.

Lemma clean_get df n c :
  clean df = true -> get_column df n = Some c -> clean_column c = true.
Proof.
  unfold clean. rewrite forallb_forall. intros H G.
  apply H. now apply get_column_In in G.
Qed.

Lemma clean_no_missing df : clean df = true -> no_missing df = true.
Proof.
  unfold clean, no_missing. rewrite !forallb_forall. intros H c Hc.
  specialize (H c Hc). unfold clean_column in H.
  now apply andb_prop in H.
Qed.

Lemma mapM_In {A B} (f : A -> outcome B) l ys y :
  mapM f l = Returns ys -> In y ys -> exists x, In x l /\ f x = Returns y.
Proof.
  revert ys. induction l as [|x l IH]; simpl; intros ys H Hy.
  - inversion H; subst. contradiction.
  - destruct (f x) as [y0|] eqn:E; simpl in H; [|discriminate].
    destruct (mapM f l) as [ys0|]; simpl in H; [|discriminate].
    inversion H; subst. destruct Hy as [->|Hy]; eauto.
    destruct (IH _ eq_refl Hy) as (x' & Hin & Hx'). eauto.
Qed.

Lemma astype_bool_clean c c' :
  astype_bool c = Returns c' ->
  clean_column (mkSeries (name c') (dtype_of c') (values c')) = true.
Proof.
  unfold astype_bool. intros H. inversion H; subst.
  unfold clean_column, column_filled. simpl.
  rewrite forallb_map. rewrite andb_true_r. now apply forallb_forall.
Qed.

Lemma clean_column_named c n :
  clean_column (mkSeries n (dtype_of c) (values c)) = clean_column c.
Proof. reflexivity. Qed.

Lemma convert_column_clean n conv df df' :
  (forall c c', clean_column c = true -> conv c = Returns c' ->
                clean_column c' = true) ->
  clean df = true -> convert_column n conv df = Returns df' ->
  clean df' = true.
Proof.
  intros Hconv Hclean. unfold convert_column, getitem.
  destruct (has_column df n); [|intros H; now inversion H; subst].
  destruct (get_column df n) as [c|] eqn:G; simpl; [|discriminate].
  destruct (conv c) as [c'|] eqn:C; simpl; [|discriminate].
  intros H. inversion H; subst. apply clean_set_column; auto.
  rewrite clean_column_named. eapply Hconv; eauto. eapply clean_get; eauto.
Qed.

Section Pipeline.

Variable parse_datetime : string -> option Z.
Variable read_csv : string -> outcome DataFrame.

Lemma to_datetime_clean c c' :
  clean_column c = true -> to_datetime parse_datetime c = Returns c' ->
  clean_column c' = true.
Proof.
  intros Hc. unfold to_datetime. destruct (is_datetime64_dtype _).
  - intros H. now inversion H; subst.
  - destruct (mapM _ (values c)) as [vs|] eqn:E; simpl; [|discriminate].
    intros H. inversion H; subst. unfold clean_column, column_filled. simpl.
    rewrite andb_true_r. apply forallb_forall. intros v Hv.
    destruct (mapM_In _ _ _ _ E Hv) as (x & _ & Hx).
    destruct x; simpl in Hx; try (now inversion Hx); try discriminate.
    destruct (parse_datetime s); now inversion Hx.
Qed.

Lemma run_steps_fst_invariant (P : DataFrame -> Prop) steps :
  Forall (fun t => forall df df', P df -> t df = Returns df' -> P df') steps ->
  forall df, P df -> P (fst (run_steps steps df)).
Proof.
  induction 1 as [|t steps Ht _ IH]; simpl; intros df HP; auto.
  destruct (t df) as [df1|e] eqn:E; simpl; eauto.
Qed.

Lemma convert_data_types_clean df :
  clean df = true -> clean (fst (_convert_data_types parse_datetime df)) = true.
Proof.
  unfold _convert_data_types.
  apply (run_steps_fst_invariant (fun d => clean d = true)).
  constructor.
  - intros d d' Hd. apply convert_column_clean; auto. apply to_datetime_clean.
  - simpl. repeat constructor; intros d d' Hd;
      (apply convert_column_clean; auto; intros c c' _ Hc;
       apply astype_bool_clean in Hc; now rewrite clean_column_named in Hc).
Qed.

Lemma row_at_clean df i n v :
  clean df = true -> row_at df i n = Some v -> finite_cell v = true.
Proof.
  unfold row_at. intros Hc H.
  destruct (get_column df n) as [c|] eqn:G; [|discriminate].
  pose proof (clean_get _ _ _ Hc G) as Hcol.
  unfold clean_column in Hcol. apply andb_prop in Hcol. destruct Hcol as [Hn _].
  rewrite forallb_forall in Hn. apply (Hn v (nth_error_In _ _ H)).
Qed.

(** A finite dividend over what [max(1, _)] made of a finite cell is a
    number. *)
Lemma py_div_max1_number s d v :
  finite_cell s = true -> finite_cell d = true ->
  (m <- py_max1 d ;; py_div s m) = Returns v -> exists q, v = VNum q.
Proof.
  intros Hs Hd. destruct d; simpl in *; try discriminate;
    destruct s; simpl in *; try discriminate;
    repeat match goal with
           | |- context [if ?b then _ else _] => destruct b
           end; intros H; inversion H; eauto.
Qed.

Lemma py_add_finite kd k a s :
  finite_cell k = true -> finite_cell a = true -> py_add kd k a = Returns s ->
  finite_cell s = true.
Proof.
  intros Hk Ha. destruct kd, k, a; simpl in *; intros H; inversion H; subst;
    try discriminate; reflexivity.
Qed.

Lemma kda_row_number kd r v :
  (forall n x, r n = Some x -> finite_cell x = true) ->
  kda_row kd r = Returns v -> exists q, v = VNum q.
Proof.
  intros Hr. unfold kda_row, row_get.
  destruct (r "kills") as [k|] eqn:K; simpl; [|discriminate].
  destruct (r "assists") as [a|] eqn:A; simpl; [|discriminate].
  destruct (py_add kd k a) as [s|] eqn:S; simpl; [|discriminate].
  destruct (r "deaths") as [d|] eqn:D; simpl; [|discriminate].
  apply py_div_max1_number; [|eapply Hr; exact D].
  eapply py_add_finite; [eapply Hr; exact K | eapply Hr; exact A | exact S].
Qed.

Lemma kill_participation_row_number kd r v :
  (forall n x, r n = Some x -> finite_cell x = true) ->
  kill_participation_row kd r = Returns v -> exists q, v = VNum q.
Proof.
  intros Hr. unfold kill_participation_row, row_get.
  destruct (r "teamkills") as [t|] eqn:T; simpl; [|discriminate].
  destruct (py_gt0 t) as [[|]|]; simpl; try discriminate.
  - destruct (r "kills") as [k|] eqn:K; simpl; [|discriminate].
    destruct (r "assists") as [a|] eqn:A; simpl; [|discriminate].
    destruct (py_add kd k a) as [s|] eqn:S; simpl; [|discriminate].
    apply py_div_max1_number; [|eapply Hr; exact T].
    eapply py_add_finite; [eapply Hr; exact K | eapply Hr; exact A | exact S].
  - intros H. inversion H. eauto.
Qed.

Lemma derive_clean srcs target f df df' :
  (forall kd r v, (forall n x, r n = Some x -> finite_cell x = true) ->
                  f kd r = Returns v -> exists q, v = VNum q) ->
  clean df = true -> derive srcs target f df = Returns df' -> clean df' = true.
Proof.
  intros Hf Hclean. unfold derive.
  destruct (forallb _ _); [|intros H; now inversion H; subst].
  destruct (apply_axis1 f df) as [vs|] eqn:E; simpl; [|discriminate].
  intros H. inversion H; subst. apply clean_set_column; auto.
  assert (N : forall v, In v vs -> exists q, v = VNum q).
  { intros v Hv. destruct (mapM_In _ _ _ _ E Hv) as (i & _ & Hi).
    eapply Hf; [|exact Hi]. intros n x. now apply row_at_clean. }
  unfold clean_column, column_filled. simpl.
  apply andb_true_intro. split; apply forallb_forall; intros v Hv;
    destruct (N v Hv) as [q ->]; reflexivity.
Qed.

Lemma add_derived_features_clean df :
  clean df = true -> clean (fst (_add_derived_features df)) = true.
Proof.
  unfold _add_derived_features.
  apply (run_steps_fst_invariant (fun d => clean d = true)).
  rewrite add_kda_eq, add_kill_participation_eq.
  repeat constructor; intros d d' Hd; apply derive_clean; auto.
  - apply kda_row_number.
  - apply kill_participation_row_number.
Qed.

Lemma reduce_pipeline_clean df :
  well_typed df = true -> finite_frame df = true ->
  clean (fst (reduce_pipeline (cleaning_pipeline parse_datetime) df)) = true.
Proof.
  intros W F. unfold cleaning_pipeline. cbn [reduce_pipeline].
  pose proof (handle_missing_values_clean df W F) as C1.
  rewrite handle_missing_values_eq in *. cbn [fst] in C1.
  set (df1 := fill_categorical (fill_numeric df)) in *.
  pose proof (convert_data_types_clean df1 C1) as C2.
  destruct (_convert_data_types parse_datetime df1) as [df2 [e|]]; auto.
  cbn [fst] in C2.
  pose proof (add_derived_features_clean df2 C2) as C3.
  destruct (_add_derived_features df2) as [df3 [e|]]; auto.
Qed.

Lemma split_data_keeps_data (L : DataLoader) :
  data (fst (_split_data L)) = data L.
Proof.
  unfold _split_data. destruct (data L) as [df|] eqn:D; simpl; auto.
  destruct (getitem df "playername"); simpl; auto.
  destruct (getitem df "teamname"); simpl; auto.
Qed.

(** The frame the loader holds after [preprocess_data], whether it
    returned or raised in a stage or in the split. *)
Lemma preprocess_data_frame (L : DataLoader) df :
  raw_frame read_csv L df ->
  data (fst (preprocess_data parse_datetime read_csv L)) =
  Some (fst (reduce_pipeline (cleaning_pipeline parse_datetime) df)) /\
  forall r, snd (preprocess_data parse_datetime read_csv L) = Returns r ->
            r = fst (reduce_pipeline (cleaning_pipeline parse_datetime) df).
Proof.
  unfold raw_frame, preprocess_data, load_data. intros D.
  set (L0 := match data L with Some _ => L | None => set_data L df end).
  assert (E : match data L with
              | Some df0 => (L, Returns df0)
              | None => match read_csv (file_path L) with
                        | Returns df0 => (set_data L df0, Returns df0)
                        | Raises e => (L, Raises e)
                        end
              end = (L0, Returns df)).
  { unfold L0. destruct (data L); [now subst | now rewrite D]. }
  rewrite E. clear E.
  destruct (reduce_pipeline (cleaning_pipeline parse_datetime) df)
    as [df' [e|]]; simpl.
  - split; [reflexivity|discriminate].
  - pose proof (split_data_keeps_data (set_data L0 df')) as K.
    destruct (_split_data (set_data L0 df')) as [L1 [u|e]]; simpl in *.
    + split; [exact K|]. intros r H. now inversion H.
    + split; [exact K|discriminate].
Qed.

End Pipeline.

(* ================================================================== *)
(** * The split into player and team subsets *)

Lemma keep_all_false {A} (l : list A) mask :
  forallb negb mask = true -> keep mask l = [].
Proof.
  revert l. induction mask as [|b mask IH]; intros l H; simpl; auto.
  destruct l as [|x l]; auto. simpl in H. apply andb_prop in H.
  destruct H as [Hb H]. destruct b; [discriminate|]. auto.
Qed.

Lemma zip_and_all_false a b :
  forallb negb a = true -> forallb negb (zip_and a b) = true.
Proof.
  unfold zip_and. revert b. induction a as [|x a IH]; intros b H; simpl; auto.
  destruct b as [|y b]; simpl; auto. simpl in H. apply andb_prop in H.
  destruct H as [Hx H]. destruct x; [discriminate|]. simpl. auto.
Qed.

Lemma filter_rows_all_false mask df :
  forallb negb mask = true ->
  Forall (fun c => values c = []) (filter_rows mask df).
Proof.
  intros H. unfold filter_rows. apply Forall_forall. intros c Hc.
  apply in_map_iff in Hc. destruct Hc as (c0 & <- & _). simpl.
  now apply keep_all_false.
Qed.

Lemma run_steps_column_untouched n steps :
  Forall (fun t => forall df df', t df = Returns df' ->
                                  get_column df' n = get_column df n) steps ->
  forall df, get_column (fst (run_steps steps df)) n = get_column df n.
Proof.
  intros H df.
  apply (run_steps_fst_invariant (fun d => get_column d n = get_column df n));
    auto.
  revert H. apply Forall_impl. intros t Ht d d' Hd Hdd'.
  rewrite <- Hd. eauto.
Qed.

Lemma convert_column_other n conv m df df' :
  m <> n -> convert_column n conv df = Returns df' ->
  get_column df' m = get_column df m.
Proof.
  intros Hne H. apply convert_column_result in H.
  destruct H as [->|(d & vs & ->)]; auto. now apply get_set_other.
Qed.

Section Split.

Variable parse_datetime : string -> option Z.
Variable read_csv : string -> outcome DataFrame.

(** No stage after the first one assigns the column [playername]. *)
Lemma playername_after_pipeline df :
  get_column (fst (reduce_pipeline (cleaning_pipeline parse_datetime) df))
    "playername"
  = get_column (fst (_handle_missing_values df)) "playername".
Proof.
  unfold cleaning_pipeline. cbn [reduce_pipeline].
  rewrite handle_missing_values_eq. cbn [fst].
  set (df1 := fill_categorical (fill_numeric df)).
  assert (C : get_column (fst (_convert_data_types parse_datetime df1))
                "playername" = get_column df1 "playername").
  { apply run_steps_column_untouched.
    rewrite convert_date_eq. simpl. rewrite !convert_bool_eq.
    repeat constructor; intros d d'; apply convert_column_other; discriminate. }
  destruct (_convert_data_types parse_datetime df1) as [df2 [e|]]; auto.
  cbn [fst] in C.
  assert (D : get_column (fst (_add_derived_features df2)) "playername"
              = get_column df2 "playername").
  { apply run_steps_column_untouched.
    repeat constructor; intros d d' H.
    - apply (add_kda_other _ _ _ H). discriminate.
    - apply (add_kill_participation_other _ _ _ H). discriminate. }
  destruct (_add_derived_features df2) as [df3 [e|]]; simpl in *; congruence.
Qed.

(** Whatever the raw file holds, once [preprocess_data] has returned every
    record is in the player subset and none is in the team subset, when
    [playername] is a numeric or categorical column: its missing cells
    were filled before the split looks at them. *)
Lemma team_subset_empty (L : DataLoader) df c r :
  raw_frame read_csv L df -> well_typed df = true ->
  get_column df "playername" = Some c ->
  is_float_or_int (dtype_of c) || is_object_dtype (dtype_of c) = true ->
  snd (preprocess_data parse_datetime read_csv L) = Returns r ->
  exists p t,
    get_column r "playername" = Some p /\
    player_data (fst (preprocess_data parse_datetime read_csv L))
    = Some (filter_rows (map (fun _ => true) (values p)) r) /\
    team_data (fst (preprocess_data parse_datetime read_csv L)) = Some t /\
    Forall (fun col => values col = []) t.
Proof.
  intros D W G T Hret.
  pose proof (playername_after_pipeline df) as Hp.
  rewrite handle_missing_values_columns in Hp.
  rewrite (get_column_map
             (fun c => mkSeries (name c) (dtype_of c)
                         (map (filled_cell (dtype_of c)) (values c))))
    in Hp by reflexivity.
  rewrite G in Hp. cbn [option_map] in Hp.
  revert Hret. unfold raw_frame, preprocess_data, load_data in *.
  set (L0 := match data L with Some _ => L | None => set_data L df end).
  assert (E : match data L with
              | Some df0 => (L, Returns df0)
              | None => match read_csv (file_path L) with
                        | Returns df0 => (set_data L df0, Returns df0)
                        | Raises e => (L, Raises e)
                        end
              end = (L0, Returns df)).
  { unfold L0. destruct (data L); [now subst | now rewrite D]. }
  rewrite E. clear E.
  destruct (reduce_pipeline (cleaning_pipeline parse_datetime) df)
    as [df' [e|]]; [discriminate|].
  cbn [fst] in *. unfold _split_data, getitem. simpl data. cbv beta iota.
  rewrite Hp.
  set (p := mkSeries (name c) (dtype_of c)
              (map (filled_cell (dtype_of c)) (values c))) in *.
  assert (F : forallb notna (values p) = true).
  { unfold p. simpl. rewrite forallb_map. apply forallb_forall.
    intros v _. unfold filled_cell, notna.
    destruct (isna v) eqn:N; [|now rewrite N].
    destruct (is_float_or_int (dtype_of c)); [reflexivity|].
    simpl in T. now rewrite T. }
  destruct (get_column df' "teamname") as [t|]; [|discriminate].
  simpl. intros H. inversion H; subst r. exists p. eexists.
  split; [exact Hp|]. split; [|split; [reflexivity|]].
  - f_equal. f_equal. apply map_ext_in. intros v Hv.
    rewrite forallb_forall in F. now apply F.
  - apply filter_rows_all_false. apply zip_and_all_false.
    rewrite forallb_map. apply forallb_forall. intros v Hv.
    rewrite forallb_forall in F. specialize (F v Hv). unfold notna in F.
    now rewrite F.
Qed.

End Split.

(** What the split makes of the frame the loader holds: the records whose
    [playername] cell is not missing, and those whose [playername] cell is
    missing and whose [teamname] cell is not. *)
Lemma split_data_subsets (L : DataLoader) df p t :
  data L = Some df ->
  get_column df "playername" = Some p -> get_column df "teamname" = Some t ->
  _split_data L =
  (set_team_data
     (set_player_data L (filter_rows (map notna (values p)) df))
     (filter_rows (zip_and (map isna (values p)) (map notna (values t))) df),
   Returns tt).
Proof.
  intros D P T. unfold _split_data, getitem. now rewrite D, P, T.
Qed.

(** C1, on a raw file with a player row and the team row of the same
    game.  The team row has no player name and a team name, so it belongs
    to the team subset; after [preprocess_data] it is in the player
    subset, under the name "unknown", and the team subset has no record. *)
Theorem team_row_in_player_subset :
  let L := fst (preprocess_data two_dates read_player_and_team_rows
                  (new_loader "matches.csv")) in
  cell player_and_team_rows "playername" 1 = Some VNaN /\
  cell player_and_team_rows "teamname" 1 = Some (VStr "T1") /\
  option_map (fun p => (nrows p, cell p "playername" 1, cell p "teamname" 1))
    (player_data L)
  = Some (2%nat, Some (VStr "unknown"), Some (VStr "T1")) /\
  option_map nrows (team_data L) = Some 0%nat.
Proof. repeat split. Qed.

(* ================================================================== *)
(** * Record lookup *)






Section Lookup.

Variable parse_datetime : string -> option Z.
Variable timestamp_str : Z -> string.
Variable read_csv : string -> outcome DataFrame.




Lemma preprocess_data_returns (L L1 : DataLoader) r :
  preprocess_data parse_datetime read_csv L = (L1, Returns r) ->
  data L1 = Some r.
Proof.
  unfold preprocess_data.
  destruct (match data L with
            | Some df => (L, Returns df)
            | None => load_data read_csv L
            end) as [L0 [df|e]]; [|discriminate].
  destruct (reduce_pipeline (cleaning_pipeline parse_datetime) df)
    as [df' [e|]]; [discriminate|].
  pose proof (split_data_keeps_data (set_data L0 df')) as K.
  destruct (_split_data (set_data L0 df')) as [L2 [u|e]]; [|discriminate].
  intros H. inversion H; subst. exact K.
Qed.


End Lookup.



(* ================================================================== *)
(** * Keys and distinct values *)

Lemma Qeq_bool_sym x y : Qeq_bool x y = Qeq_bool y x.
Proof.
  apply eq_true_iff_eq. rewrite !Qeq_bool_iff. split; intros H; now symmetry.
Qed.

Lemma Qeq_bool_trans x y z :
  Qeq_bool x y = true -> Qeq_bool y z = true -> Qeq_bool x z = true.
Proof.
  rewrite !Qeq_bool_iff. intros H1 H2. now rewrite H1.
Qed.

Lemma key_eqb_refl a : key_eqb a a = true.
Proof.
  destruct a; simpl;
    auto using Qeq_bool_refl, String.eqb_refl, Z.eqb_refl, Bool.eqb_reflx.
Qed.

Lemma key_eqb_sym a b : key_eqb a b = key_eqb b a.
Proof.
  destruct a, b; simpl; auto using Qeq_bool_sym, String.eqb_sym, Z.eqb_sym.
  now destruct negative, negative0.
Qed.

Lemma key_eqb_trans a b c :
  key_eqb a b = true -> key_eqb b c = true -> key_eqb a c = true.
Proof.
  destruct a, b, c; simpl; try discriminate; auto;
    try (apply Qeq_bool_trans);
    try (intros H1 H2; apply String.eqb_eq in H1, H2; subst;
         apply String.eqb_refl);
    try (intros H1 H2; apply Z.eqb_eq in H1, H2; subst; apply Z.eqb_refl);
    try (intros H1 H2; apply Bool.eqb_prop in H1, H2; subst;
         apply Bool.eqb_reflx).
Qed.

(** Equal keys select the same rows. *)
Lemma key_eqb_same a b x : key_eqb a b = true -> key_eqb a x = key_eqb b x.
Proof.
  intros H. destruct (key_eqb b x) eqn:E.
  - eapply key_eqb_trans; eauto.
  - destruct (key_eqb a x) eqn:F; auto.
    rewrite <- E. symmetry. eapply key_eqb_trans; [|exact F].
    now rewrite key_eqb_sym.
Qed.

Lemma unique_In l x : In x (unique l) -> In x l.
Proof.
  revert x. induction l as [|y l IH]; simpl; intros x H; auto.
  destruct H as [H|H]; auto. apply filter_In in H. destruct H. auto.
Qed.

Lemma unique_covers l v :
  In v l -> exists k, In k (unique l) /\ key_eqb k v = true.
Proof.
  induction l as [|x l IH]; simpl; intros H; [contradiction|].
  destruct H as [->|H].
  - exists v. split; auto. apply key_eqb_refl.
  - destruct (IH H) as (k & Hk & E).
    destruct (key_eqb x k) eqn:X.
    + exists x. split; auto. eapply key_eqb_trans; eauto.
    + exists k. split; auto. right. apply filter_In. split; auto.
      now rewrite X.
Qed.

Lemma ForallOrdPairs_filter {A} (R : A -> A -> Prop) f l :
  ForallOrdPairs R l -> ForallOrdPairs R (filter f l).
Proof.
  induction 1 as [|a l Ha _ IH]; simpl; [constructor|].
  destruct (f a); auto. constructor; auto.
  apply Forall_forall. intros x Hx. apply filter_In in Hx.
  rewrite Forall_forall in Ha. now apply Ha.
Qed.

Lemma unique_distinct l :
  ForallOrdPairs (fun a b => key_eqb a b = false) (unique l).
Proof.
  induction l as [|x l IH]; simpl; constructor.
  - apply Forall_forall. intros y Hy. apply filter_In in Hy.
    destruct Hy as [_ Hy]. now destruct (key_eqb x y).
  - now apply ForallOrdPairs_filter.
Qed.

Lemma filter_all {A} (f : A -> bool) l :
  Forall (fun x => f x = true) l -> filter f l = l.
Proof.
  induction 1 as [|x l Hx _ IH]; simpl; auto. now rewrite Hx, IH.
Qed.

Lemma distinct_unique l :
  ForallOrdPairs (fun a b => key_eqb a b = false) l -> unique l = l.
Proof.
  induction 1 as [|x l Hx _ IH]; simpl; auto.
  rewrite IH. f_equal. apply filter_all.
  revert Hx. apply Forall_impl. intros y Hy. now rewrite Hy.
Qed.

Lemma unique_unique l : unique (unique l) = unique l.
Proof. apply distinct_unique, unique_distinct. Qed.

(** Looking a key up in a dictionary built from distinct keys. *)
Lemma dict_get_map {A} (e : value -> A) keys v k :
  ForallOrdPairs (fun a b => key_eqb a b = false) keys ->
  In k keys -> key_eqb k v = true ->
  dict_get (map (fun k => (k, e k)) keys) v = Some (e k).
Proof.
  induction 1 as [|x l Hx _ IH]; simpl; intros Hin E; [contradiction|].
  destruct Hin as [->|Hin]; [now rewrite E|].
  destruct (key_eqb x v) eqn:X; auto.
  rewrite Forall_forall in Hx. specialize (Hx k Hin).
  rewrite (key_eqb_same x v k X) in Hx.
  rewrite key_eqb_sym in Hx. congruence.
Qed.

Lemma dict_get_map_none {A} (e : value -> A) keys v :
  (forall k, In k keys -> key_eqb k v = false) ->
  dict_get (map (fun k => (k, e k)) keys) v = None.
Proof.
  induction keys as [|x l IH]; simpl; intros H; auto.
  rewrite (H x) by auto. apply IH. auto.
Qed.

(* ================================================================== *)
(** * Win rates *)

Lemma mapM_pure {A B} (f : A -> outcome B) (h : A -> B) l :
  (forall x, In x l -> f x = Returns (h x)) -> mapM f l = Returns (map h l).
Proof.
  induction l as [|x l IH]; simpl; intros H; auto.
  rewrite (H x), IH by auto. reflexivity.
Qed.

Lemma map_seq_nth_ext {A B} (l : list A) d (G : nat -> B) (F : A -> B) :
  (forall i, (i < length l)%nat -> G i = F (nth i l d)) ->
  map G (seq 0 (length l)) = map F l.
Proof.
  revert G. induction l as [|x l IH]; intros G H; simpl; auto.
  rewrite (H 0%nat) by (simpl; lia). simpl. f_equal.
  rewrite <- seq_shift, map_map. apply IH.
  intros i Hi. rewrite (H (S i)) by (simpl; lia). reflexivity.
Qed.

Lemma nth_map_in {A} (f : A -> value) l i d :
  (i < length l)%nat -> nth i (map f l) VNaN = f (nth i l d).
Proof.
  intros H. rewrite (nth_indep _ VNaN (f d)) by now rewrite length_map.
  apply map_nth.
Qed.

Lemma combine_map_map {A B C} (f : A -> B) (g : A -> C) l :
  combine (map f l) (map g l) = map (fun x => (f x, g x)) l.
Proof. induction l as [|x l IH]; simpl; auto. now rewrite IH. Qed.

Lemma group_cells_In ks vs k v : In v (group_cells ks vs k) -> In v vs.
Proof.
  unfold group_cells. intros H. apply in_map_iff in H.
  destruct H as ([k' v'] & <- & H). apply filter_In in H. destruct H as [H _].
  now apply in_combine_r in H.
Qed.

Lemma group_cells_length ks vs k :
  length ks = length vs ->
  length (group_cells ks vs k) = length (filter (key_eqb k) ks).
Proof.
  unfold group_cells. rewrite length_map. revert vs.
  induction ks as [|x ks IH]; intros [|v vs] H; simpl in *; try discriminate; auto.
  destruct (key_eqb k x); simpl; auto.
Qed.

Lemma group_cells_same ks vs a b :
  key_eqb a b = true -> group_cells ks vs a = group_cells ks vs b.
Proof.
  intros H. unfold group_cells. f_equal. apply filter_ext.
  intros [k v]. simpl. now apply key_eqb_same.
Qed.

Lemma count_key_same a b l : key_eqb a b = true -> count_key a l = count_key b l.
Proof.
  intros H. unfold count_key. do 2 f_equal. apply filter_ext.
  intros x. now apply key_eqb_same.
Qed.

Lemma agg_sum_numbers cells :
  numbers cells -> agg_sum cells = Returns (VNum (Qsum (map cell_number cells))).
Proof.
  unfold numbers. induction cells as [|v cells IH]; simpl; intros H; auto.
  rewrite IH by auto. destruct (H v) as [q ->]; auto.
Qed.

Lemma agg_count_numbers cells :
  numbers cells -> agg_count cells = Z.of_nat (length cells).
Proof.
  unfold numbers, agg_count. intros H. f_equal. f_equal. apply filter_all.
  apply Forall_forall. intros v Hv. destruct (H v Hv) as [q ->]. reflexivity.
Qed.

Lemma numbers_group ks vs k : numbers vs -> numbers (group_cells ks vs k).
Proof. intros H v Hv. apply H. eapply group_cells_In; eauto. Qed.

Lemma count_key_positive k l : In k l -> (0 < count_key k l)%Z.
Proof.
  intros H. unfold count_key.
  assert (In k (filter (key_eqb k) l))
    by (apply filter_In; split; auto; apply key_eqb_refl).
  destruct (filter (key_eqb k) l); [contradiction|]. simpl length. lia.
Qed.

Lemma inject_Z_nonzero n : (0 < n)%Z -> Qeq_bool (inject_Z n) 0 = false.
Proof.
  intros H. destruct (Qeq_bool (inject_Z n) 0) eqn:E; auto.
  apply Qeq_bool_iff in E. unfold Qeq, inject_Z in E. simpl in E. lia.
Qed.

Lemma not_reserved gc :
  ~ In gc win_rate_columns ->
  String.eqb gc "games_played" = false /\ String.eqb gc "wins" = false /\
  String.eqb gc "win_rate" = false.
Proof.
  unfold win_rate_columns. simpl. intros H.
  repeat split; apply String.eqb_neq; intros ->; tauto.
Qed.

(** The table of win rates between [reset_index] and [to_dict]: with a
    grouping column named unlike the aggregates, the four columns stay
    apart and the index put back is the column of keys. *)
Lemma win_rate_table gc dg keys gpv dr wv :
  ~ In gc win_rate_columns ->
  (w <- getitem [mkSeries gc dg keys; mkSeries "games_played" int64 gpv;
                 mkSeries "wins" dr wv] "wins" ;;
   p <- getitem [mkSeries gc dg keys; mkSeries "games_played" int64 gpv;
                 mkSeries "wins" dr wv] "games_played" ;;
   ix <- set_index gc
           (set_column "win_rate" float64 (series_div w p)
              [mkSeries gc dg keys; mkSeries "games_played" int64 gpv;
               mkSeries "wins" dr wv]) ;;
   to_dict_index (fst ix) (snd ix))
  = to_dict_index (mkSeries gc dg keys)
      [mkSeries "games_played" int64 gpv; mkSeries "wins" dr wv;
       mkSeries "win_rate" float64
         (series_div (mkSeries "wins" dr wv) (mkSeries "games_played" int64 gpv))].
Proof.
  intros H. destruct (not_reserved gc H) as (E1 & E2 & E3).
  unfold getitem, set_index. cbn [get_column name].
  rewrite (String.eqb_sym "wins" gc), (String.eqb_sym "games_played" gc), E1, E2.
  change ("wins" =? "games_played") with false.
  change ("wins" =? "wins") with true.
  change ("games_played" =? "games_played") with true.
  cbn [bind set_column name].
  rewrite (String.eqb_sym "win_rate" gc), E3.
  change ("win_rate" =? "games_played") with false.
  change ("win_rate" =? "wins") with false.
  unfold getitem. cbn [get_column name]. rewrite String.eqb_refl.
  cbn [bind drop_column name fst snd]. now rewrite String.eqb_refl.
Qed.

(** The dictionary of win rates when the outcome cells are numbers and the
    grouping column is not named like one of the aggregates: one entry
    per distinct group value. *)
Lemma calculate_win_rates_numbers df gc g r :
  get_column df gc = Some g -> get_column df "result" = Some r ->
  length (values g) = length (values r) ->
  numbers (values r) -> ~ In gc win_rate_columns ->
  calculate_win_rates (Some df) gc =
  Returns (map (fun k => (k, win_rate_entry
                               (count_key k (values g))
                               (Qsum (map cell_number
                                        (group_cells (values g) (values r) k)))))
               (unique (filter notna (values g)))).
Proof.
  intros G R L N Hgc.
  destruct (not_reserved gc Hgc) as (E1 & E2 & E3).
  unfold calculate_win_rates, getitem. rewrite !has_column_get, G, R.
  cbn [negb orb bind].
  set (keys := unique (filter notna (values g))).
  set (cells := group_cells (values g) (values r)).
  rewrite (mapM_pure _ (fun k => VNum (Qsum (map cell_number (cells k))))).
  2:{ intros k _. unfold cells.
      now rewrite agg_sum_numbers by now apply numbers_group. }
  cbn [bind]. unfold reset_index, has_column, columns.
  cbn [map name existsb]. rewrite E1, E2. cbn [orb bind]. cbv zeta.
  eapply eq_trans; [apply (win_rate_table gc _ _ _ _ _ Hgc)|].
  unfold to_dict_index. cbn [values].
  unfold keys at 1 2. rewrite unique_unique. fold keys.
  rewrite Nat.eqb_refl. f_equal.
  unfold series_div. cbn [values]. rewrite combine_map_map, map_map.
  cbn [fst snd].
  apply (map_seq_nth_ext keys VNaN). intros i Hi.
  cbn [map name values].
  rewrite !(nth_map_in _ keys i VNaN) by assumption.
  set (k := nth i keys VNaN).
  assert (Hk : In k (values g)).
  { assert (In k keys) by (apply nth_In; assumption).
    unfold keys in H. apply unique_In in H. apply filter_In in H. tauto. }
  unfold win_rate_entry, cells.
  rewrite agg_count_numbers by now apply numbers_group.
  rewrite group_cells_length by assumption.
  fold (count_key k (values g)).
  unfold np_div. rewrite inject_Z_nonzero by now apply count_key_positive.
  reflexivity.
Qed.

Lemma Qsum_bounds qs :
  (forall q, In q qs -> 0 <= q /\ q <= 1) ->
  0 <= Qsum qs /\ Qsum qs <= inject_Z (Z.of_nat (length qs)).
Proof.
  induction qs as [|q qs IH]; intros H.
  - simpl. split; apply Qle_refl.
  - assert (IH' : 0 <= Qsum qs /\ Qsum qs <= inject_Z (Z.of_nat (length qs)))
      by (apply IH; intros; apply H; simpl; auto).
    destruct IH' as [IH1 IH2].
    assert (Hq : 0 <= q /\ q <= 1) by (apply H; simpl; auto).
    destruct Hq as [Hq0 Hq1].
    cbn [Qsum fold_right length]. fold (Qsum qs). split.
    + rewrite <- (Qplus_0_l 0). now apply Qplus_le_compat.
    + rewrite Nat2Z.inj_succ, <- Z.add_1_l, inject_Z_plus.
      now apply Qplus_le_compat.
Qed.

Lemma binary_numbers cells : binary cells -> numbers cells.
Proof. intros H v Hv. destruct (H v Hv) as (q & -> & _). eauto. Qed.

Lemma binary_bounds cells q :
  binary cells -> In q (map cell_number cells) -> 0 <= q /\ q <= 1.
Proof.
  intros H Hq. apply in_map_iff in Hq. destruct Hq as (v & <- & Hv).
  destruct (H v Hv) as (x & -> & [E|E]); simpl; rewrite E; split;
    discriminate.
Qed.

Lemma rate_in_unit_interval w n :
  (0 < n)%Z -> 0 <= w -> w <= inject_Z n ->
  0 <= w / inject_Z n /\ w / inject_Z n <= 1.
Proof.
  intros Hn H0 H1.
  assert (P : 0 < inject_Z n) by (unfold Qlt, inject_Z; simpl; lia).
  split.
  - apply Qle_shift_div_l; [exact P|]. now rewrite Qmult_0_l.
  - apply Qle_shift_div_r; [exact P|]. now rewrite Qmult_1_l.
Qed.

(** For a grouping column named unlike the three aggregates the
    calculation is right.  With a 0/1 outcome column [result], the
    dictionary of win rates has, for each group value of the grouping
    column, an entry whose games_played is the number of rows of the
    group, whose wins is the sum of the outcomes of those rows and whose
    win_rate is wins / games_played, a number between 0 and 1; it has no
    entry for a value that is not in the column. *)
Lemma win_rates_per_group df gc g r :
  rectangular df = true ->
  get_column df gc = Some g -> get_column df "result" = Some r ->
  binary (values r) -> ~ In gc win_rate_columns ->
  exists d,
    calculate_win_rates (Some df) gc = Returns d /\
    (forall v, In v (values g) -> notna v = true ->
       exists w,
         dict_get d v = Some (win_rate_entry (count_key v (values g)) w) /\
         w = Qsum (map cell_number (group_cells (values g) (values r) v)) /\
         (0 < count_key v (values g))%Z /\
         0 <= w / inject_Z (count_key v (values g)) /\
         w / inject_Z (count_key v (values g)) <= 1) /\
    (forall v, (forall x, In x (values g) -> key_eqb x v = false) ->
               dict_get d v = None).
Proof.
  intros Rect G R B Hgc.
  assert (L : length (values g) = length (values r)).
  { rewrite (rectangular_get _ _ _ Rect G). symmetry.
    apply (rectangular_get _ _ _ Rect R). }
  rewrite (calculate_win_rates_numbers df gc g r G R L (binary_numbers _ B) Hgc).
  eexists. split; [reflexivity|]. split.
  - intros v Hv Nv.
    assert (Hf : In v (filter notna (values g))) by (apply filter_In; auto).
    destruct (unique_covers _ _ Hf) as (k & Hk & E).
    rewrite (dict_get_map _ _ v k (unique_distinct _) Hk E).
    rewrite (count_key_same k v _ E), (group_cells_same _ _ k v E).
    eexists. split; [reflexivity|]. split; [reflexivity|].
    assert (P : (0 < count_key v (values g))%Z) by now apply count_key_positive.
    split; [exact P|].
    apply rate_in_unit_interval; auto.
    + apply Qsum_bounds. intros q Hq. eapply binary_bounds; [|exact Hq].
      intros x Hx. apply B. eapply group_cells_In; eauto.
    + unfold count_key. rewrite <- (group_cells_length _ (values r)) by exact L.
      rewrite <- (length_map cell_number).
      apply Qsum_bounds. intros q Hq. eapply binary_bounds; [|exact Hq].
      intros x Hx. apply B. eapply group_cells_In; eauto.
  - intros v Hv. apply dict_get_map_none. intros k Hk.
    apply Hv. apply unique_In in Hk. apply filter_In in Hk. tauto.
Qed.

(** Three games of T1 with two wins, one lost game of G2. *)
Example win_rates_of_outcomes :
  calculate_win_rates (Some outcomes) "teamname"
  = Returns [(VStr "T1", [("games_played", VNum 3); ("wins", VNum (2 # 1));
                          ("win_rate", VNum (2 # 3))]);
             (VStr "G2", [("games_played", VNum 1); ("wins", VNum 0);
                          ("win_rate", VNum 0)])].
Proof. reflexivity. Qed.

Lemma two_outcomes_binary : binary [VNum 1; VNum 0].
Proof.
  intros v [<-|[<-|[]]]; eexists; split; try reflexivity;
    (left; reflexivity) || (right; reflexivity).
Qed.

(** C7. The calculation goes wrong when the grouping column carries the
    name of one of the aggregates it computes.  Each of the three frames
    below holds a grouping column of two groups and a 0/1 [result]; the
    first group has one game and one win, the second one game and no
    win.  Grouped by a column named [wins] or [games_played] the
    calculation raises instead of returning the dictionary; grouped by a
    column named [win_rate] it returns a dictionary keyed by the computed
    rates, with no entry for either group and no [win_rate] field.  The
    same records under a grouping column named [team] give the entry of
    each group. *)
Theorem win_rates_name_collision :
  binary [VNum 1; VNum 0]
  /\
  (has_column wins_column "wins" = true /\
   get_column wins_column "result"
   = Some (mkSeries "result" int64 [VNum 1; VNum 0]) /\
   calculate_win_rates (Some wins_column) "wins" = Raises ValueError)
  /\
  (has_column games_played_column "games_played" = true /\
   get_column games_played_column "result"
   = Some (mkSeries "result" int64 [VNum 1; VNum 0]) /\
   calculate_win_rates (Some games_played_column) "games_played"
   = Raises ValueError)
  /\
  (has_column win_rate_column "win_rate" = true /\
   get_column win_rate_column "result"
   = Some (mkSeries "result" int64 [VNum 1; VNum 0]) /\
   exists d,
     calculate_win_rates (Some win_rate_column) "win_rate" = Returns d /\
     dict_get d (VStr "a") = None /\ dict_get d (VStr "b") = None /\
     dict_get d (VNum 1)
     = Some [("games_played", VNum 1); ("wins", VNum 1)] /\
     dict_get d (VNum 0)
     = Some [("games_played", VNum 1); ("wins", VNum 0)])
  /\
  (exists d,
     calculate_win_rates (Some team_column) "team" = Returns d /\
     dict_get d (VStr "a") = Some (win_rate_entry 1 1) /\
     dict_get d (VStr "b") = Some (win_rate_entry 1 0)).
Proof.
  split; [apply two_outcomes_binary|].
  split; [repeat split|].
  split; [repeat split|].
  split.
  - split; [reflexivity|]. split; [reflexivity|].
    eexists. split; [reflexivity|]. repeat split.
  - eexists. split; [reflexivity|]. split; reflexivity.
Qed.

(* ================================================================== *)
(** * The columns of the preprocessed frame *)

Lemma rectangular_map (f : Series -> Series) df :
  (forall c, length (values (f c)) = length (values c)) ->
  rectangular df = true -> rectangular (map f df) = true.
Proof.
  intros Hf R. apply rectangular_forall. intros c Hc.
  apply in_map_iff in Hc. destruct Hc as (c0 & <- & Hc0).
  rewrite Hf. rewrite rectangular_forall in R. rewrite (R c0 Hc0).
  destruct df as [|c1 df]; simpl; auto.
Qed.

Lemma handle_missing_values_rectangular df :
  rectangular df = true -> rectangular (fst (_handle_missing_values df)) = true.
Proof.
  rewrite handle_missing_values_columns. apply rectangular_map.
  intros c. simpl. apply length_map.
Qed.

Lemma convert_column_rectangular n conv df df' :
  (forall c c', conv c = Returns c' -> length (values c') = length (values c)) ->
  rectangular df = true -> convert_column n conv df = Returns df' ->
  rectangular df' = true.
Proof.
  intros Hconv R. unfold convert_column, getitem.
  destruct (has_column df n); [|intros H; now inversion H; subst].
  destruct (get_column df n) as [c|] eqn:G; simpl; [|discriminate].
  destruct (conv c) as [c'|] eqn:C; simpl; [|discriminate].
  intros H. inversion H; subst. apply rectangular_set; auto.
  rewrite (Hconv _ _ C). eapply rectangular_get; eauto.
Qed.

Lemma derive_rectangular srcs target f df df' :
  rectangular df = true -> derive srcs target f df = Returns df' ->
  rectangular df' = true.
Proof.
  intros R. unfold derive.
  destruct (forallb _ _); [|intros H; now inversion H; subst].
  destruct (apply_axis1 f df) as [vs|] eqn:E; simpl; [|discriminate].
  intros H. inversion H; subst. apply rectangular_set; auto.
  now apply apply_axis1_length in E.
Qed.

Lemma astype_bool_length c c' :
  astype_bool c = Returns c' -> length (values c') = length (values c).
Proof.
  unfold astype_bool. intros H. inversion H; subst. simpl. apply length_map.
Qed.

Lemma filter_remove_nth {A} (f : A -> bool) l i x :
  nth_error l i = Some x -> f x = true ->
  length (filter f l) = S (length (filter f (remove_nth i l))).
Proof.
  revert i. induction l as [|y l IH]; intros [|i] H E; simpl in *;
    try discriminate.
  - inversion H; subst. now rewrite E.
  - destruct (f y); simpl; now rewrite (IH i H E).
Qed.

Lemma count_key_remove v l i x :
  nth_error l i = Some x -> key_eqb v x = true ->
  count_key v l = (1 + count_key v (remove_nth i l))%Z.
Proof.
  intros H E. unfold count_key.
  rewrite (filter_remove_nth _ l i x H E). lia.
Qed.

Lemma group_sum_remove ks vs v i x y :
  nth_error ks i = Some x -> key_eqb v x = true -> nth_error vs i = Some y ->
  Qsum (map cell_number (group_cells ks vs v)) ==
  cell_number y
  + Qsum (map cell_number (group_cells (remove_nth i ks) (remove_nth i vs) v)).
Proof.
  unfold group_cells. revert vs i.
  induction ks as [|k ks IH]; intros [|u vs] [|i] Hk E Hv; simpl in *;
    try discriminate.
  - inversion Hk; inversion Hv; subst. rewrite E. simpl. reflexivity.
  - destruct (key_eqb v k); simpl; rewrite (IH vs i Hk E Hv).
    + unfold Qsum. ring.
    + reflexivity.
Qed.

Section MissingOutcome.

Variable parse_datetime : string -> option Z.

Lemma to_datetime_length c c' :
  to_datetime parse_datetime c = Returns c' ->
  length (values c') = length (values c).
Proof.
  unfold to_datetime. destruct (is_datetime64_dtype _).
  - intros H. now inversion H.
  - destruct (mapM _ (values c)) as [vs|] eqn:E; simpl; [|discriminate].
    intros H. inversion H; subst. simpl. now apply mapM_length in E.
Qed.

Lemma reduce_pipeline_rectangular df :
  rectangular df = true ->
  rectangular (fst (reduce_pipeline (cleaning_pipeline parse_datetime) df)) = true.
Proof.
  intros R. unfold cleaning_pipeline. cbn [reduce_pipeline].
  pose proof (handle_missing_values_rectangular df R) as R1.
  rewrite handle_missing_values_eq in *. cbn [fst] in R1.
  set (df1 := fill_categorical (fill_numeric df)) in *.
  assert (R2 : rectangular (fst (_convert_data_types parse_datetime df1)) = true).
  { unfold _convert_data_types.
    apply (run_steps_fst_invariant (fun d => rectangular d = true)); auto.
    constructor.
    - intros d d' Hd. apply convert_column_rectangular; auto.
      apply to_datetime_length.
    - simpl. repeat constructor; intros d d' Hd;
        (apply convert_column_rectangular; auto; apply astype_bool_length). }
  destruct (_convert_data_types parse_datetime df1) as [df2 [e|]]; auto.
  cbn [fst] in R2.
  assert (R3 : rectangular (fst (_add_derived_features df2)) = true).
  { unfold _add_derived_features.
    apply (run_steps_fst_invariant (fun d => rectangular d = true)); auto.
    rewrite add_kda_eq, add_kill_participation_eq.
    repeat constructor; intros d d' Hd; now apply derive_rectangular. }
  destruct (_add_derived_features df2) as [df3 [e|]]; auto.
Qed.

(** A column no later stage assigns is, after the pipeline, what the
    missing-value stage made of it. *)
Lemma column_after_pipeline df n :
  ~ In n assigned_columns ->
  get_column (fst (reduce_pipeline (cleaning_pipeline parse_datetime) df)) n
  = get_column (fst (_handle_missing_values df)) n.
Proof.
  intros Hn. unfold assigned_columns, bool_cols in Hn. simpl in Hn.
  assert (N : forall m, In m ["date"; "playoffs"; "firstblood"; "firstbloodkill";
                              "firstbloodassist"; "firstbloodvictim"; "kda";
                              "kill_participation"] -> n <> m).
  { intros m Hm ->. simpl in Hm. tauto. }
  unfold cleaning_pipeline. cbn [reduce_pipeline].
  rewrite handle_missing_values_eq. cbn [fst].
  set (df1 := fill_categorical (fill_numeric df)).
  assert (C : get_column (fst (_convert_data_types parse_datetime df1)) n
              = get_column df1 n).
  { apply run_steps_column_untouched.
    rewrite convert_date_eq. simpl. rewrite !convert_bool_eq.
    repeat constructor; intros d d'; apply convert_column_other; apply N;
      simpl; tauto. }
  destruct (_convert_data_types parse_datetime df1) as [df2 [e|]]; auto.
  cbn [fst] in C.
  assert (D : get_column (fst (_add_derived_features df2)) n = get_column df2 n).
  { apply run_steps_column_untouched.
    repeat constructor; intros d d' H.
    - apply (add_kda_other _ _ _ H). apply N. simpl. tauto.
    - apply (add_kill_participation_other _ _ _ H). apply N. simpl. tauto. }
  destruct (_add_derived_features df2) as [df3 [e|]]; cbn [fst] in D |- *;
    congruence.
Qed.

Lemma result_after_pipeline df r :
  get_column df "result" = Some r ->
  get_column (fst (reduce_pipeline (cleaning_pipeline parse_datetime) df)) "result"
  = Some (mkSeries (name r) (dtype_of r)
            (map (filled_cell (dtype_of r)) (values r))).
Proof.
  intros G. rewrite column_after_pipeline.
  - rewrite handle_missing_values_columns.
    rewrite (get_column_map
               (fun c => mkSeries (name c) (dtype_of c)
                           (map (filled_cell (dtype_of c)) (values c))))
      by reflexivity.
    now rewrite G.
  - unfold assigned_columns, bool_cols. simpl.
    intros [H|[H|[H|[H|[H|[H|[H|[H|[]]]]]]]]]; discriminate.
Qed.

(** The pipeline drops no column. *)
Lemma pipeline_keeps_columns df n :
  has_column df n = true ->
  has_column (fst (reduce_pipeline (cleaning_pipeline parse_datetime) df)) n
  = true.
Proof.
  intros H. unfold cleaning_pipeline. cbn [reduce_pipeline].
  assert (H1 : has_column (fst (_handle_missing_values df)) n = true).
  { rewrite handle_missing_values_columns. rewrite has_column_get in *.
    rewrite (get_column_map
               (fun c => mkSeries (name c) (dtype_of c)
                           (map (filled_cell (dtype_of c)) (values c))))
      by reflexivity.
    destruct (get_column df n); auto. }
  rewrite handle_missing_values_eq in *. cbn [fst] in H1.
  set (df1 := fill_categorical (fill_numeric df)) in *.
  assert (H2 : has_column (fst (_convert_data_types parse_datetime df1)) n = true).
  { unfold _convert_data_types.
    apply (run_steps_fst_invariant (fun d => has_column d n = true)); auto.
    rewrite convert_date_eq. simpl. rewrite !convert_bool_eq.
    repeat constructor; intros d d' Hd Hc; apply convert_column_result in Hc;
      (destruct Hc as [->|(t & vs & ->)]; [assumption|now apply has_set_column]). }
  destruct (_convert_data_types parse_datetime df1) as [df2 [e|]]; auto.
  cbn [fst] in H2.
  assert (H3 : has_column (fst (_add_derived_features df2)) n = true).
  { unfold _add_derived_features.
    apply (run_steps_fst_invariant (fun d => has_column d n = true)); auto.
    rewrite add_kda_eq, add_kill_participation_eq.
    repeat constructor; intros d d' Hd; unfold derive;
      (destruct (forallb _ _); [|intros Hc; now inversion Hc; subst]);
      (destruct (apply_axis1 _ d) as [vs|]; simpl; [|discriminate]);
      intros Hc; inversion Hc; subst; now apply has_set_column. }
  destruct (_add_derived_features df2) as [df3 [e|]]; auto.
Qed.

End MissingOutcome.

(** ** No missing value in the frame the loader holds *)

(** C2, as the code has it.  On the frame a loader starts from (the one
    it holds, or the one read from its file), when its cells have the
    dtype of their column and none of them is an infinite float, the
    missing-value stage replaces every missing cell of a numeric column
    by 0 and every missing cell of a categorical column by "unknown" and
    changes no other cell; the frame the loader holds after
    [preprocess_data] has no missing cell in any numeric or categorical
    column, keeps every column of the raw frame, and holds every column
    that no later stage assigns as the missing-value stage left it; a
    frame that [preprocess_data] returns is that frame. *)
Theorem no_missing_after_preprocessing
  (parse_datetime : string -> option Z) (read_csv : string -> outcome DataFrame)
  (L : DataLoader) (df : DataFrame) :
  raw_frame read_csv L df -> well_typed df = true -> finite_frame df = true ->
  fst (_handle_missing_values df) =
    map (fun c => mkSeries (name c) (dtype_of c)
                    (map (filled_cell (dtype_of c)) (values c))) df
  /\
  exists df',
    data (fst (preprocess_data parse_datetime read_csv L)) = Some df' /\
    no_missing df' = true /\
    (forall n, has_column df n = true -> has_column df' n = true) /\
    (forall n c, ~ In n assigned_columns -> get_column df n = Some c ->
                 get_column df' n =
                 Some (mkSeries (name c) (dtype_of c)
                         (map (filled_cell (dtype_of c)) (values c)))) /\
    forall r, snd (preprocess_data parse_datetime read_csv L) = Returns r ->
              r = df'.
Proof.
  intros D W F. split; [apply handle_missing_values_columns|].
  destruct (preprocess_data_frame parse_datetime read_csv L df D) as [H1 H2].
  eexists. split; [exact H1|].
  split; [apply clean_no_missing; now apply reduce_pipeline_clean|].
  split; [intros n; apply pipeline_keeps_columns|].
  split; [|exact H2].
  intros n c Hn G. rewrite column_after_pipeline by assumption.
  rewrite handle_missing_values_columns.
  rewrite (get_column_map
             (fun c => mkSeries (name c) (dtype_of c)
                         (map (filled_cell (dtype_of c)) (values c))))
    by reflexivity.
  now rewrite G.
Qed.

Lemma no_missing_after_preprocessing_witness :
  exists df',
    data (fst (preprocess_data two_dates read_raw_matches
                 (new_loader "matches.csv")))
    = Some df' /\
    no_missing df' = true /\
    get_column df' "playername"
    = Some (mkSeries "playername" object
              [VStr "Faker"; VStr "unknown"; VStr "unknown"]).
Proof.
  destruct (no_missing_after_preprocessing two_dates read_raw_matches
              (new_loader "matches.csv") raw_matches
              eq_refl eq_refl eq_refl) as (_ & df' & H1 & H2 & _ & H4 & _).
  exists df'. split; [exact H1 |]. split; [exact H2 |].
  apply (H4 "playername"
           (mkSeries "playername" object [VStr "Faker"; VNaN; VNaN])).
  - unfold assigned_columns, bool_cols. simpl.
    intros [H|[H|[H|[H|[H|[H|[H|[H|[]]]]]]]]]; discriminate.
  - reflexivity.
Defined.

(** C2 as stated fails on a file with infinite entries: with kills and
    deaths both infinite the ratio of the derived-feature stage is
    inf / inf, and the numeric column [kda] of the preprocessed frame
    holds a missing value. *)
Lemma missing_ratio_of_infinities :
  well_typed infinite_kills = true /\
  exists df',
    snd (preprocess_data two_dates read_infinite_kills (new_loader "matches.csv"))
    = Returns df' /\
    get_column df' "kda" = Some (mkSeries "kda" float64 [VNaN]) /\
    no_missing df' = false.
Proof.
  split; [reflexivity|].
  eexists. split; [reflexivity|]. split; reflexivity.
Qed.


(** ** A missing outcome is a played, lost game *)

(** C10. Take a raw frame with a numeric [result] column and a record
    whose [result] is missing.  Once [preprocess_data] has returned, the
    record's [result] is 0, and in the win rates by a grouping column
    (named unlike the aggregates) in which the record has a key, the entry
    of that key has games_played = 1 + the number of the other records of
    the group and wins = the sum of the outcomes of those other records:
    the record is counted as one game played and adds nothing to the
    wins. *)
Theorem missing_result_counts_as_loss
  (parse_datetime : string -> option Z) (read_csv : string -> outcome DataFrame)
  (L : DataLoader) (df df' : DataFrame) (gc : string) (g' : Series)
  (i : nat) (v : value) :
  raw_frame read_csv L df -> rectangular df = true ->
  numeric_column df "result" = true ->
  cell df "result" i = Some VNaN ->
  snd (preprocess_data parse_datetime read_csv L) = Returns df' ->
  get_column df' gc = Some g' -> nth_error (values g') i = Some v ->
  notna v = true -> ~ In gc win_rate_columns ->
  exists r' d w,
    get_column df' "result" = Some r' /\
    nth_error (values r') i = Some (VNum 0) /\
    calculate_win_rates (Some df') gc = Returns d /\
    dict_get d v
    = Some (win_rate_entry (1 + count_key v (remove_nth i (values g'))) w) /\
    w == Qsum (map cell_number
                 (group_cells (remove_nth i (values g'))
                              (remove_nth i (values r')) v)).
Proof.
  intros D Rect N Hi Hret G' Hv Nv Hgc.
  destruct (preprocess_data_frame parse_datetime read_csv L df D) as [_ E].
  specialize (E _ Hret). subst df'.
  pose proof (reduce_pipeline_rectangular parse_datetime df Rect) as Rect'.
  unfold numeric_column, number_column in N.
  destruct (get_column df "result") as [r|] eqn:R; [|discriminate].
  apply andb_prop in N. destruct N as [N I].
  apply andb_prop in N. destruct N as [T F].
  pose proof (result_after_pipeline parse_datetime df r R) as R'.
  set (df' := fst (reduce_pipeline (cleaning_pipeline parse_datetime) df)) in *.
  set (r' := mkSeries (name r) (dtype_of r)
               (map (filled_cell (dtype_of r)) (values r))) in *.
  assert (Nr : numbers (values r')).
  { intros x Hx. simpl in Hx. apply in_map_iff in Hx.
    destruct Hx as (y & <- & Hy). rewrite forallb_forall in F, I.
    specialize (F y Hy). specialize (I y Hy). unfold filled_cell.
    destruct (dtype_of r), y; simpl in *; try discriminate; eauto. }
  assert (Hi' : nth_error (values r') i = Some (VNum 0)).
  { unfold cell, row_at in Hi. rewrite R in Hi. simpl.
    rewrite nth_error_map, Hi. simpl. unfold filled_cell. simpl.
    now rewrite T. }
  assert (Len : length (values g') = length (values r')).
  { rewrite (rectangular_get _ _ _ Rect' G'). symmetry.
    apply (rectangular_get _ _ _ Rect' R'). }
  exists r'. eexists. eexists.
  split; [exact R'|]. split; [exact Hi'|].
  split; [apply (calculate_win_rates_numbers df' gc g' r' G' R' Len Nr Hgc)|].
  assert (Hf : In v (filter notna (values g'))).
  { apply filter_In. split; auto. eapply nth_error_In; eauto. }
  destruct (unique_covers _ _ Hf) as (k & Hk & Ek).
  rewrite (dict_get_map _ _ v k (unique_distinct _) Hk Ek).
  rewrite (count_key_same k v _ Ek), (group_cells_same _ _ k v Ek).
  rewrite (count_key_remove v (values g') i v Hv (key_eqb_refl v)).
  split; [reflexivity|].
  rewrite (group_sum_remove _ _ v i v (VNum 0) Hv (key_eqb_refl v) Hi').
  simpl cell_number. apply Qplus_0_l.
Qed.

Lemma missing_result_counts_as_loss_witness :
  exists df' r' d w,
    snd (preprocess_data two_dates read_missing_outcome (new_loader "matches.csv"))
    = Returns df' /\
    get_column df' "result" = Some r' /\
    nth_error (values r') 1 = Some (VNum 0) /\
    calculate_win_rates (Some df') "teamname" = Returns d /\
    dict_get d (VStr "T1") = Some (win_rate_entry 2 w) /\
    w == Qsum (map cell_number
                 (group_cells [VStr "T1"; VStr "G2"]
                              (remove_nth 1 (values r')) (VStr "T1"))).
Proof.
  destruct (missing_result_counts_as_loss two_dates read_missing_outcome
              (new_loader "matches.csv") missing_outcome
              (fst (reduce_pipeline (cleaning_pipeline two_dates) missing_outcome))
              "teamname"
              (mkSeries "teamname" object [VStr "T1"; VStr "T1"; VStr "G2"])
              1 (VStr "T1"))
    as (r' & d & w & H1 & H2 & H3 & H4 & H5); try reflexivity.
  - simpl. intros [H|[H|[H|[]]]]; discriminate.
  - eexists. exists r', d, w.
    split; [reflexivity|]. split; [exact H1|]. split; [exact H2|].
    split; [exact H3|]. split; [exact H4 | exact H5].
Defined.

(* ================================================================== *)
(** * Bar and pie charts: the most frequent categories *)

Lemma insert_desc_perm x l : Permutation (insert_desc x l) (x :: l).
Proof.
  induction l as [|y l IH]; simpl; auto.
  destruct (Z.ltb (snd x) (snd y)); auto.
  rewrite IH. apply perm_swap.
Qed.

Lemma sort_desc_perm l : Permutation (sort_desc l) l.
Proof.
  induction l as [|x l IH]; simpl; auto.
  rewrite insert_desc_perm. now constructor.
Qed.

Lemma insert_desc_sorted x l :
  ForallOrdPairs (fun a b => (snd b <= snd a)%Z) l ->
  ForallOrdPairs (fun a b => (snd b <= snd a)%Z) (insert_desc x l).
Proof.
  induction 1 as [|y l Hy Hl IH]; simpl.
  - repeat constructor.
  - destruct (Z.ltb_spec (snd x) (snd y)).
    + constructor; auto.
      apply Forall_forall. intros z Hz.
      apply (Permutation_in _ (insert_desc_perm x l)) in Hz.
      destruct Hz as [<-|Hz]; [lia|].
      rewrite Forall_forall in Hy. now apply Hy.
    + constructor; [|constructor; auto].
      constructor; auto.
      revert Hy. apply Forall_impl. intros z Hz. lia.
Qed.

Lemma sort_desc_sorted l :
  ForallOrdPairs (fun a b => (snd b <= snd a)%Z) (sort_desc l).
Proof.
  induction l as [|x l IH]; simpl; [constructor|].
  now apply insert_desc_sorted.
Qed.

Lemma length_sort_desc l : length (sort_desc l) = length l.
Proof. apply Permutation_length, sort_desc_perm. Qed.

Lemma ForallOrdPairs_app {A} (R : A -> A -> Prop) l1 l2 a b :
  ForallOrdPairs R (l1 ++ l2) -> In a l1 -> In b l2 -> R a b.
Proof.
  induction l1 as [|x l1 IH]; simpl; intros H Ha Hb; [contradiction|].
  inversion H as [|? ? Hx Hl]; subst.
  destruct Ha as [->|Ha]; auto.
  rewrite Forall_forall in Hx. apply Hx. apply in_or_app. auto.
Qed.

Lemma counts_sum_perm l l' :
  Permutation l l' -> counts_sum l = counts_sum l'.
Proof.
  unfold counts_sum. induction 1; simpl; try lia.
Qed.

(** Filtering respects the removal of duplicates when the filter does
    not tell equal keys apart. *)
Lemma unique_filter (p : value -> bool) l :
  (forall a b, key_eqb a b = true -> p a = p b) ->
  unique (filter p l) = filter p (unique l).
Proof.
  intros Hp. induction l as [|x l IH]; simpl; auto.
  destruct (p x) eqn:Px; simpl.
  - rewrite IH. f_equal. clear IH.
    induction (unique l) as [|y u IHu]; simpl; auto.
    destruct (p y) eqn:Py, (key_eqb x y) eqn:E; simpl;
      rewrite ?Py, ?E; simpl; now rewrite ?IHu.
  - rewrite IH. clear IH.
    induction (unique l) as [|y u IHu]; simpl; auto.
    destruct (key_eqb x y) eqn:E; simpl.
    + rewrite <- (Hp x y E), Px. exact IHu.
    + destruct (p y); now rewrite IHu.
Qed.

Lemma notna_key a b : key_eqb a b = true -> notna a = notna b.
Proof. destruct a, b; simpl; auto; discriminate. Qed.

Lemma nunique_le l : (nunique l <= length (unique l))%nat.
Proof.
  unfold nunique. rewrite (unique_filter notna l notna_key).
  apply filter_length_le.
Qed.

Lemma NoDup_unique l : NoDup (unique l).
Proof.
  pose proof (unique_distinct l) as H.
  induction H as [|x u Hx _ IH]; constructor; auto.
  intros Hin. rewrite Forall_forall in Hx. specialize (Hx x Hin).
  now rewrite key_eqb_refl in Hx.
Qed.

Lemma NoDup_firstn {A} n (l : list A) : NoDup l -> NoDup (firstn n l).
Proof.
  intros H. rewrite <- (firstn_skipn n l) in H.
  now apply NoDup_app_remove_r in H.
Qed.

Lemma In_firstn {A} n (l : list A) x : In x (firstn n l) -> In x l.
Proof.
  intros H. rewrite <- (firstn_skipn n l). apply in_or_app. auto.
Qed.

(** The entries [nlargest] keeps of the counts of a column. *)
Lemma nlargest_value_counts n l :
  (0 <= n)%Z -> (n < Z.of_nat (nunique l))%Z ->
  let top := nlargest n (value_counts l) in
  length top = Z.to_nat n /\
  NoDup top /\
  (forall k m, In (k, m) top ->
               In k l /\ notna k = true /\ m = count_key k l) /\
  (forall k1 m1 k2 m2, In (k1, m1) top -> In (k2, m2) top ->
                       key_eqb k1 k2 = true -> k1 = k2) /\
  (forall v, In v l -> notna v = true ->
             (forall k m, In (k, m) top -> key_eqb k v = false) ->
             forall k m, In (k, m) top -> (count_key v l <= m)%Z).
Proof.
  intros Hn Hlt top.
  set (keys := unique (filter notna l)).
  set (base := map (fun k => (k, count_key k l)) keys).
  set (sorted := sort_desc (sort_desc base)).
  assert (P : Permutation sorted base).
  { unfold sorted. now rewrite !sort_desc_perm. }
  assert (Htop : top = firstn (Z.to_nat n) sorted) by reflexivity.
  assert (Hbase : forall k m, In (k, m) base ->
                              In k keys /\ m = count_key k l).
  { intros k m H. unfold base in H. apply in_map_iff in H.
    destruct H as (k' & E & Hk'). inversion E; subst. auto. }
  assert (Hin : forall e, In e top -> In e base).
  { intros e He. rewrite Htop in He. apply In_firstn in He.
    now apply (Permutation_in _ P). }
  assert (Hkeys : forall k, In k keys -> In k l /\ notna k = true).
  { intros k Hk. unfold keys in Hk. apply unique_In in Hk.
    now apply filter_In in Hk. }
  split; [|split; [|split; [|split]]].
  - rewrite Htop, length_firstn. unfold sorted.
    rewrite !length_sort_desc. unfold base. rewrite length_map.
    assert (Hk : length keys = nunique l) by reflexivity. lia.
  - rewrite Htop. apply NoDup_firstn.
    apply (Permutation_NoDup (Permutation_sym P)).
    unfold base. apply Finite.Injective_map_NoDup; [|apply NoDup_unique].
    intros a b E. now inversion E.
  - intros k m H. destruct (Hbase k m (Hin _ H)) as [Hk ->].
    destruct (Hkeys k Hk). auto.
  - intros k1 m1 k2 m2 H1 H2 E.
    destruct (Hbase k1 m1 (Hin _ H1)) as [Hk1 _].
    destruct (Hbase k2 m2 (Hin _ H2)) as [Hk2 _].
    destruct (ForallOrdPairs_In (unique_distinct (filter notna l)) k1 k2 Hk1 Hk2)
      as [H|[H|H]]; auto; try congruence.
    rewrite key_eqb_sym in H. congruence.
  - intros v Hv Nv Hout k m Hk.
    assert (Hf : In v (filter notna l)) by (apply filter_In; auto).
    destruct (unique_covers _ _ Hf) as (k' & Hk' & E).
    fold keys in Hk'.
    assert (Hb : In (k', count_key k' l) sorted).
    { apply (Permutation_in _ (Permutation_sym P)). unfold base.
      apply in_map_iff. eauto. }
    rewrite <- (firstn_skipn (Z.to_nat n) sorted) in Hb.
    apply in_app_or in Hb. destruct Hb as [Hb|Hb].
    + rewrite <- Htop in Hb. specialize (Hout _ _ Hb). congruence.
    + rewrite <- (count_key_same k' v l E).
      pose proof (sort_desc_sorted (sort_desc base)) as S.
      fold sorted in S. rewrite <- (firstn_skipn (Z.to_nat n) sorted) in S.
      rewrite Htop in Hk.
      exact (ForallOrdPairs_app _ _ _ _ _ S Hk Hb).
Qed.

(** ** The counts add up to the number of cells that are not missing *)

Lemma counts_sum_cons k m rest :
  counts_sum ((k, m) :: rest) = (m + counts_sum rest)%Z.
Proof. reflexivity. Qed.

Lemma count_key_cons_same k x l :
  key_eqb k x = true -> count_key k (x :: l) = (1 + count_key k l)%Z.
Proof.
  intros E. unfold count_key. cbn [filter]. rewrite E. cbn [length].
  rewrite Nat2Z.inj_succ. lia.
Qed.

Lemma count_key_cons_other k x l :
  key_eqb k x = false -> count_key k (x :: l) = count_key k l.
Proof. intros E. unfold count_key. cbn [filter]. now rewrite E. Qed.

Lemma count_key_zero x l :
  (forall y, In y l -> key_eqb x y = false) -> count_key x l = 0%Z.
Proof.
  intros H. unfold count_key.
  induction l as [|y l IH]; simpl; auto.
  rewrite (H y) by (simpl; auto). apply IH. intros; apply H; simpl; auto.
Qed.

Lemma counts_split (f : value -> Z) x u :
  ForallOrdPairs (fun a b => key_eqb a b = false) u ->
  (forall k, key_eqb x k = true -> f k = f x) ->
  (exists k, In k u /\ key_eqb x k = true) ->
  counts_sum (map (fun k => (k, f k)) u)
  = (f x + counts_sum
             (map (fun k => (k, f k)) (filter (fun y => negb (key_eqb x y)) u)))%Z.
Proof.
  intros D Hf. induction D as [|y u Hy _ IH]; intros (k & Hk & E).
  - contradiction.
  - simpl map. rewrite counts_sum_cons. simpl filter.
    destruct (key_eqb x y) eqn:X; simpl negb; cbv iota.
    + rewrite (Hf y X). f_equal. do 2 f_equal. symmetry. apply filter_all.
      revert Hy. apply Forall_impl. intros z Hz.
      now rewrite (key_eqb_same x y z X), Hz.
    + destruct Hk as [->|Hk]; [congruence|].
      simpl map. rewrite counts_sum_cons, IH by eauto. lia.
Qed.

Lemma sum_counts l :
  counts_sum (map (fun k => (k, count_key k l)) (unique l))
  = Z.of_nat (length l).
Proof.
  induction l as [|x l IH].
  - reflexivity.
  - cbn [unique map]. rewrite counts_sum_cons.
    rewrite (count_key_cons_same x x l (key_eqb_refl x)).
    assert (E : map (fun k => (k, count_key k (x :: l)))
                  (filter (fun y => negb (key_eqb x y)) (unique l))
                = map (fun k => (k, count_key k l))
                    (filter (fun y => negb (key_eqb x y)) (unique l))).
    { apply map_ext_in. intros k Hk. apply filter_In in Hk.
      destruct Hk as [_ Hk]. f_equal. apply count_key_cons_other.
      rewrite key_eqb_sym. now destruct (key_eqb x k). }
    rewrite E. clear E. cbn [length]. rewrite Nat2Z.inj_succ, <- IH.
    destruct (existsb (key_eqb x) (unique l)) eqn:Ex.
    + apply existsb_exists in Ex.
      rewrite (counts_split (fun k => count_key k l) x (unique l)
                 (unique_distinct l)); [lia| |exact Ex].
      intros k Hk. symmetry. now apply count_key_same.
    + assert (N : forall k, In k (unique l) -> key_eqb x k = false).
      { intros k Hk. destruct (key_eqb x k) eqn:X; auto.
        assert (existsb (key_eqb x) (unique l) = true)
          by (apply existsb_exists; eauto).
        congruence. }
      rewrite filter_all.
      2:{ apply Forall_forall. intros k Hk. now rewrite (N k Hk). }
      rewrite count_key_zero; [lia|].
      intros y Hy. destruct (unique_covers l y Hy) as (k & Hk & E).
      destruct (key_eqb x y) eqn:X; auto.
      rewrite <- (N k Hk). rewrite (key_eqb_same x y k X).
      now rewrite key_eqb_sym.
Qed.

Lemma count_key_notna k l :
  notna k = true -> count_key k (filter notna l) = count_key k l.
Proof.
  intros N. unfold count_key. do 2 f_equal.
  induction l as [|x l IH]; simpl; auto.
  destruct (notna x) eqn:Nx; simpl; rewrite IH; auto.
  destruct (key_eqb k x) eqn:E; auto.
  rewrite (notna_key k x E) in N. congruence.
Qed.

(** [value_counts().sum()] is the number of cells that are not missing. *)
Lemma value_counts_total l :
  counts_sum (value_counts l) = Z.of_nat (length (filter notna l)).
Proof.
  unfold value_counts. rewrite (counts_sum_perm _ _ (sort_desc_perm _)).
  rewrite <- sum_counts. f_equal. apply map_ext_in. intros k Hk.
  f_equal. symmetry. apply count_key_notna.
  apply unique_In in Hk. now apply filter_In in Hk.
Qed.

(** The slices of the pie chart: some slice is larger than zero exactly
    when the column holds a cell that is not missing. *)
Lemma value_counts_In e l :
  In e (value_counts l) -> In (fst e) l /\ snd e = count_key (fst e) l.
Proof.
  unfold value_counts. intros H.
  apply (Permutation_in _ (sort_desc_perm _)) in H.
  apply in_map_iff in H. destruct H as (k & <- & Hk). simpl. split; auto.
  apply unique_In in Hk. now apply filter_In in Hk.
Qed.

Lemma value_counts_none l : filter notna l = [] -> value_counts l = [].
Proof. unfold value_counts. now intros ->. Qed.

Lemma value_counts_some l : filter notna l <> [] -> value_counts l <> [].
Proof.
  unfold value_counts. intros H E. apply (f_equal (@length _)) in E.
  rewrite length_sort_desc, length_map in E.
  destruct (filter notna l); [contradiction|discriminate].
Qed.

Lemma pie_slices_all_zero top_n l :
  filter notna l = [] ->
  let counts := nlargest top_n (value_counts l) in
  forallb (fun slice => Z.eqb (snd slice) 0)
    (if Z.ltb top_n (Z.of_nat (length (unique l))) then
       counts ++ [(VStr "Outros",
                   (counts_sum (value_counts l) - counts_sum counts)%Z)]
     else counts) = true.
Proof.
  intros E. rewrite (value_counts_none _ E). unfold nlargest. simpl.
  rewrite firstn_nil. now destruct (Z.ltb _ _).
Qed.

Lemma pie_slices_not_all_zero top_n l :
  filter notna l <> [] ->
  let counts := nlargest top_n (value_counts l) in
  forallb (fun slice => Z.eqb (snd slice) 0)
    (if Z.ltb top_n (Z.of_nat (length (unique l))) then
       counts ++ [(VStr "Outros",
                   (counts_sum (value_counts l) - counts_sum counts)%Z)]
     else counts) = false.
Proof.
  intros E counts.
  destruct counts as [|e rest] eqn:C.
  - assert (Z0 : Z.to_nat top_n = 0%nat).
    { unfold counts, nlargest in C.
      destruct (Z.to_nat top_n); auto. exfalso.
      destruct (sort_desc (value_counts l)) eqn:S; [|discriminate].
      apply (f_equal (@length _)) in S. rewrite length_sort_desc in S.
      apply (value_counts_some _ E). now apply length_zero_iff_nil. }
    assert (U : (0 < length (unique l))%nat).
    { destruct l; [now contradiction E|]. simpl. lia. }
    assert (T : Z.ltb top_n (Z.of_nat (length (unique l))) = true)
      by (apply Z.ltb_lt; lia).
    rewrite T. simpl. rewrite value_counts_total.
    destruct (filter notna l); [contradiction|]. simpl length.
    rewrite andb_true_r. apply Z.eqb_neq. change (counts_sum []) with 0%Z. lia.
  - assert (P : (0 < snd e)%Z).
    { assert (I : In e (value_counts l)).
      { apply (Permutation_in _ (sort_desc_perm (value_counts l))).
        apply (In_firstn (Z.to_nat top_n)). fold (nlargest top_n (value_counts l)).
        fold counts. rewrite C. now left. }
      destruct (value_counts_In _ _ I) as [H ->]. now apply count_key_positive. }
    assert (Z : Z.eqb (snd e) 0 = false) by (apply Z.eqb_neq; lia).
    destruct (Z.ltb _ _); simpl; now rewrite Z.
Qed.

Lemma create_pie_chart_returns df column c top_n title :
  get_column df column = Some c -> filter notna (values c) <> [] ->
  create_pie_chart (Some df) column top_n title =
  Returns (PieFigure
             (let counts := nlargest top_n (value_counts (values c)) in
              if Z.ltb top_n (Z.of_nat (length (unique (values c)))) then
                counts ++ [(VStr "Outros",
                            (counts_sum (value_counts (values c))
                             - counts_sum counts)%Z)]
              else counts)
             (title_or title ("Distribuição de " ++ column)%string)).
Proof.
  intros G E. unfold create_pie_chart. rewrite G. cbv zeta.
  now rewrite (pie_slices_not_all_zero top_n (values c) E).
Qed.

Lemma create_pie_chart_raises df column c top_n title :
  get_column df column = Some c -> filter notna (values c) = [] ->
  create_pie_chart (Some df) column top_n title = Raises ValueError.
Proof.
  intros G E. unfold create_pie_chart. rewrite G. cbv zeta.
  now rewrite (pie_slices_all_zero top_n (values c) E).
Qed.

Lemma nunique_positive l : (0 < nunique l)%nat -> filter notna l <> [].
Proof. unfold nunique. intros H E. rewrite E in H. simpl in H. lia. Qed.

(** C6. For a column of the frame with more than [top_n] distinct values
    (missing cells apart) and [top_n >= 0], the bar chart has exactly
    [top_n] bars and the pie chart those [top_n] slices followed by the
    slice "Outros", [top_n + 1] in all.  The [top_n] entries are distinct
    categories of the column, each with the number of its records, and no
    category left out has more records than one kept.  "Outros" counts
    the total of all categories minus the sum of the kept ones; that total
    is the number of cells that are not missing. *)
Theorem top_n_capping df column c top_n title :
  get_column df column = Some c ->
  (0 <= top_n)%Z -> (top_n < Z.of_nat (nunique (values c)))%Z ->
  exists top,
    create_bar_chart (Some df) column top_n title
    = BarFigure top
        (title_or title
           ("Top " ++ str_int top_n ++ " valores de " ++ column)%string) /\
    create_pie_chart (Some df) column top_n title
    = Returns
        (PieFigure
           (top ++ [(VStr "Outros",
                     (Z.of_nat (length (filter notna (values c)))
                      - counts_sum top)%Z)])
           (title_or title ("Distribuição de " ++ column)%string)) /\
    length top = Z.to_nat top_n /\
    length (top ++ [(VStr "Outros",
                     (Z.of_nat (length (filter notna (values c)))
                      - counts_sum top)%Z)])
    = S (Z.to_nat top_n) /\
    NoDup top /\
    (forall k m, In (k, m) top ->
                 In k (values c) /\ notna k = true /\
                 m = count_key k (values c)) /\
    (forall k1 m1 k2 m2, In (k1, m1) top -> In (k2, m2) top ->
                         key_eqb k1 k2 = true -> k1 = k2) /\
    (forall v, In v (values c) -> notna v = true ->
               (forall k m, In (k, m) top -> key_eqb k v = false) ->
               forall k m, In (k, m) top -> (count_key v (values c) <= m)%Z).
Proof.
  intros G Hn Hlt.
  destruct (nlargest_value_counts top_n (values c) Hn Hlt)
    as (H1 & H2 & H3 & H4 & H5).
  exists (nlargest top_n (value_counts (values c))).
  split; [unfold create_bar_chart; now rewrite G|].
  split.
  - rewrite (create_pie_chart_returns _ _ _ _ _ G)
      by (apply nunique_positive; lia).
    assert (E : Z.ltb top_n (Z.of_nat (length (unique (values c)))) = true).
    { apply Z.ltb_lt. pose proof (nunique_le (values c)). lia. }
    cbv zeta. now rewrite E, value_counts_total.
  - split; [exact H1|]. split; [rewrite length_app, H1; simpl; lia|].
    split; [exact H2|]. split; [exact H3|]. split; [exact H4 | exact H5].
Qed.

Lemma top_n_capping_witness :
  create_bar_chart (Some champions) "champion" 2 None
  = BarFigure [(VStr "Ahri", 3%Z); (VStr "Zed", 2%Z)]
      "Top 2 valores de champion" /\
  create_pie_chart (Some champions) "champion" 2 None
  = Returns
      (PieFigure [(VStr "Ahri", 3%Z); (VStr "Zed", 2%Z); (VStr "Outros", 1%Z)]
         "Distribuição de champion").
Proof.
  destruct (top_n_capping champions "champion"
              (mkSeries "champion" object
                 [VStr "Ahri"; VStr "Zed"; VStr "Ahri"; VStr "Lux"; VStr "Ahri";
                  VStr "Zed"]) 2 None eq_refl)
    as (top & Hbar & Hpie & _); [lia | reflexivity |].
  split.
  - rewrite Hbar. vm_compute in Hbar. now inversion Hbar.
  - rewrite Hpie. vm_compute in Hbar. now inversion Hbar.
Defined.

(* ================================================================== *)
(** * Chart builders: validation of the column type *)







(* ================================================================== *)
(** * Filtering the records *)

Lemma keep_nil_r {A} m : @keep A m [] = [].
Proof. now destruct m. Qed.

Lemma keep_keep {A B} (p : A -> bool) m (l : list A) (l' : list B) :
  keep (map p (keep m l)) (keep m l') = keep (zip_and m (map p l)) l'.
Proof.
  unfold zip_and. revert l l'.
  induction m as [|b m IH]; intros l l'; [reflexivity|].
  destruct l as [|x l]; [simpl; now rewrite ?keep_nil_r|].
  destruct l' as [|y l']; [simpl; now rewrite !keep_nil_r|].
  simpl. destruct b; simpl.
  - destruct (p x); now rewrite IH.
  - apply IH.
Qed.

Lemma keep_all_true {A} (l : list A) a n :
  (length l <= n)%nat -> keep (map (fun _ => true) (seq a n)) l = l.
Proof.
  revert a n. induction l as [|x l IH]; intros a n H.
  - apply keep_nil_r.
  - destruct n as [|n]; simpl in *; [lia|]. f_equal. apply IH. lia.
Qed.

Lemma filter_rows_all_true df :
  rectangular df = true ->
  filter_rows (map (fun _ => true) (seq 0 (nrows df))) df = df.
Proof.
  intros R. unfold filter_rows. rewrite <- (map_id df) at 2.
  apply map_ext_in. intros c Hc. rewrite keep_all_true.
  - now destruct c.
  - rewrite rectangular_forall in R. now rewrite (R c Hc).
Qed.

Lemma zip_and_map_seq (f g : nat -> bool) a n :
  zip_and (map f (seq a n)) (map g (seq a n))
  = map (fun i => f i && g i) (seq a n).
Proof.
  unfold zip_and. rewrite combine_map_map, map_map. reflexivity.
Qed.

Lemma map_as_seq {A} (p : A -> bool) (l : list A) :
  map p l = map (fun i => match nth_error l i with
                          | Some v => p v
                          | None => false
                          end) (seq 0 (length l)).
Proof.
  symmetry.
  destruct l as [|d l0] eqn:E; [reflexivity|]. rewrite <- E.
  apply (map_seq_nth_ext l d). intros i Hi.
  now rewrite (nth_error_nth' l d Hi).
Qed.

Lemma filter_rows_filter_rows m m' df :
  filter_rows m' (filter_rows m df)
  = map (fun c => mkSeries (name c) (dtype_of c) (keep m' (keep m (values c)))) df.
Proof. unfold filter_rows. rewrite map_map. reflexivity. Qed.

Section Filtering.

Variable parse_datetime : string -> option Z.
Variable read_csv : string -> outcome DataFrame.

Lemma filter_step_masked df (f : nat -> bool) item :
  rectangular df = true ->
  filter_step parse_datetime (filter_rows (map f (seq 0 (nrows df))) df) item
  = filter_rows
      (map (fun i => f i && row_meets parse_datetime df [item] i)
           (seq 0 (nrows df))) df.
Proof.
  intros R. unfold filter_step, row_meets. cbn [forallb].
  unfold filter_rows at 1.
  rewrite (get_column_map
             (fun c => mkSeries (name c) (dtype_of c)
                         (keep (map f (seq 0 (nrows df))) (values c))))
    by reflexivity.
  destruct (get_column df (fst item)) as [s|] eqn:G; cbn [option_map].
  - cbn [values dtype_of]. fold (filter_rows (map f (seq 0 (nrows df))) df).
    rewrite filter_rows_filter_rows. unfold filter_rows.
    apply map_ext. intros c. f_equal.
    rewrite keep_keep. f_equal.
    rewrite (map_as_seq _ (values s)), (rectangular_get _ _ _ R G).
    rewrite zip_and_map_seq. apply map_ext. intros i.
    now rewrite andb_true_r.
  - fold (filter_rows (map f (seq 0 (nrows df))) df). f_equal.
    apply map_ext. intros i. now rewrite andb_true_r.
Qed.

Lemma row_meets_cons df item rest i :
  row_meets parse_datetime df (item :: rest) i
  = row_meets parse_datetime df [item] i && row_meets parse_datetime df rest i.
Proof. unfold row_meets. simpl. now rewrite andb_true_r. Qed.

Lemma filter_frame_masked filters df (f : nat -> bool) :
  rectangular df = true ->
  fold_left (filter_step parse_datetime) filters
    (filter_rows (map f (seq 0 (nrows df))) df)
  = filter_rows
      (map (fun i => f i && row_meets parse_datetime df filters i)
           (seq 0 (nrows df))) df.
Proof.
  intros R. revert f. induction filters as [|item rest IH]; intros f.
  - simpl. f_equal. apply map_ext. intros i. now rewrite andb_true_r.
  - cbn [fold_left]. rewrite filter_step_masked by assumption.
    rewrite IH. f_equal. apply map_ext. intros i.
    now rewrite (row_meets_cons df item rest), andb_assoc.
Qed.

Lemma filter_frame_mask filters df :
  rectangular df = true ->
  fold_left (filter_step parse_datetime) filters df
  = filter_rows (map (row_meets parse_datetime df filters) (seq 0 (nrows df))) df.
Proof.
  intros R. rewrite <- (filter_rows_all_true df R) at 1.
  now rewrite filter_frame_masked.
Qed.

End Filtering.

Lemma row_meets_perm parse df fs fs' i :
  Permutation fs fs' -> row_meets parse df fs i = row_meets parse df fs' i.
Proof.
  unfold row_meets. induction 1; simpl; auto.
  - now rewrite IHPermutation.
  - now rewrite !andb_assoc, (andb_comm (_ y)).
  - congruence.
Qed.

Lemma row_meets_app parse df fs fs' i :
  row_meets parse df (fs ++ fs') i
  = row_meets parse df fs i && row_meets parse df fs' i.
Proof. unfold row_meets. apply forallb_app. Qed.

Lemma filter_rows_columns m df n :
  get_column (filter_rows m df) n
  = option_map (fun c => mkSeries (name c) (dtype_of c) (keep m (values c)))
      (get_column df n).
Proof. unfold filter_rows. now apply get_column_map. Qed.

(** X1. On a loader holding a rectangular frame, [filter_data] returns
    the records that meet every item of the dictionary whose column the
    frame has (AND across the items), in their order, and leaves the
    loader as it was. *)
Theorem filter_data_conjunction
  (parse_datetime : string -> option Z) (read_csv : string -> outcome DataFrame)
  (L : DataLoader) (df : DataFrame) (filters : list (string * criterion)) :
  data L = Some df -> rectangular df = true ->
  filter_data parse_datetime read_csv L filters
  = (L, Returns (filter_rows
                   (map (row_meets parse_datetime df filters) (seq 0 (nrows df)))
                   df)).
Proof.
  intros D R. unfold filter_data, ensure_data. rewrite D.
  now rewrite filter_frame_mask.
Qed.

Lemma filter_data_conjunction_witness :
  filter_data two_dates no_file games_loader
    [("league", Equals (VStr "LCK")); ("result", OneOf [VNum 1]);
     ("patch", Equals (VStr "12.1"))]
  = (games_loader,
     Returns [ mkSeries "gameid" object [VStr "g1"];
               mkSeries "league" object [VStr "LCK"];
               mkSeries "result" int64 [VNum 1] ]).
Proof.
  rewrite (filter_data_conjunction two_dates no_file games_loader games);
    reflexivity.
Defined.

(** X2. On a rectangular frame the result of [filter_data] does not
    depend on the order of the items of the dictionary, and filtering the
    result once more by the same dictionary returns it unchanged. *)
Theorem filter_data_order_and_repeat
  (parse_datetime : string -> option Z) (read_csv : string -> outcome DataFrame)
  (L : DataLoader) (df : DataFrame) (filters filters' : list (string * criterion)) :
  data L = Some df -> rectangular df = true ->
  (Permutation filters filters' ->
   filter_data parse_datetime read_csv L filters
   = filter_data parse_datetime read_csv L filters')
  /\
  (forall r, snd (filter_data parse_datetime read_csv L filters) = Returns r ->
             snd (filter_data parse_datetime read_csv (set_data L r) filters)
             = Returns r).
Proof.
  intros D R. split.
  - intros P. unfold filter_data, ensure_data. rewrite D.
    rewrite !filter_frame_mask by assumption.
    do 3 f_equal. apply map_ext. intros i. now apply row_meets_perm.
  - intros r H. unfold filter_data, ensure_data in *. rewrite D in H.
    simpl in H. inversion H as [E]. simpl. f_equal.
    rewrite <- fold_left_app. rewrite !filter_frame_mask by assumption.
    f_equal. apply map_ext. intros i.
    rewrite row_meets_app. apply andb_diag.
Qed.

Lemma filter_data_order_and_repeat_witness :
  filter_data two_dates no_file games_loader
    [("league", Equals (VStr "LCK")); ("result", OneOf [VNum 1])]
  = filter_data two_dates no_file games_loader
      [("result", OneOf [VNum 1]); ("league", Equals (VStr "LCK"))].
Proof.
  apply (filter_data_order_and_repeat two_dates no_file games_loader games);
    try reflexivity.
  apply perm_swap.
Defined.

(** X3. An item of the dictionary whose column the frame does not have
    changes nothing: [filter_data] returns what it returns without these
    items, on any frame; with no item left it returns the frame itself. *)
Theorem filter_data_unknown_columns
  (parse_datetime : string -> option Z) (read_csv : string -> outcome DataFrame)
  (L : DataLoader) (df : DataFrame) (filters : list (string * criterion)) :
  data L = Some df ->
  filter_data parse_datetime read_csv L filters
  = filter_data parse_datetime read_csv L
      (filter (fun item => has_column df (fst item)) filters)
  /\
  (forallb (fun item => negb (has_column df (fst item))) filters = true ->
   filter_data parse_datetime read_csv L filters = (L, Returns df)).
Proof.
  intros D. unfold filter_data, ensure_data. rewrite D.
  assert (K : forall fs d,
             (forall n, has_column d n = has_column df n) ->
             fold_left (filter_step parse_datetime) fs d
             = fold_left (filter_step parse_datetime)
                 (filter (fun item => has_column df (fst item)) fs) d).
  { induction fs as [|item fs IH]; intros d Hd; [reflexivity|].
    assert (Hs : forall n, has_column (filter_step parse_datetime d item) n
                           = has_column df n).
    { intros n. rewrite <- Hd. unfold filter_step.
      destruct (get_column d (fst item)); auto.
      rewrite !has_column_get, filter_rows_columns.
      now destruct (get_column d n). }
    cbn [fold_left filter]. rewrite <- (Hd (fst item)).
    destruct (has_column d (fst item)) eqn:E.
    - cbn [fold_left]. now apply IH.
    - rewrite <- IH by assumption. f_equal.
      unfold filter_step. rewrite has_column_get in E.
      now destruct (get_column d (fst item)). }
  split.
  - now rewrite (K filters df).
  - intros H. rewrite (K filters df) by auto.
    assert (E : filter (fun item => has_column df (fst item)) filters = []).
    { induction filters as [|item fs IH]; auto. simpl in *.
      apply andb_prop in H. destruct H as [H1 H2].
      destruct (has_column df (fst item)); [discriminate|]. auto. }
    now rewrite E.
Qed.

Lemma filter_data_unknown_columns_witness :
  filter_data two_dates no_file games_loader
    [("patch", Equals (VStr "12.1")); ("side", OneOf [])]
  = (games_loader, Returns games).
Proof.
  apply (filter_data_unknown_columns two_dates no_file games_loader games);
    reflexivity.
Defined.

(* ================================================================== *)
(** * Distinct values used as filters *)

Lemma keep_mask_true {A} (m : list bool) (l : list A) :
  Forall (fun b => b = true) m -> (length l <= length m)%nat -> keep m l = l.
Proof.
  revert l. induction m as [|b m IH]; intros l F H.
  - destruct l; [reflexivity | simpl in H; lia].
  - destruct l as [|x l]; [reflexivity|].
    inversion F; subst. simpl in *. f_equal. apply IH; auto. lia.
Qed.

Lemma length_keep {A} (m : list bool) (l : list A) :
  length l = length m -> length (keep m l) = count_true m.
Proof.
  unfold count_true. revert l.
  induction m as [|b m IH]; intros l H; [now destruct l|].
  destruct l as [|x l]; [discriminate|]. simpl in *.
  destruct b; simpl; auto.
Qed.

Lemma nrows_filter_rows m df :
  rectangular df = true -> length m = nrows df -> df <> [] ->
  nrows (filter_rows m df) = count_true m.
Proof.
  intros R H N. destruct df as [|c df]; [congruence|].
  simpl. apply length_keep. now rewrite H.
Qed.

Lemma count_true_positive {A} (p : A -> bool) l x :
  In x l -> p x = true -> (0 < count_true (map p l))%nat.
Proof.
  unfold count_true. induction l as [|y l IH]; simpl; [contradiction|].
  intros [->|H] P.
  - rewrite P. simpl. lia.
  - destruct (p y); simpl; auto. specialize (IH H P). lia.
Qed.

Lemma scalar_eq_cover parse d g v :
  key_eqb g v = true ->
  (forall s, g <> VStr s) \/ (forall t, v <> VTime t) ->
  scalar_eq parse d g v = true.
Proof.
  intros K H. unfold scalar_eq. rewrite key_eqb_sym in K.
  destruct d; auto. destruct g; auto. destruct v; auto.
  destruct H as [H|H]; [now elim (H s) | now elim (H t)].
Qed.

Lemma meets_one_of_unique parse d l v :
  In v l -> meets parse d (OneOf (unique l)) v = true.
Proof.
  intros H. destruct (unique_covers l v H) as (k & Hk & E).
  unfold meets. apply existsb_exists. exists k. split; auto.
  apply scalar_eq_cover; auto.
  destruct k; try (left; intros; discriminate).
  right. intros t ->. discriminate.
Qed.

Lemma meets_itself parse d u :
  notna u = true -> meets parse d (Equals u) u = true.
Proof.
  intros N. unfold meets. rewrite N. simpl.
  apply scalar_eq_cover; auto using key_eqb_refl.
  destruct u; try (left; intros; discriminate).
  right. intros t. discriminate.
Qed.

(** X4. The answer of [get_unique_values] works as a filter on the same
    column: the whole list keeps every record, and each value of it that
    is not missing selects at least one record. *)
Theorem unique_values_as_filters
  (parse_datetime : string -> option Z) (read_csv : string -> outcome DataFrame)
  (L : DataLoader) (df : DataFrame) (column : string) (us : list value) :
  data L = Some df -> rectangular df = true -> has_column df column = true ->
  snd (get_unique_values parse_datetime read_csv L column) = Returns us ->
  filter_data parse_datetime read_csv L [(column, OneOf us)] = (L, Returns df)
  /\
  forall u, In u us -> notna u = true ->
    exists r, filter_data parse_datetime read_csv L [(column, Equals u)]
              = (L, Returns r)
              /\ empty r = false.
Proof.
  intros D R H U. rewrite has_column_get in H.
  unfold get_unique_values, filter_data, ensure_data in *. rewrite D in *.
  destruct (get_column df column) as [c|] eqn:G; [|discriminate].
  cbn [snd] in U. inversion U; subst us. clear U.
  cbn [fold_left]. unfold filter_step. cbn [fst snd]. rewrite G.
  pose proof (rectangular_get _ _ _ R G) as Len.
  assert (N : df <> []) by (intros ->; discriminate).
  split.
  - do 2 f_equal. unfold filter_rows. rewrite <- (map_id df) at 2.
    apply map_ext_in. intros c0 H0. rewrite keep_mask_true.
    + now destruct c0.
    + apply Forall_forall. intros b Hb. apply in_map_iff in Hb.
      destruct Hb as (v & <- & Hv). now apply meets_one_of_unique.
    + rewrite length_map, Len. rewrite rectangular_forall in R.
      now rewrite (R c0 H0).
  - intros u Hu Nu. eexists. split; [reflexivity|].
    unfold empty. apply orb_false_iff. split.
    + apply Nat.eqb_neq. unfold filter_rows. rewrite length_map.
      destruct df; [congruence | discriminate].
    + apply Nat.eqb_neq. rewrite nrows_filter_rows; auto.
      * apply unique_In in Hu.
        pose proof (count_true_positive
                      (meets parse_datetime (dtype_of c) (Equals u))
                      (values c) u Hu (meets_itself _ _ _ Nu)).
        lia.
      * now rewrite length_map.
Qed.

Lemma unique_values_as_filters_witness :
  filter_data two_dates no_file games_loader
    [("league", OneOf [VStr "LCK"; VStr "LEC"; VNaN])]
  = (games_loader, Returns games).
Proof.
  apply (unique_values_as_filters two_dates no_file games_loader games "league");
    reflexivity.
Defined.

(* ================================================================== *)
(** * When the file is read *)

Section Reading.

Variable parse_datetime : string -> option Z.

Lemma ensure_data_settled read_csv (L L1 : DataLoader) df :
  ensure_data parse_datetime read_csv L = (L1, Returns df) ->
  data L1 = Some df.
Proof.
  unfold ensure_data. destruct (data L) as [d|] eqn:D; intros H.
  - inversion H; subst. exact D.
  - eapply preprocess_data_returns; eauto.
Qed.

Lemma ensure_data_held read_csv (L : DataLoader) df :
  data L = Some df -> ensure_data parse_datetime read_csv L = (L, Returns df).
Proof. unfold ensure_data. now intros ->. Qed.

End Reading.

(** X5. A query that returned leaves the preprocessed frame in the
    loader, and the file is not read again: the same query on the loader
    it left gives the same answer whatever the file holds by then. *)
Theorem queries_read_the_file_once
  (parse_datetime : string -> option Z)
  (read_csv read_csv' : string -> outcome DataFrame)
  (L L1 : DataLoader) :
  (forall filters r,
     filter_data parse_datetime read_csv L filters = (L1, Returns r) ->
     filter_data parse_datetime read_csv' L1 filters = (L1, Returns r))
  /\
  (forall column us,
     get_unique_values parse_datetime read_csv L column = (L1, Returns us) ->
     get_unique_values parse_datetime read_csv' L1 column = (L1, Returns us))
  /\
  (forall column func rs,
     apply_function_to_column parse_datetime read_csv L column func
     = (L1, Returns rs) ->
     apply_function_to_column parse_datetime read_csv' L1 column func
     = (L1, Returns rs)).
Proof.
  repeat split.
  - intros filters r. unfold filter_data.
    destruct (ensure_data parse_datetime read_csv L) as [L0 [df|e]] eqn:E;
      intros H; inversion H; subst.
    now rewrite (ensure_data_held _ _ _ _ (ensure_data_settled _ _ _ _ _ E)).
  - intros column us. unfold get_unique_values.
    destruct (ensure_data parse_datetime read_csv L) as [L0 [df|e]] eqn:E;
      [|discriminate].
    intros H.
    assert (L0 = L1) by (destruct (get_column df column); now inversion H).
    subst L0.
    now rewrite (ensure_data_held _ _ _ _ (ensure_data_settled _ _ _ _ _ E)).
  - intros column func rs. unfold apply_function_to_column.
    destruct (ensure_data parse_datetime read_csv L) as [L0 [df|e]] eqn:E;
      [|discriminate].
    intros H.
    assert (L0 = L1) by (destruct (get_column df column); now inversion H).
    subst L0.
    now rewrite (ensure_data_held _ _ _ _ (ensure_data_settled _ _ _ _ _ E)).
Qed.

Lemma queries_read_the_file_once_witness :
  filter_data two_dates no_file
    (fst (filter_data two_dates read_raw_matches (new_loader "matches.csv")
            [("gameid", Equals (VStr "g1"))]))
    [("gameid", Equals (VStr "g1"))]
  = filter_data two_dates read_raw_matches (new_loader "matches.csv")
      [("gameid", Equals (VStr "g1"))].
Proof.
  apply (proj1 (queries_read_the_file_once two_dates read_raw_matches no_file
                  (new_loader "matches.csv")
                  (fst (filter_data two_dates read_raw_matches
                          (new_loader "matches.csv")
                          [("gameid", Equals (VStr "g1"))])))).
  reflexivity.
Defined.

(** X6. When the file was read and [preprocess_data] raised, in a stage
    or in the split, the loader keeps the frame as far as it was
    processed: the query that triggered it raises, and the same query
    asked again does not raise but filters that frame. *)
Theorem query_after_failed_preprocessing
  (parse_datetime : string -> option Z) (read_csv : string -> outcome DataFrame)
  (L L1 : DataLoader) (df0 : DataFrame) (e : exn)
  (filters : list (string * criterion)) :
  data L = None -> read_csv (file_path L) = Returns df0 ->
  filter_data parse_datetime read_csv L filters = (L1, Raises e) ->
  filter_data parse_datetime read_csv L1 filters
  = (L1, Returns (fold_left (filter_step parse_datetime) filters
                    (fst (reduce_pipeline (cleaning_pipeline parse_datetime) df0)))).
Proof.
  intros D Rd H.
  assert (Raw : raw_frame read_csv L df0) by (unfold raw_frame; now rewrite D).
  destruct (preprocess_data_frame parse_datetime read_csv L df0 Raw) as [F _].
  unfold filter_data, ensure_data in H. rewrite D in H.
  destruct (preprocess_data parse_datetime read_csv L) as [L0 [r|e0]] eqn:P;
    inversion H; subst. cbn [fst] in F.
  unfold filter_data. now rewrite (ensure_data_held _ _ _ _ F).
Qed.

Lemma query_after_failed_preprocessing_witness :
  filter_data two_dates read_games (set_data (new_loader "matches.csv") games_filled)
    [("league", Equals (VStr "unknown"))]
  = (set_data (new_loader "matches.csv") games_filled,
     Returns [ mkSeries "gameid" object [VStr "g3"];
               mkSeries "league" object [VStr "unknown"];
               mkSeries "result" int64 [VNum 0] ]).
Proof.
  exact (query_after_failed_preprocessing two_dates read_games
           (new_loader "matches.csv")
           (set_data (new_loader "matches.csv") games_filled)
           games (KeyError "playername")
           [("league", Equals (VStr "unknown"))]
           eq_refl eq_refl eq_refl).
Defined.

(* ================================================================== *)
(** * What [preprocess_data] needs, keeps and repeats *)

Lemma columns_set_column n d vs df :
  columns (set_column n d vs df)
  = if has_column df n then columns df else columns df ++ [n].
Proof.
  unfold has_column, columns.
  induction df as [|c df IH]; simpl; auto.
  destruct (String.eqb n (name c)) eqn:E; simpl.
  - apply String.eqb_eq in E. now subst.
  - rewrite IH. now destruct (existsb (String.eqb n) (map name df)).
Qed.

Lemma loaded_frame read_csv (L : DataLoader) df :
  raw_frame read_csv L df ->
  match data L with
  | Some d => (L, Returns d)
  | None => load_data read_csv L
  end = (set_data L df, Returns df) \/
  match data L with
  | Some d => (L, Returns d)
  | None => load_data read_csv L
  end = (L, Returns df) /\ data L = Some df.
Proof.
  unfold raw_frame, load_data. destruct (data L) as [d|] eqn:D.
  - intros ->. now right.
  - intros ->. now left.
Qed.

Lemma set_data_held (L : DataLoader) df : data L = Some df -> set_data L df = L.
Proof. destruct L. simpl. now intros ->. Qed.

Lemma set_data_set_data (L : DataLoader) df df' :
  set_data (set_data L df) df' = set_data L df'.
Proof. reflexivity. Qed.

Section Shape.

Variable parse_datetime : string -> option Z.
Variable read_csv : string -> outcome DataFrame.

Lemma has_column_after_pipeline df n :
  ~ In n assigned_columns ->
  has_column (fst (reduce_pipeline (cleaning_pipeline parse_datetime) df)) n
  = has_column df n.
Proof.
  intros H. rewrite !has_column_get, (column_after_pipeline parse_datetime df n H).
  rewrite handle_missing_values_columns.
  rewrite (get_column_map
             (fun c => mkSeries (name c) (dtype_of c)
                         (map (filled_cell (dtype_of c)) (values c))))
    by reflexivity.
  now destruct (get_column df n).
Qed.

(** What [preprocess_data] does once it has its frame. *)
Lemma preprocess_data_from (L : DataLoader) df :
  raw_frame read_csv L df ->
  preprocess_data parse_datetime read_csv L
  = match reduce_pipeline (cleaning_pipeline parse_datetime) df with
    | (df', Some e) => (set_data L df', Raises e)
    | (df', None) =>
        match _split_data (set_data L df') with
        | (L1, Raises e) => (L1, Raises e)
        | (L1, Returns _) => (L1, Returns df')
        end
    end.
Proof.
  intros Raw. unfold preprocess_data.
  destruct (loaded_frame read_csv L df Raw) as [E|[E D]]; rewrite E.
  - destruct (reduce_pipeline _ df) as [df' [e|]]; now rewrite set_data_set_data.
  - reflexivity.
Qed.

Lemma extends_by_refl added df : extends_by added df df.
Proof. exists []. split; [now rewrite app_nil_r | intros x []]. Qed.

Lemma extends_by_same added df d d' :
  extends_by added df d -> columns d' = columns d -> extends_by added df d'.
Proof. intros (extra & E & I) H. exists extra. now rewrite H. Qed.

Lemma extends_by_set added df d n t vs :
  extends_by added df d -> In n added ->
  extends_by added df (set_column n t vs d).
Proof.
  intros (extra & E & I) H.
  unfold extends_by. rewrite columns_set_column.
  destruct (has_column d n).
  - now exists extra.
  - exists (extra ++ [n]). rewrite E, app_assoc. split; auto.
    intros x Hx. apply in_app_or in Hx. destruct Hx as [Hx|[<-|[]]]; auto.
Qed.

Lemma convert_column_columns n conv df df' :
  convert_column n conv df = Returns df' -> columns df' = columns df.
Proof.
  unfold convert_column. destruct (has_column df n) eqn:H.
  - destruct (getitem df n) as [c|]; simpl; [|discriminate].
    destruct (conv c) as [c'|]; simpl; [|discriminate].
    intros E. inversion E. now rewrite columns_set_column, H.
  - intros E. now inversion E.
Qed.

Lemma derive_columns added srcs target f df d d' :
  In target added -> extends_by added df d ->
  derive srcs target f d = Returns d' -> extends_by added df d'.
Proof.
  intros T X. unfold derive. destruct (forallb _ _).
  - destruct (apply_axis1 f d) as [vs|]; simpl; [|discriminate].
    intros E. inversion E. apply extends_by_set; assumption.
  - intros E. inversion E; subst. assumption.
Qed.

Lemma convert_column_nrows n conv df df' :
  (forall c c', conv c = Returns c' -> length (values c') = length (values c)) ->
  rectangular df = true ->
  convert_column n conv df = Returns df' -> nrows df' = nrows df.
Proof.
  intros Hl R. unfold convert_column, getitem. destruct (has_column df n).
  - destruct (get_column df n) as [c|] eqn:G; simpl; [|discriminate].
    destruct (conv c) as [c'|] eqn:C; simpl; [|discriminate].
    intros E. inversion E. apply nrows_set.
    rewrite (Hl _ _ C). now apply (rectangular_get df n).
  - intros E. now inversion E.
Qed.

Lemma pipeline_shape df :
  rectangular df = true ->
  let df' := fst (reduce_pipeline (cleaning_pipeline parse_datetime) df) in
  extends_by ["kda"; "kill_participation"] df df' /\ nrows df' = nrows df.
Proof.
  intros R. cbv zeta.
  set (S := fun d => rectangular d = true
                     /\ extends_by ["kda"; "kill_participation"] df d
                     /\ nrows d = nrows df).
  enough (H : S (fst (reduce_pipeline (cleaning_pipeline parse_datetime) df)))
    by (destruct H as (_ & H1 & H2); auto).
  unfold cleaning_pipeline. cbn [reduce_pipeline].
  assert (S1 : S (fst (_handle_missing_values df))).
  { unfold S. split; [now apply handle_missing_values_rectangular|].
    rewrite handle_missing_values_columns. split.
    - apply (extends_by_same _ df df); [apply extends_by_refl|].
      unfold columns. rewrite map_map. reflexivity.
    - destruct df; reflexivity || (simpl; now rewrite length_map). }
  rewrite handle_missing_values_eq in *. cbn [fst] in S1.
  set (df1 := fill_categorical (fill_numeric df)) in *.
  assert (S2 : S (fst (_convert_data_types parse_datetime df1))).
  { unfold _convert_data_types. apply (run_steps_fst_invariant S); auto.
    rewrite convert_date_eq. simpl. rewrite !convert_bool_eq.
    repeat first [apply Forall_nil | apply Forall_cons];
      intros d d' (Rd & Xd & Nd) Hd; unfold S;
      (split; [|split];
       [ eapply convert_column_rectangular; eauto;
         (apply to_datetime_length || apply astype_bool_length)
       | eapply extends_by_same; eauto; eapply convert_column_columns; eauto
       | rewrite <- Nd; eapply convert_column_nrows; eauto;
         (apply to_datetime_length || apply astype_bool_length) ]). }
  destruct (_convert_data_types parse_datetime df1) as [df2 [e|]]; auto.
  cbn [fst] in S2.
  assert (S3 : S (fst (_add_derived_features df2))).
  { unfold _add_derived_features. apply (run_steps_fst_invariant S); auto.
    rewrite add_kda_eq, add_kill_participation_eq.
    repeat first [apply Forall_nil | apply Forall_cons];
      intros d d' (Rd & Xd & Nd) Hd; unfold S;
      (split; [|split];
       [ eapply derive_rectangular; eauto
       | eapply derive_columns; eauto; simpl; auto
       | rewrite <- Nd; now apply (derive_result _ _ _ _ _ Hd) ]). }
  destruct (_add_derived_features df2) as [df3 [e|]]; auto.
Qed.

End Shape.

(** X7. [preprocess_data] returns only for a file that has the columns
    [playername] and [teamname].  Without [playername], once the three
    stages have passed, it raises [KeyError] in the split: the loader then
    holds the processed frame and its two subsets are as they were. *)
Theorem preprocess_data_needs_names
  (parse_datetime : string -> option Z) (read_csv : string -> outcome DataFrame)
  (L : DataLoader) (df : DataFrame) :
  raw_frame read_csv L df ->
  (forall r, snd (preprocess_data parse_datetime read_csv L) = Returns r ->
             has_column df "playername" = true /\ has_column df "teamname" = true)
  /\
  (has_column df "playername" = false ->
   forall df', reduce_pipeline (cleaning_pipeline parse_datetime) df = (df', None) ->
               preprocess_data parse_datetime read_csv L
               = (set_data L df', Raises (KeyError "playername"))).
Proof.
  intros Raw. rewrite (preprocess_data_from parse_datetime read_csv L df Raw).
  assert (P : has_column (fst (reduce_pipeline (cleaning_pipeline parse_datetime) df))
                "playername" = has_column df "playername").
  { apply has_column_after_pipeline. unfold assigned_columns, bool_cols. simpl.
    intros [H|[H|[H|[H|[H|[H|[H|[H|[]]]]]]]]]; discriminate. }
  assert (T : has_column (fst (reduce_pipeline (cleaning_pipeline parse_datetime) df))
                "teamname" = has_column df "teamname").
  { apply has_column_after_pipeline. unfold assigned_columns, bool_cols. simpl.
    intros [H|[H|[H|[H|[H|[H|[H|[H|[]]]]]]]]]; discriminate. }
  rewrite has_column_get in P, T.
  destruct (reduce_pipeline (cleaning_pipeline parse_datetime) df)
    as [df1 [e|]]; cbn [fst] in P, T.
  - split; [discriminate|]. intros _ df' H. discriminate.
  - unfold _split_data, getitem. cbn [data set_data].
    rewrite <- P, <- T. split.
    + intros r. destruct (get_column df1 "playername"); [|discriminate].
      destruct (get_column df1 "teamname"); [auto|discriminate].
    + intros H df' E. inversion E; subst.
      now destruct (get_column df' "playername").
Qed.

Lemma preprocess_data_needs_names_witness :
  preprocess_data two_dates read_games (new_loader "matches.csv")
  = (set_data (new_loader "matches.csv") games_filled,
     Raises (KeyError "playername")).
Proof.
  apply (preprocess_data_needs_names two_dates read_games
           (new_loader "matches.csv") games);
    reflexivity.
Defined.

(** X8. [preprocess_data] drops, renames or reorders no column and no
    record: the frame the loader holds afterwards, returned or raised,
    has the columns of the raw frame in their order, followed by at most
    [kda] and [kill_participation], and as many records. *)
Theorem preprocessing_keeps_the_shape
  (parse_datetime : string -> option Z) (read_csv : string -> outcome DataFrame)
  (L : DataLoader) (df : DataFrame) :
  raw_frame read_csv L df -> rectangular df = true ->
  exists df',
    data (fst (preprocess_data parse_datetime read_csv L)) = Some df'
    /\ extends_by ["kda"; "kill_participation"] df df'
    /\ nrows df' = nrows df
    /\ rectangular df' = true.
Proof.
  intros Raw R.
  exists (fst (reduce_pipeline (cleaning_pipeline parse_datetime) df)).
  destruct (pipeline_shape parse_datetime df R) as [X N].
  repeat split; auto.
  - now apply preprocess_data_frame.
  - now apply reduce_pipeline_rectangular.
Qed.

Lemma preprocessing_keeps_the_shape_witness :
  exists df',
    data (fst (preprocess_data two_dates read_raw_matches (new_loader "matches.csv")))
    = Some df'
    /\ extends_by ["kda"; "kill_participation"] raw_matches df'
    /\ nrows df' = 3%nat
    /\ rectangular df' = true.
Proof.
  apply (preprocessing_keeps_the_shape two_dates read_raw_matches
           (new_loader "matches.csv") raw_matches);
    reflexivity.
Defined.

Lemma run_steps_fixed_on (P : DataFrame -> Prop) steps :
  Forall (fun s => forall df df1, P df -> s df = Returns df1 ->
                                  P df1 /\ s df1 = Returns df1) steps ->
  ForallOrdPairs
    (fun s t => forall df df', P df -> s df = Returns df -> t df = Returns df' ->
                               s df' = Returns df') steps ->
  forall df df', P df -> run_steps steps df = (df', None) ->
                 Forall (fun s => s df' = Returns df') steps.
Proof.
  induction steps as [|s rest IH]; intros Hidem Hpairs df df' HP Hrun.
  - constructor.
  - inversion Hidem as [|? ? Hs Hrest]; subst.
    inversion Hpairs as [|? ? Hsr Hrr]; subst.
    simpl in Hrun. destruct (s df) as [df1|e] eqn:E; [|discriminate].
    destruct (Hs _ _ HP E) as [P1 F1].
    constructor.
    + apply (run_steps_preserves (fun d => P d /\ s d = Returns d) rest)
        with (df := df1); auto.
      rewrite Forall_forall in Hsr, Hrest. apply Forall_forall.
      intros t Ht d d' [Pd Hd] Htd. split.
      * apply (Hrest t Ht d d' Pd Htd).
      * apply (Hsr t Ht d d' Pd Hd Htd).
    + eapply IH; eauto.
Qed.

Lemma run_steps_app a b df :
  run_steps (a ++ b) df
  = match run_steps a df with
    | (d, None) => run_steps b d
    | (d, Some e) => (d, Some e)
    end.
Proof.
  revert df. induction a as [|s a IH]; intros df; simpl; auto.
  destruct (s df); auto.
Qed.

Lemma run_steps_all_fixed steps d :
  Forall (fun s => s d = Returns d) steps -> run_steps steps d = (d, None).
Proof. induction 1 as [|s steps Hs _ IH]; simpl; auto. now rewrite Hs. Qed.

Lemma convert_column_after_derive n conv srcs target f df df' :
  target <> n ->
  convert_column n conv df = Returns df ->
  derive srcs target f df = Returns df' ->
  convert_column n conv df' = Returns df'.
Proof.
  intros Hne F. unfold derive. destruct (forallb _ _).
  - destruct (apply_axis1 f df) as [vs|]; simpl; [|discriminate].
    intros E. inversion E. now apply convert_column_undisturbed.
  - intros E. now inversion E; subst.
Qed.

Lemma fill_clean df :
  clean df = true -> fill_categorical (fill_numeric df) = df.
Proof.
  intros C.
  change (fill_categorical (fill_numeric df)) with (fst (_handle_missing_values df)).
  rewrite handle_missing_values_columns. rewrite <- (map_id df) at 2.
  apply map_ext_in. intros c Hc.
  unfold clean in C. rewrite forallb_forall in C. specialize (C c Hc).
  unfold clean_column in C. apply andb_prop in C. destruct C as [_ C].
  destruct c as [n d vs]. cbn [name dtype_of values]. f_equal.
  rewrite <- (map_id vs) at 2. apply map_ext_in. intros v Hv.
  unfold filled_cell. destruct (isna v) eqn:E; auto.
  unfold column_filled in C. cbn [dtype_of values] in C.
  destruct (is_float_or_int d) eqn:F; simpl in C.
  - rewrite forallb_forall in C. specialize (C v Hv).
    unfold notna in C. now rewrite E in C.
  - destruct (is_object_dtype d); auto.
    rewrite forallb_forall in C. specialize (C v Hv).
    unfold notna in C. now rewrite E in C.
Qed.

(** ** Rows of a frame with a column of player names *)

Lemma plain_column_same df df' n :
  get_column df' n = get_column df n -> plain_column df' n = plain_column df n.
Proof. unfold plain_column. now intros ->. Qed.

Lemma plain_column_row_kind df n :
  plain_column df n = true -> row_kind df = PlainCells.
Proof.
  unfold plain_column. destruct (get_column df n) as [c|] eqn:G; [|discriminate].
  intros H. apply (row_kind_plain df c).
  - now apply get_column_In in G.
  - destruct (dtype_of c); try discriminate; auto.
Qed.

Lemma convert_step_fixed n conv :
  n <> "playername" ->
  (forall c c', conv c = Returns c' -> name c' = name c) ->
  (forall c c', conv c = Returns c' -> conv c' = Returns c') ->
  forall df df1, plain_column df "playername" = true ->
                 convert_column n conv df = Returns df1 ->
                 plain_column df1 "playername" = true /\
                 convert_column n conv df1 = Returns df1.
Proof.
  intros Hn Hname Hidem df df1 P H. split.
  - rewrite (plain_column_same df df1); auto.
    apply (convert_column_other n conv); auto.
  - now apply (convert_column_idempotent n conv Hname Hidem df).
Qed.

Lemma derive_step_fixed srcs target f :
  reads f srcs -> ~ In target srcs -> target <> "playername" ->
  forall df df1, plain_column df "playername" = true ->
                 derive srcs target f df = Returns df1 ->
                 plain_column df1 "playername" = true /\
                 derive srcs target f df1 = Returns df1.
Proof.
  intros Hreads Hnot Hn df df1 P H. split.
  - rewrite (plain_column_same df df1); auto.
    apply (derive_result _ _ _ _ _ H). congruence.
  - apply (derive_idempotent srcs target f Hreads Hnot df); auto.
    now apply (plain_column_row_kind df "playername").
Qed.

Section Repeat.

Variable parse_datetime : string -> option Z.

Lemma later_stages_fixed df r :
  plain_column df "playername" = true ->
  run_steps ((convert_date parse_datetime :: map convert_bool bool_cols)
             ++ [add_kda; add_kill_participation]) df = (r, None) ->
  Forall (fun s => s r = Returns r)
    ((convert_date parse_datetime :: map convert_bool bool_cols)
     ++ [add_kda; add_kill_participation]).
Proof.
  apply (run_steps_fixed_on (fun d => plain_column d "playername" = true)).
  - rewrite convert_date_eq, add_kda_eq, add_kill_participation_eq. simpl.
    rewrite !convert_bool_eq.
    repeat first [apply Forall_nil | apply Forall_cons];
      first [ apply convert_step_fixed;
              [discriminate | apply to_datetime_name
              | apply to_datetime_idempotent]
            | apply convert_step_fixed;
              [discriminate | apply astype_bool_name
              | apply astype_bool_idempotent]
            | apply derive_step_fixed;
              [apply kda_row_reads
              | simpl; intros [H|[H|[H|[]]]]; discriminate
              | discriminate]
            | apply derive_step_fixed;
              [apply kill_participation_row_reads
              | simpl; intros [H|[H|[H|[]]]]; discriminate
              | discriminate] ].
  - rewrite convert_date_eq, add_kda_eq, add_kill_participation_eq. simpl.
    rewrite !convert_bool_eq.
    repeat first [apply FOP_nil | apply FOP_cons
                 | apply Forall_nil | apply Forall_cons];
      intros d d' Pd;
      first [ apply convert_columns_apart; discriminate
            | apply convert_column_after_derive; discriminate
            | apply derive_undisturbed;
              [apply kda_row_reads
              | simpl; intros [H|[H|[H|[]]]]; discriminate
              | discriminate
              | now apply (plain_column_row_kind d "playername")] ].
Qed.

Lemma pipeline_idempotent df r :
  well_typed df = true -> finite_frame df = true ->
  plain_column df "playername" = true ->
  reduce_pipeline (cleaning_pipeline parse_datetime) df = (r, None) ->
  reduce_pipeline (cleaning_pipeline parse_datetime) r = (r, None).
Proof.
  intros W F N H.
  pose proof (reduce_pipeline_clean parse_datetime df W F) as C.
  rewrite H in C. cbn [fst] in C.
  assert (N1 : plain_column (fill_categorical (fill_numeric df)) "playername"
               = true).
  { change (fill_categorical (fill_numeric df))
      with (fst (_handle_missing_values df)).
    rewrite handle_missing_values_columns. unfold plain_column in *.
    rewrite (get_column_map
               (fun c => mkSeries (name c) (dtype_of c)
                           (map (filled_cell (dtype_of c)) (values c))))
      by reflexivity.
    destruct (get_column df "playername"); [exact N|discriminate]. }
  revert H. unfold cleaning_pipeline. cbn [reduce_pipeline].
  rewrite !handle_missing_values_eq, (fill_clean r C).
  set (df1 := fill_categorical (fill_numeric df)) in *.
  unfold _convert_data_types, _add_derived_features. intros H.
  assert (E : run_steps ((convert_date parse_datetime :: map convert_bool bool_cols)
                         ++ [add_kda; add_kill_participation]) df1 = (r, None)).
  { rewrite run_steps_app.
    destruct (run_steps (convert_date parse_datetime :: map convert_bool bool_cols)
                df1) as [df2 [e|]]; [discriminate|].
    destruct (run_steps [add_kda; add_kill_participation] df2) as [df3 [e|]];
      [discriminate|]. exact H. }
  apply (later_stages_fixed _ _ N1) in E. apply Forall_app in E.
  destruct E as [E1 E2].
  rewrite (run_steps_all_fixed _ r E1). now rewrite (run_steps_all_fixed _ r E2).
Qed.

End Repeat.

(** X9. Preprocessing twice changes nothing: when [preprocess_data]
    returned on a raw frame whose cells have the dtype of their column,
    none of them an infinite float, and whose [playername] column is a
    text or a float column, calling it again on the loader returns the
    same frame and leaves the loader, with its two subsets, as it is; the
    file is not read. *)
Theorem preprocess_data_twice
  (parse_datetime : string -> option Z)
  (read_csv read_csv' : string -> outcome DataFrame)
  (L L1 : DataLoader) (df r : DataFrame) :
  raw_frame read_csv L df -> well_typed df = true ->
  finite_frame df = true -> plain_column df "playername" = true ->
  preprocess_data parse_datetime read_csv L = (L1, Returns r) ->
  preprocess_data parse_datetime read_csv' L1 = (L1, Returns r).
Proof.
  intros Raw W F N H.
  pose proof (preprocess_data_returns _ _ _ _ _ H) as D1.
  rewrite (preprocess_data_from parse_datetime read_csv L df Raw) in H.
  destruct (reduce_pipeline (cleaning_pipeline parse_datetime) df)
    as [df' [e|]] eqn:P; [discriminate|].
  assert (E : df' = r /\ _split_data (set_data L df') = (L1, Returns tt)).
  { destruct (_split_data (set_data L df')) as [L2 [[]|e]]; inversion H; auto. }
  destruct E as [-> S]. clear H.
  assert (Raw1 : raw_frame read_csv' L1 r) by (unfold raw_frame; now rewrite D1).
  rewrite (preprocess_data_from parse_datetime read_csv' L1 r Raw1).
  rewrite (pipeline_idempotent parse_datetime df r W F N P).
  rewrite (set_data_held L1 r D1).
  revert S. unfold _split_data, getitem. cbn [data set_data].
  rewrite D1.
  destruct (get_column r "playername") as [p|]; [|discriminate].
  destruct (get_column r "teamname") as [t|]; [|discriminate].
  intros S. inversion S. reflexivity.
Qed.

Lemma preprocess_data_twice_witness :
  preprocess_data two_dates no_file
    (fst (preprocess_data two_dates read_raw_matches (new_loader "matches.csv")))
  = preprocess_data two_dates read_raw_matches (new_loader "matches.csv").
Proof.
  rewrite (preprocess_data_twice two_dates read_raw_matches no_file
             (new_loader "matches.csv")
             (fst (preprocess_data two_dates read_raw_matches
                     (new_loader "matches.csv")))
             raw_matches
             (fst (reduce_pipeline (cleaning_pipeline two_dates) raw_matches)));
    reflexivity.
Defined.

(* ================================================================== *)
(** * The split in player and team records *)

Lemma keep_map_forallb {A} (f : A -> bool) (l : list A) :
  forallb f (keep (map f l) l) = true.
Proof.
  induction l as [|x l IH]; simpl; auto.
  destruct (f x) eqn:E; simpl; auto. now rewrite E.
Qed.

Lemma keep_zip_and_l {A B} (f : A -> bool) (g : B -> bool) l l' :
  forallb f (keep (zip_and (map f l) (map g l')) l) = true.
Proof.
  unfold zip_and. revert l'. induction l as [|x l IH]; intros [|y l']; simpl; auto.
  destruct (f x) eqn:E, (g y); simpl; auto. rewrite E. apply IH.
Qed.

Lemma keep_zip_and_r {A B} (f : A -> bool) (g : B -> bool) l l' :
  forallb g (keep (zip_and (map f l) (map g l')) l') = true.
Proof.
  unfold zip_and. revert l'. induction l as [|x l IH]; intros [|y l']; simpl; auto.
  destruct (f x), (g y) eqn:E; simpl; auto. rewrite E. apply IH.
Qed.

Lemma length_zip_and a b : length (zip_and a b) = Nat.min (length a) (length b).
Proof. unfold zip_and. now rewrite length_map, length_combine. Qed.

Lemma split_counts (pv tv : list value) :
  length pv = length tv ->
  (count_true (map notna pv)
   + count_true (zip_and (map isna pv) (map notna tv))
   + count_true (zip_and (map isna pv) (map isna tv)) = length pv)%nat.
Proof.
  unfold count_true, zip_and, notna. revert tv.
  induction pv as [|x pv IH]; intros [|y tv] H; try discriminate; auto.
  simpl in H. injection H as H. specialize (IH tv H). simpl.
  destruct (isna x), (isna y); simpl; lia.
Qed.

(** X10. [_split_data] by itself, on a rectangular frame with the two
    name columns: the player subset holds no record without a player
    name, the team subset only records without a player name and with a
    team name, and the two subsets together with the records that have
    neither name make up the frame. *)
Theorem split_data_partition (L : DataLoader) (df : DataFrame) (p t : Series) :
  data L = Some df -> rectangular df = true ->
  get_column df "playername" = Some p -> get_column df "teamname" = Some t ->
  exists P T,
    _split_data L = (set_team_data (set_player_data L P) T, Returns tt)
    /\ (nrows P + nrows T
        + count_true (zip_and (map isna (values p)) (map isna (values t)))
        = nrows df)%nat
    /\ (forall c, get_column P "playername" = Some c ->
                  forallb notna (values c) = true)
    /\ (forall c, get_column T "playername" = Some c ->
                  forallb isna (values c) = true)
    /\ (forall c, get_column T "teamname" = Some c ->
                  forallb notna (values c) = true).
Proof.
  intros D R Gp Gt.
  pose proof (rectangular_get _ _ _ R Gp) as Lp.
  pose proof (rectangular_get _ _ _ R Gt) as Lt.
  assert (N : df <> []) by (intros ->; discriminate).
  exists (filter_rows (map notna (values p)) df),
         (filter_rows (zip_and (map isna (values p)) (map notna (values t))) df).
  split; [now apply split_data_subsets|]. split; [|split; [|split]].
  - rewrite !nrows_filter_rows; auto.
    + rewrite <- Lp. apply split_counts. congruence.
    + rewrite length_zip_and, !length_map, Lp, Lt. apply Nat.min_id.
    + now rewrite length_map.
  - intros c. rewrite filter_rows_columns, Gp. cbn [option_map].
    intros H. inversion H. cbn [values]. apply keep_map_forallb.
  - intros c. rewrite filter_rows_columns, Gp. cbn [option_map].
    intros H. inversion H. cbn [values]. apply keep_zip_and_l.
  - intros c. rewrite filter_rows_columns, Gt. cbn [option_map].
    intros H. inversion H. cbn [values]. apply keep_zip_and_r.
Qed.

Lemma split_data_partition_witness :
  exists P T,
    _split_data (mkLoader "matches.csv" (Some raw_matches) None None)
    = (mkLoader "matches.csv" (Some raw_matches) (Some P) (Some T), Returns tt)
    /\ (nrows P + nrows T + 1 = 3)%nat.
Proof.
  destruct (split_data_partition
              (mkLoader "matches.csv" (Some raw_matches) None None) raw_matches
              (mkSeries "playername" object [VStr "Faker"; VNaN; VNaN])
              (mkSeries "teamname" object [VStr "T1"; VStr "T1"; VNaN])
              eq_refl eq_refl eq_refl eq_refl) as (P & T & H & Hc & _).
  exists P, T. split; [exact H | exact Hc].
Defined.

(* ================================================================== *)
(** * The distribution of a categorical column *)

Lemma sort_desc_fixed l :
  ForallOrdPairs (fun a b => (snd b <= snd a)%Z) l -> sort_desc l = l.
Proof.
  induction 1 as [|x l Hx _ IH]; simpl; auto.
  rewrite IH. destruct l as [|y l]; simpl; auto.
  inversion Hx; subst. destruct (Z.ltb_spec (snd x) (snd y)); [lia|reflexivity].
Qed.

Lemma nlargest_value_counts_firstn n l :
  nlargest n (value_counts l) = firstn (Z.to_nat n) (value_counts l).
Proof.
  unfold nlargest. rewrite (sort_desc_fixed (value_counts l)); [reflexivity|].
  apply sort_desc_sorted.
Qed.

Lemma length_value_counts l : length (value_counts l) = nunique l.
Proof. unfold value_counts, nunique. now rewrite length_sort_desc, length_map. Qed.

Lemma dict_get_insert_desc (x : value * Z) l k :
  Forall (fun y => key_eqb (fst x) (fst y) = false) l ->
  dict_get (insert_desc x l) k = dict_get (x :: l) k.
Proof.
  induction 1 as [|y l Hy _ IH]; [reflexivity|].
  cbn [insert_desc]. destruct (Z.ltb (snd x) (snd y)); [|reflexivity].
  destruct x as [kx mx], y as [ky my]. cbn [dict_get fst snd] in *.
  rewrite IH.
  destruct (key_eqb ky k) eqn:Y, (key_eqb kx k) eqn:X; auto.
  rewrite (key_eqb_same kx k ky X), key_eqb_sym in Hy. congruence.
Qed.

Lemma dict_get_sort_desc (l : list (value * Z)) k :
  ForallOrdPairs (fun a b => key_eqb (fst a) (fst b) = false) l ->
  dict_get (sort_desc l) k = dict_get l k.
Proof.
  induction 1 as [|x l Hx _ IH]; [reflexivity|].
  cbn [sort_desc]. rewrite dict_get_insert_desc.
  - destruct x as [kx mx]. cbn [dict_get]. now rewrite IH.
  - apply Forall_forall. intros y Hy.
    apply (Permutation_in _ (sort_desc_perm l)) in Hy.
    rewrite Forall_forall in Hx. now apply Hx.
Qed.

Lemma ForallOrdPairs_map {A B} (R : B -> B -> Prop) (g : A -> B) l :
  ForallOrdPairs (fun a b => R (g a) (g b)) l -> ForallOrdPairs R (map g l).
Proof.
  induction 1 as [|x l Hx _ IH]; simpl; constructor; auto.
  apply Forall_forall. intros y Hy. apply in_map_iff in Hy.
  destruct Hy as (z & <- & Hz). rewrite Forall_forall in Hx. now apply Hx.
Qed.

Lemma dict_get_value_counts l v :
  dict_get (value_counts l) v
  = dict_get (map (fun k => (k, count_key k l)) (unique (filter notna l))) v.
Proof.
  unfold value_counts. apply dict_get_sort_desc.
  apply ForallOrdPairs_map. cbn [fst]. apply unique_distinct.
Qed.

(** X11. [get_categorical_distribution] answers the empty dictionary for
    a column that is not of object dtype.  For one that is, looking a
    value up gives the number of records that carry it, a value no record
    carries (a missing one among them) is no key, the counts add up to
    the number of cells that are not missing, and the items come most
    frequent first. *)
Theorem categorical_distribution_counts df column c :
  get_column df column = Some c ->
  (is_object_dtype (dtype_of c) = false ->
   get_categorical_distribution (Some df) column = [])
  /\
  (is_object_dtype (dtype_of c) = true ->
   let dist := get_categorical_distribution (Some df) column in
   (forall v, In v (values c) -> notna v = true ->
              dict_get dist v = Some (count_key v (values c)))
   /\ (forall v, (forall x, In x (values c) -> notna x = true ->
                            key_eqb x v = false) ->
                 dict_get dist v = None)
   /\ counts_sum dist = Z.of_nat (length (filter notna (values c)))
   /\ ForallOrdPairs (fun a b => (snd b <= snd a)%Z) dist).
Proof.
  intros G. unfold get_categorical_distribution. rewrite G. split.
  - now intros ->.
  - intros ->. cbn [negb]. cbv zeta. split; [|split; [|split]].
    + intros v Hv Nv. rewrite dict_get_value_counts.
      assert (Hf : In v (filter notna (values c))) by (apply filter_In; auto).
      destruct (unique_covers _ _ Hf) as (k & Hk & E).
      rewrite (dict_get_map (fun k => count_key k (values c)) _ v k);
        auto using unique_distinct.
      f_equal. now apply count_key_same.
    + intros v H. rewrite dict_get_value_counts. apply dict_get_map_none.
      intros k Hk. apply unique_In in Hk. apply filter_In in Hk.
      destruct Hk. now apply H.
    + apply value_counts_total.
    + apply sort_desc_sorted.
Qed.

Lemma categorical_distribution_counts_witness :
  dict_get (get_categorical_distribution (Some roles) "position") (VStr "mid")
  = Some 2%Z.
Proof.
  destruct (categorical_distribution_counts roles "position"
              (mkSeries "position" object
                 [VStr "mid"; VStr "top"; VNaN; VStr "mid"; VStr "sup"])
              eq_refl) as [_ H].
  destruct (H eq_refl) as [H1 _].
  apply (H1 (VStr "mid")); [simpl; auto | reflexivity].
Defined.

(** X12. For a column of object dtype the bar chart shows the first
    [top_n] items of the distribution the analyzer computes, in its
    order. *)
Theorem bar_chart_shows_distribution df column c top_n title :
  get_column df column = Some c -> is_object_dtype (dtype_of c) = true ->
  create_bar_chart (Some df) column top_n title
  = BarFigure
      (firstn (Z.to_nat top_n) (get_categorical_distribution (Some df) column))
      (title_or title
         ("Top " ++ str_int top_n ++ " valores de " ++ column)%string).
Proof.
  intros G O. unfold create_bar_chart, get_categorical_distribution.
  rewrite G, O. cbn [negb]. now rewrite nlargest_value_counts_firstn.
Qed.

Lemma bar_chart_shows_distribution_witness :
  create_bar_chart (Some roles) "position" 2 None
  = BarFigure [(VStr "mid", 2%Z); (VStr "top", 1%Z)] "Top 2 valores de position".
Proof.
  rewrite (bar_chart_shows_distribution roles "position"
             (mkSeries "position" object
                [VStr "mid"; VStr "top"; VNaN; VStr "mid"; VStr "sup"]));
    reflexivity.
Defined.

Lemma filter_length_lt {A} (p : A -> bool) l x :
  In x l -> p x = false -> (length (filter p l) < length l)%nat.
Proof.
  induction l as [|y l IH]; simpl; [contradiction|].
  intros [->|H] P.
  - rewrite P. pose proof (filter_length_le p l). lia.
  - specialize (IH H P). destruct (p y); simpl; lia.
Qed.

Lemma nunique_missing l :
  existsb isna l = true -> (nunique l < length (unique l))%nat.
Proof.
  intros H. apply existsb_exists in H. destruct H as (v & Hv & Nv).
  unfold nunique. rewrite (unique_filter notna l notna_key).
  destruct (unique_covers l v Hv) as (k & Hk & E).
  apply (filter_length_lt notna _ k Hk).
  rewrite (notna_key _ _ E). unfold notna. now rewrite Nv.
Qed.

Lemma nunique_all_present l :
  forallb notna l = true -> nunique l = length (unique l).
Proof.
  intros H. unfold nunique. f_equal. f_equal. apply filter_all.
  apply Forall_forall. now apply forallb_forall.
Qed.

(** X13. When the column has no more than [top_n] categories, the bar
    chart shows every category with its count, and so does the pie chart
    when the column holds a cell that is not missing.  The pie chart
    decides on the slice "Outros" by counting a missing value as a
    category: with exactly [top_n] categories and a missing cell it adds
    the slice "Outros" with the count 0, and without a missing cell it
    adds none.  On a column in which every cell is missing there is no
    slice to draw, and the pie chart raises. *)
Theorem charts_of_few_categories df column c top_n title :
  get_column df column = Some c ->
  (Z.of_nat (nunique (values c)) <= top_n)%Z ->
  create_bar_chart (Some df) column top_n title
  = BarFigure (value_counts (values c))
      (title_or title
         ("Top " ++ str_int top_n ++ " valores de " ++ column)%string)
  /\
  (filter notna (values c) <> [] -> forallb notna (values c) = true ->
   create_pie_chart (Some df) column top_n title
   = Returns (PieFigure (value_counts (values c))
                (title_or title ("Distribuição de " ++ column)%string)))
  /\
  (filter notna (values c) <> [] -> existsb isna (values c) = true ->
   top_n = Z.of_nat (nunique (values c)) ->
   create_pie_chart (Some df) column top_n title
   = Returns (PieFigure (value_counts (values c) ++ [(VStr "Outros", 0%Z)])
                (title_or title ("Distribuição de " ++ column)%string)))
  /\
  (filter notna (values c) = [] ->
   create_pie_chart (Some df) column top_n title = Raises ValueError).
Proof.
  intros G H.
  assert (E : nlargest top_n (value_counts (values c)) = value_counts (values c)).
  { rewrite nlargest_value_counts_firstn. apply firstn_all2.
    rewrite length_value_counts. lia. }
  split; [unfold create_bar_chart; now rewrite G, E|].
  split; [|split].
  - intros P A. rewrite (create_pie_chart_returns _ _ _ _ _ G P). cbv zeta.
    rewrite E. rewrite <- (nunique_all_present _ A).
    assert (F : Z.ltb top_n (Z.of_nat (nunique (values c))) = false)
      by (apply Z.ltb_ge; lia).
    now rewrite F.
  - intros P M T. rewrite (create_pie_chart_returns _ _ _ _ _ G P). cbv zeta.
    rewrite E. pose proof (nunique_missing _ M) as Lt.
    assert (F : Z.ltb top_n (Z.of_nat (length (unique (values c)))) = true)
      by (apply Z.ltb_lt; lia).
    now rewrite F, Z.sub_diag.
  - intros P. now apply (create_pie_chart_raises _ _ c).
Qed.

Lemma charts_of_few_categories_witness :
  create_pie_chart (Some roles) "position" 3 None
  = Returns (PieFigure [(VStr "mid", 2%Z); (VStr "top", 1%Z); (VStr "sup", 1%Z);
                        (VStr "Outros", 0%Z)]
               "Distribuição de position")
  /\ create_pie_chart (Some unnamed_players) "playername" 3 None
     = Raises ValueError.
Proof.
  split.
  - destruct (charts_of_few_categories roles "position"
                (mkSeries "position" object
                   [VStr "mid"; VStr "top"; VNaN; VStr "mid"; VStr "sup"])
                3 None eq_refl) as (_ & _ & H & _); [vm_compute; discriminate|].
    rewrite H; [reflexivity | discriminate | reflexivity | reflexivity].
  - apply (charts_of_few_categories unnamed_players "playername"
             (mkSeries "playername" float64 [VNaN; VNaN]) 3 None eq_refl).
    + vm_compute. discriminate.
    + reflexivity.
Defined.

(* ================================================================== *)
(** * The dashboard *)

Lemma update_app {A} (a b : list A) x y :
  update (length a) x (a ++ y :: b) = a ++ x :: b.
Proof. induction a as [|z a IH]; simpl; auto. now rewrite IH. Qed.

Lemma draw_panel_drawn df col :
  has_column df col = true ->
  exists p, draw_panel df col = Returns p /\ drawn p = true.
Proof.
  rewrite has_column_get. unfold draw_panel, getitem.
  destruct (get_column df col) as [c|]; [|discriminate]. intros _. simpl.
  destruct (is_numeric_dtype (dtype_of c)); eexists; split; reflexivity.
Qed.

Lemma draw_valid_columns df cols :
  Forall (fun col => has_column df col = true) cols ->
  exists ps, mapM (draw_panel df) cols = Returns ps
             /\ length ps = length cols /\ forallb drawn ps = true.
Proof.
  induction 1 as [|col cols H _ (ps & E & Hl & D)]; simpl.
  - exists []. auto.
  - destruct (draw_panel_drawn df col H) as (p & Ep & Dp).
    exists (p :: ps). rewrite Ep, E. simpl. rewrite Dp, D, Hl. auto.
Qed.

Lemma draw_columns_app df cols : forall a mid b ps,
  length mid = length cols ->
  mapM (draw_panel df) cols = Returns ps ->
  draw_columns df (length a) cols (a ++ mid ++ b) = Returns (a ++ ps ++ b).
Proof.
  induction cols as [|col cols IH]; intros a mid b ps Hl E.
  - destruct mid; [|discriminate]. simpl in E. now inversion E.
  - destruct mid as [|m mid]; [discriminate|]. simpl in Hl, E.
    destruct (draw_panel df col) as [p|] eqn:P; [|discriminate].
    destruct (mapM (draw_panel df) cols) as [ps'|] eqn:M; [|discriminate].
    simpl in E. inversion E; subst ps. clear E.
    cbn [draw_columns].
    assert (Lt : Nat.ltb (length a) (length (a ++ (m :: mid) ++ b)) = true).
    { apply Nat.ltb_lt. rewrite length_app. simpl. lia. }
    rewrite Lt, P. cbn [bind app]. rewrite update_app.
    specialize (IH (a ++ [p]) mid b ps').
    rewrite length_app, Nat.add_1_r, <- !app_assoc in IH.
    apply IH; auto; lia.
Qed.

Lemma hide_app : forall m (a mid b : list Panel),
  length mid = m ->
  fold_left (fun ax i => update i OffPanel ax) (seq (length a) m) (a ++ mid ++ b)
  = a ++ repeat OffPanel m ++ b.
Proof.
  induction m as [|m IH]; intros a mid b H.
  - now destruct mid.
  - destruct mid as [|x mid]; [discriminate|].
    cbn [seq fold_left app repeat]. rewrite update_app.
    specialize (IH (a ++ [OffPanel]) mid b).
    rewrite length_app, Nat.add_1_r, <- !app_assoc in IH.
    apply IH. simpl in H. lia.
Qed.

Lemma grid_holds_all n :
  (0 < n)%nat ->
  let n_cols := Nat.min 3 n in
  let n_rows := ((n + n_cols - 1) / n_cols)%nat in
  (n <= n_rows * n_cols /\ n_rows * n_cols < n + n_cols)%nat.
Proof.
  intros H. cbv zeta.
  assert (C : (Nat.min 3 n <> 0)%nat) by lia.
  pose proof (Nat.div_mod_eq (n + Nat.min 3 n - 1) (Nat.min 3 n)) as E.
  pose proof (Nat.mod_upper_bound (n + Nat.min 3 n - 1) (Nat.min 3 n) C) as U.
  nia.
Qed.

(** X14. The dashboard never raises and leaves out no requested column
    of the frame: with [n] of them it lays out [min(3, n)] columns and as
    many rows as hold [n] panels, draws one chart per column in the order
    given on the first [n] axes, and switches off the remaining ones,
    which are fewer than one row. *)
Theorem dashboard_layout df columns_ :
  filter (has_column df) columns_ <> [] ->
  let valid := filter (has_column df) columns_ in
  let n_cols := Nat.min 3 (length valid) in
  let n_rows := ((length valid + n_cols - 1) / n_cols)%nat in
  exists panels,
    mapM (draw_panel df) valid = Returns panels
    /\ forallb drawn panels = true
    /\ length panels = length valid
    /\ create_multi_plot_dashboard (Some df) columns_
       = Returns (GridDashboard n_rows n_cols
                    (panels
                     ++ repeat OffPanel (n_rows * n_cols - length valid)))
    /\ (length valid <= n_rows * n_cols < length valid + n_cols)%nat.
Proof.
  intros N. cbv zeta. unfold create_multi_plot_dashboard.
  remember (filter (has_column df) columns_) as valid eqn:Ev.
  assert (V : Forall (fun col => has_column df col = true) valid).
  { apply Forall_forall. intros col H. rewrite Ev in H. now apply filter_In in H. }
  destruct (draw_valid_columns df valid V) as (ps & E & Hl & D).
  assert (P : (0 < length valid)%nat) by (destruct valid; simpl; [congruence|lia]).
  pose proof (grid_holds_all (length valid) P) as G. cbv zeta in G.
  exists ps. split; [exact E|]. split; [exact D|]. split; [exact Hl|].
  split; [|exact G].
  destruct valid as [|v0 vs]; [congruence|]. cbv iota.
  remember (v0 :: vs) as valid eqn:Ew. clear Ew Ev N.
  set (n_cols := Nat.min 3 (length valid)) in *.
  set (n_rows := ((length valid + n_cols - 1) / n_cols)%nat) in *.
  assert (A : (if Nat.ltb 1 (n_rows * n_cols) then (n_rows * n_cols)%nat else 1%nat)
              = (length valid + (n_rows * n_cols - length valid))%nat).
  { destruct (Nat.ltb_spec 1 (n_rows * n_cols)); lia. }
  rewrite A, repeat_app.
  pose proof (draw_columns_app df valid [] (repeat BlankPanel (length valid))
                (repeat BlankPanel (n_rows * n_cols - length valid)) ps
                (repeat_length _ _) E) as DC.
  cbn [length app] in DC. rewrite DC. cbn [bind]. do 2 f_equal. unfold hide_unused.
  rewrite length_app, repeat_length, Hl, Nat.add_comm, Nat.add_sub.
  rewrite <- Hl.
  rewrite <- (app_nil_r (ps ++ repeat BlankPanel _)), <- app_assoc.
  rewrite (hide_app _ ps (repeat BlankPanel (n_rows * n_cols - length ps)) [])
    by apply repeat_length.
  now rewrite app_nil_r.
Qed.

Lemma dashboard_layout_witness :
  exists panels,
    create_multi_plot_dashboard (Some champions)
      ["kills"; "champion"; "patch"; "kills"; "champion"]
    = Returns (GridDashboard 2 3 (panels ++ [OffPanel; OffPanel]))
    /\ length panels = 4%nat.
Proof.
  destruct (dashboard_layout champions
              ["kills"; "champion"; "patch"; "kills"; "champion"])
    as (ps & _ & _ & Hl & H & _); [discriminate|].
  exists ps. split; [exact H | exact Hl].
Defined.

(* ================================================================== *)
(** * The heat map *)

Lemma Forall_firstn {A} (P : A -> Prop) n l : Forall P l -> Forall P (firstn n l).
Proof.
  intros H. apply Forall_forall. intros x Hx. apply In_firstn in Hx.
  rewrite Forall_forall in H. now apply H.
Qed.

(** X15. The heat map is drawn over at least one and at most twenty
    columns, each of them a numeric column of the frame, under the given
    title or the default one; otherwise it is the placeholder that says
    no numeric column is available.  An empty list of columns is read as
    no list. *)
Theorem heatmap_columns df columns_ title :
  match create_heatmap (Some df) columns_ title with
  | HeatmapFigure cols t =>
      (0 < length cols <= 20)%nat
      /\ Forall (fun col => exists c, In c df /\ name c = col
                                      /\ is_numeric_dtype (dtype_of c) = true) cols
      /\ t = title_or title "Mapa de Calor de Correlação"
  | TextFigure text => text = "Nenhuma coluna numérica disponível"
  | _ => False
  end
  /\ create_heatmap (Some df) (Some []) title = create_heatmap (Some df) None title.
Proof.
  split; [|reflexivity]. unfold create_heatmap.
  set (sel := match columns_ with
              | Some ((_ :: _) as cols) =>
                  filter (fun col => match get_column df col with
                                     | Some c => is_numeric_dtype (dtype_of c)
                                     | None => false
                                     end) cols
              | _ => map name (filter (fun c => is_float_or_int (dtype_of c)) df)
              end).
  assert (S : Forall (fun col => exists c, In c df /\ name c = col
                                           /\ is_numeric_dtype (dtype_of c) = true)
                sel).
  { assert (D : Forall (fun col => exists c, In c df /\ name c = col
                                   /\ is_numeric_dtype (dtype_of c) = true)
                  (map name (filter (fun c => is_float_or_int (dtype_of c)) df))).
    { apply Forall_forall. intros col H. apply in_map_iff in H.
      destruct H as (c & Hn & Hc). apply filter_In in Hc. destruct Hc as [Hc Hd].
      exists c. repeat split; auto. now destruct (dtype_of c). }
    unfold sel. destruct columns_ as [[|col0 cols]|]; auto.
    apply Forall_forall. intros col H. apply filter_In in H. destruct H as [_ H].
    destruct (get_column df col) as [c|] eqn:G; [|discriminate].
    apply get_column_In in G. destruct G. exists c. auto. }
  clearbody sel.
  set (capped := if Nat.ltb 20 (length sel) then firstn 20 sel else sel).
  assert (C : Forall (fun col => exists c, In c df /\ name c = col
                                           /\ is_numeric_dtype (dtype_of c) = true)
                capped /\ (length capped <= 20)%nat).
  { unfold capped. destruct (Nat.ltb_spec 20 (length sel)).
    - split; [now apply Forall_firstn|]. rewrite length_firstn. lia.
    - split; [assumption | lia]. }
  destruct C as [C1 C2]. clearbody capped.
  destruct capped as [|col cols]; [reflexivity|].
  repeat split; auto. simpl. lia.
Qed.

(* ================================================================== *)
(** * Looking a record up and filtering by its key *)

Lemma meets_text parse d id v :
  d <> datetime64 -> meets parse d (Equals (VStr id)) v = eq_str id v.
Proof.
  intros H. unfold meets, scalar_eq, eq_str.
  destruct d; try congruence; destruct v; simpl; auto.
Qed.

(** X16. [get_record_by_id] answers with the first record of what
    [filter_data] returns for the same key on [gameid], or with [None]
    when that is empty (for a [gameid] column that is not of datetime
    dtype).  They part on a frame without the column: the lookup raises
    [KeyError], the filter is ignored and every record returned. *)
Theorem record_is_first_filtered
  (parse_datetime : string -> option Z) (read_csv : string -> outcome DataFrame)
  (L L1 : DataLoader) (df : DataFrame) (id : string) :
  ensure_data parse_datetime read_csv L = (L1, Returns df) ->
  (forall g, get_column df "gameid" = Some g -> dtype_of g <> datetime64 ->
     exists r,
       filter_data parse_datetime read_csv L [("gameid", Equals (VStr id))]
       = (L1, Returns r)
       /\ get_record_by_id parse_datetime read_csv L id
          = (L1, Returns (if empty r then None else Some (iloc_to_dict 0 r))))
  /\
  (get_column df "gameid" = None ->
   get_record_by_id parse_datetime read_csv L id = (L1, Raises (KeyError "gameid"))
   /\ filter_data parse_datetime read_csv L [("gameid", Equals (VStr id))]
      = (L1, Returns df)).
Proof.
  intros E. unfold get_record_by_id, filter_data. unfold ensure_data in *.
  rewrite E. cbn [fold_left]. unfold filter_step, getitem. cbn [fst snd].
  split.
  - intros g G H. rewrite G. eexists. split; [reflexivity|].
    assert (M : map (eq_str id) (values g)
                = map (meets parse_datetime (dtype_of g) (Equals (VStr id)))
                    (values g)).
    { apply map_ext. intros v. symmetry. now apply meets_text. }
    rewrite <- M. now destruct (empty _).
  - intros G. now rewrite G.
Qed.

Lemma record_is_first_filtered_witness :
  get_record_by_id two_dates no_file games_loader "g1"
  = (games_loader,
     Returns (Some [("gameid", PyStr "g1"); ("league", PyStr "LCK");
                    ("result", NpNumber 1)])).
Proof.
  destruct (record_is_first_filtered two_dates no_file games_loader games_loader
              games "g1" eq_refl) as [H _].
  destruct (H (mkSeries "gameid" object [VStr "g1"; VStr "g1"; VStr "g2"; VStr "g3"])
              eq_refl) as (r & F & R); [discriminate|].
  rewrite R. vm_compute in F. inversion F. reflexivity.
Defined.

(* ================================================================== *)
(** * Scatter and box plots: the ten most frequent categories *)

Lemma keep_map_filter {A} (f : A -> bool) (l : list A) :
  keep (map f l) l = filter f l.
Proof. induction l as [|x l IH]; simpl; auto. destruct (f x); now rewrite IH. Qed.

Lemma isin_key keys a b : key_eqb a b = true -> isin keys a = isin keys b.
Proof.
  intros H. unfold isin. induction keys as [|k keys IH]; simpl; auto.
  now rewrite (key_eqb_same a b k H), IH.
Qed.

Lemma isin_spec keys v :
  isin keys v = true <-> exists k, In k keys /\ key_eqb v k = true.
Proof. unfold isin. apply existsb_exists. Qed.

Lemma distinct_same l x k :
  ForallOrdPairs (fun a b => key_eqb a b = false) l ->
  In x l -> In k l -> key_eqb x k = true -> x = k.
Proof.
  induction 1 as [|y l Hy _ IH]; simpl; [contradiction|].
  rewrite Forall_forall in Hy.
  intros [->|Hx] [->|Hk] E; auto.
  - rewrite (Hy k Hk) in E. discriminate.
  - rewrite key_eqb_sym, (Hy x Hx) in E. discriminate.
Qed.

Lemma length_filter_isin keys u :
  ForallOrdPairs (fun a b => key_eqb a b = false) u ->
  NoDup keys -> incl keys u ->
  length (filter (isin keys) u) = length keys.
Proof.
  intros D N I. apply Permutation_length. apply NoDup_Permutation; auto.
  - apply NoDup_filter.
    clear N I. induction D as [|x l Hx _ IH]; constructor; auto.
    intros Hin. rewrite Forall_forall in Hx. specialize (Hx x Hin).
    now rewrite key_eqb_refl in Hx.
  - intros x. rewrite filter_In, isin_spec. split.
    + intros (Hx & k & Hk & E). now rewrite (distinct_same u x k D Hx (I k Hk) E).
    + intros Hx. split; [now apply I|]. exists x. split; auto. apply key_eqb_refl.
Qed.

Lemma filter_key_isin keys v l :
  isin keys v = true ->
  filter (key_eqb v) (filter (isin keys) l) = filter (key_eqb v) l.
Proof.
  intros Hv. induction l as [|x l IH]; simpl; auto.
  destruct (isin keys x) eqn:X; simpl.
  - destruct (key_eqb v x); simpl; now rewrite IH.
  - destruct (key_eqb v x) eqn:E; auto.
    rewrite (isin_key keys v x E) in Hv. congruence.
Qed.

Lemma map_fst_value_counts l :
  Permutation (map fst (value_counts l)) (unique (filter notna l)).
Proof.
  unfold value_counts. rewrite (Permutation_map fst (sort_desc_perm _)).
  rewrite map_map. cbn [fst]. now rewrite map_id.
Qed.

(** The categories [nlargest] keeps. *)
Lemma top_categories n l :
  let keys := map fst (nlargest n (value_counts l)) in
  NoDup keys /\ incl keys (unique l)
  /\ (forall k, In k keys -> notna k = true)
  /\ length keys = Nat.min (Z.to_nat n) (nunique l).
Proof.
  cbv zeta. rewrite nlargest_value_counts_firstn, <- firstn_map.
  pose proof (map_fst_value_counts l) as P.
  assert (I : forall k, In k (firstn (Z.to_nat n) (map fst (value_counts l))) ->
                        In k (unique (filter notna l))).
  { intros k Hk. apply In_firstn in Hk. now apply (Permutation_in _ P). }
  split; [|split; [|split]].
  - apply NoDup_firstn.
    apply (Permutation_NoDup (Permutation_sym P)), NoDup_unique.
  - intros k Hk. apply I in Hk.
    rewrite (unique_filter notna l notna_key) in Hk. now apply filter_In in Hk.
  - intros k Hk. apply I in Hk. apply unique_In in Hk. now apply filter_In in Hk.
  - rewrite length_firstn, length_map, length_value_counts. reflexivity.
Qed.

Lemma capped_categories l :
  (10 < nunique l)%nat ->
  let keys := map fst (nlargest 10 (value_counts l)) in
  let kept := filter (isin keys) l in
  nunique kept = 10%nat
  /\ forallb notna kept = true
  /\ (forall v, In v kept -> count_key v kept = count_key v l)
  /\ (forall w, In w l -> notna w = true ->
                (forall v, In v kept -> key_eqb v w = false) ->
                forall v, In v kept -> (count_key w l <= count_key v l)%Z).
Proof.
  intros H. cbv zeta.
  destruct (top_categories 10 l) as (N & I & Na & Len). cbv zeta in *.
  assert (Z0 : (0 <= 10)%Z) by lia.
  assert (Z1 : (10 < Z.of_nat (nunique l))%Z) by lia.
  destruct (nlargest_value_counts 10 l Z0 Z1) as (_ & _ & T3 & _ & T5).
  set (keys := map fst (nlargest 10 (value_counts l))) in *.
  assert (A : forallb notna (filter (isin keys) l) = true).
  { apply forallb_forall. intros v Hv. apply filter_In in Hv.
    destruct Hv as [_ Hv]. apply isin_spec in Hv. destruct Hv as (k & Hk & E).
    rewrite (notna_key _ _ E). now apply Na. }
  split; [|split; [exact A|split]].
  - unfold nunique. rewrite (filter_all notna (filter (isin keys) l))
      by (apply Forall_forall; now apply forallb_forall).
    rewrite (unique_filter (isin keys) l (isin_key keys)).
    rewrite (length_filter_isin keys (unique l) (unique_distinct l) N I).
    rewrite Len. lia.
  - intros v Hv. apply filter_In in Hv. destruct Hv as [_ Hv].
    unfold count_key. now rewrite filter_key_isin.
  - intros w Hw Nw Out v Hv. apply filter_In in Hv. destruct Hv as [Hv Iv].
    apply isin_spec in Iv. destruct Iv as (k & Hk & E).
    unfold keys in Hk. apply in_map_iff in Hk. destruct Hk as ([k' m] & <- & Hk).
    cbn [fst] in E. rewrite (count_key_same v k' l E).
    destruct (T3 k' m Hk) as (K1 & K2 & ->).
    apply (T5 w Hw Nw) with (k := k'); auto.
    intros k2 m2 H2. apply Out. apply filter_In.
    destruct (T3 k2 m2 H2) as (J1 & _). split; auto.
    apply isin_spec. exists k2. split; [|apply key_eqb_refl].
    unfold keys. apply in_map_iff. exists (k2, m2). auto.
Qed.

(** X17. With a grouping column of object dtype that has more than ten
    categories, the box plot and the scatter plot draw the same reduced
    frame under the note on the ten most frequent categories: its
    grouping column has exactly ten categories and no missing cell, every
    category kept keeps all its records, and no category left out has
    more records than one kept. *)
Theorem plots_capped_to_ten_categories df value_column x_column h c x g title :
  get_column df value_column = Some c -> is_numeric_dtype (dtype_of c) = true ->
  get_column df x_column = Some x -> is_numeric_dtype (dtype_of x) = true ->
  h <> "" -> get_column df h = Some g -> is_object_dtype (dtype_of g) = true ->
  (10 < nunique (values g))%nat ->
  exists plot_data g',
    create_box_plot (Some df) value_column (Some h) title
    = BoxFigure plot_data value_column (Some h) (Some top10_note)
        (title_or title ("Box Plot de " ++ value_column ++ " por " ++ h)%string)
    /\ create_scatter_plot (Some df) x_column value_column (Some h) title
       = ScatterFigure plot_data x_column value_column (Some h) (Some top10_note)
           (title_or title (value_column ++ " vs " ++ x_column)%string)
    /\ get_column plot_data h = Some g'
    /\ nunique (values g') = 10%nat
    /\ forallb notna (values g') = true
    /\ (forall v, In v (values g') ->
                  count_key v (values g') = count_key v (values g))
    /\ (forall w, In w (values g) -> notna w = true ->
                  (forall v, In v (values g') -> key_eqb v w = false) ->
                  forall v, In v (values g') ->
                            (count_key w (values g) <= count_key v (values g))%Z).
Proof.
  intros Gc Nc Gx Nx Hh Gg Og Ht.
  assert (E : String.eqb h "" = false) by now apply String.eqb_neq.
  assert (T : Nat.ltb 10 (nunique (values g)) = true) by now apply Nat.ltb_lt.
  set (keys := map fst (nlargest 10 (value_counts (values g)))).
  exists (filter_rows (map (isin keys) (values g)) df),
         (mkSeries (name g) (dtype_of g) (filter (isin keys) (values g))).
  split; [|split; [|split]].
  - unfold create_box_plot, cap_categories. now rewrite Gc, Nc, E, Gg, Og, T.
  - unfold create_scatter_plot, cap_categories.
    now rewrite Gx, Gc, Nx, Nc, E, Gg, Og, T.
  - rewrite filter_rows_columns, Gg. cbn [option_map].
    now rewrite keep_map_filter.
  - cbn [values]. apply (capped_categories (values g) Ht).
Qed.

Lemma plots_capped_to_ten_categories_witness :
  exists plot_data,
    create_box_plot (Some eleven_champions) "kills" (Some "champion") None
    = BoxFigure plot_data "kills" (Some "champion") (Some top10_note)
        "Box Plot de kills por champion"
    /\ nrows plot_data = 11%nat.
Proof.
  destruct (plots_capped_to_ten_categories eleven_champions "kills" "deaths"
              "champion"
              (mkSeries "kills" int64
                 [VNum 5; VNum 2; VNum 5; VNum 0; VNum 7; VNum 2; VNum 1; VNum 0;
                  VNum 9; VNum 1; VNum 4; VNum 3])
              (mkSeries "deaths" int64
                 [VNum 1; VNum 2; VNum 0; VNum 3; VNum 2; VNum 2; VNum 4; VNum 1;
                  VNum 0; VNum 5; VNum 6; VNum 2])
              (mkSeries "champion" object
                 [VStr "Ahri"; VStr "Zed"; VStr "Lux"; VStr "Jinx"; VStr "Vi";
                  VStr "Ashe"; VStr "Garen"; VStr "Sona"; VStr "Ezreal";
                  VStr "Leona"; VStr "Yasuo"; VStr "Ahri"])
              None eq_refl eq_refl eq_refl eq_refl)
    as (plot_data & g' & B & _); try reflexivity; [discriminate | vm_compute; lia |].
  exists plot_data. split; [exact B|].
  vm_compute in B. inversion B. reflexivity.
Defined.

(* ================================================================== *)
(** * Performance metrics *)

Lemma lookup_app {A} (a b : list (string * A)) k :
  lookup (a ++ b) k = match lookup a k with
                      | Some v => Some v
                      | None => lookup b k
                      end.
Proof.
  induction a as [|[k0 v0] a IH]; simpl; auto.
  destruct (String.eqb k0 k); auto.
Qed.

Section MetricsFacts.

Variable mean_time : list Z -> Z.

Lemma add_metric_result df column key post ms ms' :
  add_metric mean_time df column key post ms = Returns ms' ->
  ms' = ms \/
  exists c m v, get_column df column = Some c
                /\ series_mean mean_time c = Returns m /\ post m = Returns v
                /\ ms' = ms ++ [(key, v)].
Proof.
  unfold add_metric, getitem. rewrite has_column_get.
  destruct (get_column df column) as [c|]; simpl.
  - destruct (series_mean mean_time c) as [m|] eqn:M; simpl; [|discriminate].
    destruct (post m) as [v|] eqn:P; simpl; [|discriminate].
    intros H. inversion H. right. exists c, m, v. auto.
  - intros H. inversion H. auto.
Qed.

Lemma add_metric_lookup df column key post ms ms' k :
  add_metric mean_time df column key post ms = Returns ms' ->
  key <> k -> lookup ms' k = lookup ms k.
Proof.
  intros H N. apply add_metric_result in H.
  destruct H as [->|(c & m & v & _ & _ & _ & ->)]; auto.
  rewrite lookup_app. simpl. apply String.eqb_neq in N. rewrite N.
  now destruct (lookup ms k).
Qed.

Lemma add_averages_lookup df names ms ms' k :
  add_averages mean_time df names ms = Returns ms' ->
  (forall n, In n names -> ("avg_" ++ n)%string <> k) ->
  lookup ms' k = lookup ms k.
Proof.
  revert ms. induction names as [|n names IH]; intros ms H N.
  - now inversion H.
  - cbn [add_averages] in H.
    destruct (add_metric mean_time df n ("avg_" ++ n) (fun v => Returns v) ms)
      as [ms1|] eqn:E; [|discriminate].
    unfold bind in H. rewrite (IH ms1 H) by (intros; apply N; simpl; auto).
    apply (add_metric_lookup _ _ _ _ _ _ _ E). apply N. simpl. auto.
Qed.

Lemma flags_sum cells :
  flags cells ->
  agg_sum cells = Returns (VNum (Qsum (map cell_number cells)))
  /\ agg_count cells = Z.of_nat (length cells)
  /\ forall q, In q (map cell_number cells) -> 0 <= q /\ q <= 1.
Proof.
  unfold flags, agg_count. induction cells as [|v cells IH]; intros H.
  - repeat split; simpl in *; contradiction.
  - destruct (H v (or_introl eq_refl)) as [b ->].
    destruct IH as (S1 & S2 & S3); [intros; apply H; simpl; auto|].
    cbn [agg_sum]. rewrite S1. cbn [bind map cell_number filter notna isna negb].
    split; [reflexivity|]. split.
    + cbn [length]. apply Nat2Z.inj in S2. now rewrite S2.
    + intros q [<-|Hq]; [destruct b; split; discriminate | now apply S3].
Qed.

(** The analyzer computes the cells of [kda] as the stage did. *)
Lemma kda_recomputed df df' :
  row_kind df = PlainCells ->
  forallb (has_column df') ["kills"; "deaths"; "assists"] = true ->
  _add_derived_features df = (df', None) ->
  exists vs,
    get_column df' "kda" = Some (mkSeries "kda" float64 vs)
    /\ apply_axis1 kda_row df' = Returns vs.
Proof.
  intros Plain H. unfold _add_derived_features. cbn [run_steps].
  destruct (add_kda df) as [df1|] eqn:A; [|discriminate].
  destruct (add_kill_participation df1) as [df2|] eqn:K; [|discriminate].
  intros E. inversion E; subst df2. clear E.
  pose proof A as A'. pose proof K as K'.
  rewrite add_kda_eq in A'. rewrite add_kill_participation_eq in K'.
  destruct (derive_result _ _ _ _ _ A') as [N1 G1].
  destruct (derive_result _ _ _ _ _ K') as [N2 G2].
  pose proof (derive_plain _ _ _ _ _ Plain A') as Plain1.
  pose proof (derive_plain _ _ _ _ _ Plain1 K') as Plain2.
  assert (G : forall n, In n ["kills"; "deaths"; "assists"] ->
                        get_column df' n = get_column df n).
  { intros n Hn. rewrite G2, G1; auto; intros ->; simpl in Hn;
      destruct Hn as [Hn|[Hn|[Hn|[]]]]; discriminate. }
  rewrite (forallb_has_column_same df df' _ G) in H.
  unfold add_kda in A. rewrite H in A.
  destruct (apply_axis1 kda_row df) as [vs|] eqn:V; simpl in A; [|discriminate].
  inversion A; subst df1. clear A.
  exists vs. split.
  - rewrite G2 by discriminate. apply get_set_same.
  - rewrite <- V. unfold apply_axis1. rewrite N2, N1, Plain2, Plain.
    apply mapM_ext. intros i _. apply kda_row_reads. intros n Hn.
    now apply row_at_same, G.
Qed.

Lemma series_mean_name n n' d vs :
  series_mean mean_time (mkSeries n d vs) = series_mean mean_time (mkSeries n' d vs).
Proof. reflexivity. Qed.

End MetricsFacts.

Lemma pipeline_last_stage parse df r :
  reduce_pipeline (cleaning_pipeline parse) df = (r, None) ->
  exists df2, _add_derived_features df2 = (r, None).
Proof.
  unfold cleaning_pipeline. cbn [reduce_pipeline].
  rewrite handle_missing_values_eq.
  destruct (_convert_data_types parse _) as [df2 [e|]]; [discriminate|].
  destruct (_add_derived_features df2) as [df3 [e|]] eqn:E; [discriminate|].
  intros H. inversion H; subst. eauto.
Qed.

(** The stage that derives the features leaves the other columns. *)
Lemma derived_features_other df n :
  n <> "kda" -> n <> "kill_participation" ->
  get_column (fst (_add_derived_features df)) n = get_column df n.
Proof.
  intros N1 N2. apply run_steps_column_untouched.
  repeat constructor; intros d d' H.
  - now apply (add_kda_other _ _ _ H).
  - now apply (add_kill_participation_other _ _ _ H).
Qed.

(** A text or float column that no later stage assigns is one after the
    pipeline. *)
Lemma plain_column_after_pipeline parse df n :
  ~ In n assigned_columns ->
  plain_column (fst (reduce_pipeline (cleaning_pipeline parse) df)) n
  = plain_column df n.
Proof.
  intros H. unfold plain_column. rewrite (column_after_pipeline parse df n H).
  rewrite handle_missing_values_columns.
  rewrite (get_column_map
             (fun c => mkSeries (name c) (dtype_of c)
                         (map (filled_cell (dtype_of c)) (values c))))
    by reflexivity.
  now destruct (get_column df n).
Qed.

Lemma playername_not_assigned : ~ In "playername" assigned_columns.
Proof.
  unfold assigned_columns, bool_cols. simpl.
  intros [H|[H|[H|[H|[H|[H|[H|[H|[]]]]]]]]]; discriminate.
Qed.

(** X18. On the frame [preprocess_data] returned for a file whose
    [playername] column is a text or a float column, with its [kills],
    [deaths] and [assists] columns, the [avg_kda] of the analyzer is the
    mean of the [kda] column the loader added: the analyzer computes the
    ratio of each record again, on rows of the same kind, and arrives at
    the same cells. *)
Theorem avg_kda_is_mean_of_kda_column
  (mean_time : list Z -> Z) (parse_datetime : string -> option Z)
  (read_csv : string -> outcome DataFrame)
  (L L1 : DataLoader) (df0 r : DataFrame) (ms : list (string * value)) :
  raw_frame read_csv L df0 ->
  plain_column df0 "playername" = true ->
  preprocess_data parse_datetime read_csv L = (L1, Returns r) ->
  forallb (has_column r) ["kills"; "deaths"; "assists"] = true ->
  get_performance_metrics mean_time (Some r) = Returns ms ->
  exists c a,
    get_column r "kda" = Some c
    /\ series_mean mean_time c = Returns a
    /\ lookup ms "avg_kda" = Some a.
Proof.
  intros Raw Name P H M.
  rewrite (preprocess_data_from parse_datetime read_csv L df0 Raw) in P.
  destruct (reduce_pipeline (cleaning_pipeline parse_datetime) df0)
    as [df' [e|]] eqn:Pipe; [discriminate|].
  assert (df' = r) by (destruct (_split_data _) as [L2 [[]|e]]; now inversion P).
  subst df'. clear P.
  destruct (pipeline_last_stage _ _ _ Pipe) as (df2 & S).
  assert (Plain : row_kind df2 = PlainCells).
  { apply (plain_column_row_kind df2 "playername").
    pose proof (plain_column_after_pipeline parse_datetime df0 "playername"
                  playername_not_assigned) as Q.
    rewrite Pipe in Q. cbn [fst] in Q. rewrite Name in Q.
    rewrite (plain_column_same r df2 "playername"); [exact Q|].
    pose proof (derived_features_other df2 "playername") as O.
    rewrite S in O. cbn [fst] in O. symmetry. apply O; discriminate. }
  destruct (kda_recomputed df2 r Plain H S) as (vs & G & V).
  unfold get_performance_metrics in M. rewrite H, V in M. cbn [bind] in M.
  rewrite (series_mean_name mean_time "" "kda") in M.
  destruct (series_mean mean_time (mkSeries "kda" float64 vs)) as [a|] eqn:A;
    [|discriminate].
  exists (mkSeries "kda" float64 vs), a. split; [exact G|]. split; [exact A|].
  unfold bind in M.
  destruct (add_metric mean_time r "gamelength" "avg_game_duration"
              (minutes) [("avg_kda", a)]) as [m2|] eqn:E2; [|discriminate].
  destruct (add_metric mean_time r "firstblood" "first_blood_rate"
              (fun v => Returns v) m2) as [m3|] eqn:E3; [|discriminate].
  rewrite (add_averages_lookup _ _ _ _ _ "avg_kda" M)
    by (simpl; intros n [<-|[<-|[<-|[<-|[]]]]]; discriminate).
  rewrite (add_metric_lookup _ _ _ _ _ _ _ "avg_kda" E3) by discriminate.
  rewrite (add_metric_lookup _ _ _ _ _ _ _ "avg_kda" E2) by discriminate.
  reflexivity.
Qed.

Lemma avg_kda_is_mean_of_kda_column_witness :
  exists c a,
    get_column (fst (reduce_pipeline (cleaning_pipeline two_dates) raw_matches))
      "kda" = Some c
    /\ series_mean first_time c = Returns a
    /\ lookup (result_or []
                 (get_performance_metrics first_time
                    (Some (fst (reduce_pipeline (cleaning_pipeline two_dates)
                                  raw_matches)))))
         "avg_kda" = Some a.
Proof.
  apply (avg_kda_is_mean_of_kda_column first_time two_dates read_raw_matches
           (new_loader "matches.csv")
           (fst (preprocess_data two_dates read_raw_matches
                   (new_loader "matches.csv")))
           raw_matches);
    reflexivity.
Defined.

(** X19. For a [firstblood] column of Booleans with at least one record,
    as [preprocess_data] leaves it, the [first_blood_rate] of the analyzer
    is the number of records with first blood over the number of records,
    a fraction between 0 and 1. *)
Theorem first_blood_rate_is_a_fraction
  (mean_time : list Z -> Z) (df : DataFrame) (c : Series)
  (ms : list (string * value)) :
  get_column df "firstblood" = Some c -> dtype_of c = bool_ ->
  flags (values c) -> values c <> [] ->
  get_performance_metrics mean_time (Some df) = Returns ms ->
  let rate := Qsum (map cell_number (values c))
              / inject_Z (Z.of_nat (length (values c))) in
  lookup ms "first_blood_rate" = Some (VNum rate) /\ 0 <= rate /\ rate <= 1.
Proof.
  intros G D F N M. cbv zeta.
  destruct (flags_sum (values c) F) as (S1 & S2 & S3).
  assert (Pos : (0 < Z.of_nat (length (values c)))%Z)
    by (destruct (values c); simpl; [congruence|lia]).
  split.
  - unfold get_performance_metrics, bind in M.
    destruct (if forallb (has_column df) ["kills"; "deaths"; "assists"]
              then _ else _) as [m1|] eqn:E1; [|discriminate].
    assert (L1 : lookup m1 "first_blood_rate" = None).
    { destruct (forallb (has_column df) ["kills"; "deaths"; "assists"]).
      - destruct (apply_axis1 kda_row df) as [vs|]; [|discriminate].
        destruct (series_mean mean_time _) as [a|]; [|discriminate].
        now inversion E1.
      - now inversion E1. }
    destruct (add_metric mean_time df "gamelength" "avg_game_duration"
                minutes m1) as [m2|] eqn:E2; [|discriminate].
    destruct (add_metric mean_time df "firstblood" "first_blood_rate"
                (fun v => Returns v) m2) as [m3|] eqn:E3; [|discriminate].
    rewrite (add_averages_lookup _ _ _ _ _ "first_blood_rate" M)
      by (simpl; intros n [<-|[<-|[<-|[<-|[]]]]]; discriminate).
    pose proof (add_metric_lookup _ _ _ _ _ _ _ "first_blood_rate" E2) as L2.
    rewrite L1 in L2. specialize (L2 ltac:(discriminate)).
    unfold add_metric, getitem in E3. rewrite has_column_get, G in E3.
    cbn [bind] in E3. unfold series_mean in E3.
    rewrite D, S1, S2 in E3. cbn [is_datetime64_dtype bind np_div] in E3.
    rewrite (inject_Z_nonzero _ Pos) in E3.
    inversion E3. rewrite lookup_app, L2. reflexivity.
  - apply rate_in_unit_interval; auto; now apply Qsum_bounds in S3;
      rewrite length_map in S3.
Qed.

Lemma first_blood_rate_is_a_fraction_witness :
  lookup (result_or [] (get_performance_metrics first_time (Some played)))
    "first_blood_rate"
  = Some (VNum ((1 + (0 + (1 + 0))) / inject_Z 3)).
Proof.
  apply (first_blood_rate_is_a_fraction first_time played
           (mkSeries "firstblood" bool_ [VBool true; VBool false; VBool true])
           (result_or [] (get_performance_metrics first_time (Some played))));
    try reflexivity; [|discriminate].
  intros v [<-|[<-|[<-|[]]]]; eauto.
Defined.

(* ================================================================== *)
(** * Distinct values after preprocessing *)

(** X20. The distinct values a fresh loader returns for a column, on a
    raw file whose cells have the dtype of their column and none of which
    is an infinite float, hold no NaN; for a numeric or categorical
    column of the preprocessed frame they hold no missing value at all. *)
Theorem unique_values_after_preprocessing
  (parse_datetime : string -> option Z) (read_csv : string -> outcome DataFrame)
  (L L1 : DataLoader) (df0 : DataFrame) (column : string) (us : list value) :
  data L = None -> read_csv (file_path L) = Returns df0 ->
  well_typed df0 = true -> finite_frame df0 = true ->
  get_unique_values parse_datetime read_csv L column = (L1, Returns us) ->
  (forall v, In v us -> v <> VNaN)
  /\
  (forall r c, data L1 = Some r -> get_column r column = Some c ->
               is_float_or_int (dtype_of c) || is_object_dtype (dtype_of c) = true ->
               forallb notna us = true).
Proof.
  intros D Rd W Fin Q.
  assert (Raw : raw_frame read_csv L df0) by (unfold raw_frame; now rewrite D).
  destruct (preprocess_data_frame parse_datetime read_csv L df0 Raw) as [F Fr].
  pose proof (reduce_pipeline_clean parse_datetime df0 W Fin) as C.
  unfold get_unique_values, ensure_data in Q. rewrite D in Q.
  destruct (preprocess_data parse_datetime read_csv L) as [L0 [r|e]] eqn:P;
    [|discriminate].
  cbn [fst snd] in F, Fr. rewrite <- (Fr r eq_refl) in C.
  assert (L0 = L1) by (destruct (get_column r column); now inversion Q).
  subst L0.
  destruct (get_column r column) as [c|] eqn:G.
  - inversion Q; subst us. clear Q.
    pose proof (clean_get _ _ _ C G) as Cc. unfold clean_column in Cc.
    apply andb_prop in Cc. destruct Cc as [C1 C2]. split.
    + intros v Hv ->. apply unique_In in Hv.
      rewrite forallb_forall in C1. now specialize (C1 _ Hv).
    + intros r' c' D' G' T.
      rewrite (preprocess_data_returns _ _ _ _ _ P) in D'. inversion D'; subst r'.
      rewrite G in G'. inversion G'; subst c'.
      unfold column_filled in C2. rewrite T in C2.
      apply forallb_forall. intros v Hv. apply unique_In in Hv.
      rewrite forallb_forall in C2. now apply C2.
  - inversion Q; subst us. split; [intros v []|]. intros. reflexivity.
Qed.

Lemma unique_values_after_preprocessing_witness :
  forallb notna
    (result_or []
       (snd (get_unique_values two_dates read_raw_matches
               (new_loader "matches.csv") "playername")))
  = true.
Proof.
  destruct (unique_values_after_preprocessing two_dates read_raw_matches
              (new_loader "matches.csv")
              (fst (preprocess_data two_dates read_raw_matches
                      (new_loader "matches.csv")))
              raw_matches "playername"
              (result_or []
                 (snd (get_unique_values two_dates read_raw_matches
                         (new_loader "matches.csv") "playername")))
              eq_refl eq_refl eq_refl eq_refl eq_refl) as [_ H].
  apply (H (fst (reduce_pipeline (cleaning_pipeline two_dates) raw_matches))
           (mkSeries "playername" object
              [VStr "Faker"; VStr "unknown"; VStr "unknown"]));
    reflexivity.
Defined.

(* ================================================================== *)
(** * Basic statistics *)

Lemma as_number_ordered cells xs :
  mapM as_number cells = Returns xs -> Forall (fun x => ordered x = true) xs.
Proof.
  intros M. apply Forall_forall. intros x Hx.
  destruct (mapM_In _ _ _ _ M Hx) as (v & _ & Hv).
  destruct v; simpl in Hv; inversion Hv; reflexivity.
Qed.

Lemma num_leb_refl a : ordered a = true -> num_leb a a = true.
Proof.
  destruct a as [q| | | | | |[|]]; simpl; try discriminate; auto.
  intros _. apply Qle_bool_iff. apply Qle_refl.
Qed.

Lemma num_leb_total a b :
  ordered a = true -> ordered b = true ->
  num_leb a b = false -> num_leb b a = true.
Proof.
  destruct a as [x| | | | | |[|]], b as [y| | | | | |[|]]; simpl;
    try discriminate; auto.
  intros _ _ H. apply Qle_bool_iff.
  destruct (Qlt_le_dec y x) as [L|L]; [now apply Qlt_le_weak|].
  apply Qle_bool_iff in L. congruence.
Qed.

Lemma num_leb_trans a b c :
  num_leb a b = true -> num_leb b c = true -> num_leb a c = true.
Proof.
  destruct a as [x| | | | | |[|]], b as [y| | | | | |[|]],
           c as [z| | | | | |[|]]; simpl; try discriminate; auto.
  intros H1 H2. apply Qle_bool_iff in H1, H2. apply Qle_bool_iff.
  now apply Qle_trans with y.
Qed.

Lemma num_min_spec a b :
  ordered a = true -> ordered b = true ->
  (num_min a b = a \/ num_min a b = b) /\
  num_leb (num_min a b) a = true /\ num_leb (num_min a b) b = true.
Proof.
  intros A B. unfold num_min. destruct (num_leb a b) eqn:E.
  - split; [auto|]. split; [now apply num_leb_refl | exact E].
  - split; [auto|]. split; [now apply num_leb_total | now apply num_leb_refl].
Qed.

Lemma num_max_spec a b :
  ordered a = true -> ordered b = true ->
  (num_max a b = a \/ num_max a b = b) /\
  num_leb a (num_max a b) = true /\ num_leb b (num_max a b) = true.
Proof.
  intros A B. unfold num_max. destruct (num_leb a b) eqn:E.
  - split; [auto|]. split; [exact E | now apply num_leb_refl].
  - split; [auto|]. split; [now apply num_leb_refl | now apply num_leb_total].
Qed.

Lemma fold_min_least rest : forall x,
  Forall (fun v => ordered v = true) (x :: rest) ->
  In (fold_left num_min rest x) (x :: rest) /\
  forall y, In y (x :: rest) -> num_leb (fold_left num_min rest x) y = true.
Proof.
  induction rest as [|z rest IH]; intros x F.
  - inversion F; subst. split; [now left|].
    intros y [<-|[]]. now apply num_leb_refl.
  - inversion F as [|? ? Ox F']; subst. inversion F' as [|? ? Oz F'']; subst.
    destruct (num_min_spec x z Ox Oz) as (M & Lx & Lz).
    assert (Om : ordered (num_min x z) = true)
      by (destruct M as [-> | ->]; assumption).
    destruct (IH (num_min x z)) as [I L]; [now constructor|].
    cbn [fold_left]. split.
    + destruct I as [I|I]; [|now right; right].
      rewrite <- I. destruct M as [-> | ->]; [now left | now right; left].
    + intros y [<-|[<-|Hy]].
      * eapply num_leb_trans; [apply L; now left | exact Lx].
      * eapply num_leb_trans; [apply L; now left | exact Lz].
      * apply L. now right.
Qed.

Lemma fold_max_greatest rest : forall x,
  Forall (fun v => ordered v = true) (x :: rest) ->
  In (fold_left num_max rest x) (x :: rest) /\
  forall y, In y (x :: rest) -> num_leb y (fold_left num_max rest x) = true.
Proof.
  induction rest as [|z rest IH]; intros x F.
  - inversion F; subst. split; [now left|].
    intros y [<-|[]]. now apply num_leb_refl.
  - inversion F as [|? ? Ox F']; subst. inversion F' as [|? ? Oz F'']; subst.
    destruct (num_max_spec x z Ox Oz) as (M & Lx & Lz).
    assert (Om : ordered (num_max x z) = true)
      by (destruct M as [-> | ->]; assumption).
    destruct (IH (num_max x z)) as [I L]; [now constructor|].
    cbn [fold_left]. split.
    + destruct I as [I|I]; [|now right; right].
      rewrite <- I. destruct M as [-> | ->]; [now left | now right; left].
    + intros y [<-|[<-|Hy]].
      * eapply num_leb_trans; [exact Lx | apply L; now left].
      * eapply num_leb_trans; [exact Lz | apply L; now left].
      * apply L. now right.
Qed.

Lemma get_column_filter (p : Series -> bool) df n c :
  get_column df n = Some c -> p c = true -> get_column (filter p df) n = Some c.
Proof.
  induction df as [|c0 df IH]; simpl; [discriminate|].
  destruct (String.eqb n (name c0)) eqn:E; intros G P.
  - inversion G; subst. rewrite P. simpl. now rewrite E.
  - destruct (p c0); simpl; rewrite ?E; auto.
Qed.

Lemma stats_lookup {A} (f : Series -> outcome A) l stats n c :
  mapM (fun c => s <- f c ;; Returns (name c, s)) l = Returns stats ->
  get_column l n = Some c ->
  exists s, f c = Returns s /\ lookup stats n = Some s.
Proof.
  revert stats. induction l as [|c0 l IH]; intros stats M G; [discriminate|].
  cbn [mapM] in M. unfold bind in M.
  destruct (f c0) as [s0|] eqn:F; [|discriminate].
  destruct (mapM _ l) as [rest|] eqn:R; [|discriminate].
  inversion M; subst stats. clear M.
  cbn [get_column] in G. cbn [lookup]. rewrite String.eqb_sym.
  destruct (String.eqb n (name c0)).
  - inversion G; subst. eauto.
  - now apply IH.
Qed.

Lemma as_number_cells cells xs :
  mapM as_number cells = Returns xs -> length xs = length cells.
Proof. apply mapM_length. Qed.

Lemma stats_keys {A} (f : Series -> outcome A) l stats :
  mapM (fun c => s <- f c ;; Returns (name c, s)) l = Returns stats ->
  map fst stats = map name l.
Proof.
  revert stats. induction l as [|c0 l IH]; intros stats M.
  - now inversion M.
  - cbn [mapM] in M. unfold bind in M.
    destruct (f c0) as [s0|]; [|discriminate].
    destruct (mapM _ l) as [rest|] eqn:R; [|discriminate].
    inversion M. simpl. f_equal. now apply IH.
Qed.

Lemma NoDup_filter {A} (p : A -> bool) l : NoDup l -> NoDup (filter p l).
Proof.
  induction 1 as [|x l Hx _ IH]; simpl; [constructor|].
  destruct (p x); auto. constructor; auto.
  intros H. apply filter_In in H. tauto.
Qed.

Lemma NoDup_map_filter {A B} (g : A -> B) (p : A -> bool) l :
  NoDup (map g l) -> NoDup (map g (filter p l)).
Proof.
  induction l as [|x l IH]; simpl; intros H; [constructor|].
  inversion H as [|? ? Hx Hl]; subst.
  destruct (p x); simpl; auto. constructor; auto.
  intros I. apply Hx. apply in_map_iff in I. destruct I as (y & E & Hy).
  apply in_map_iff. exists y. split; auto. apply filter_In in Hy. tauto.
Qed.

(** X21. [get_basic_stats] without a list of columns, on a frame whose
    columns have distinct names, for a float or integer column of the
    frame: the statistics are those of the cells that are not missing;
    the keys of the dictionary are distinct; [count] is the number of
    those cells; when there is one at least, [min] and [max] are two of
    them and every such cell lies between the two; when there is none,
    the five statistics are NaN. *)
Theorem basic_stats_of_a_column
  (sqrt : Q -> Q) (df : DataFrame) (col : string) (c : Series)
  (stats : list (string * list (string * value))) :
  NoDup (columns df) ->
  get_column df col = Some c -> is_float_or_int (dtype_of c) = true ->
  get_basic_stats sqrt (Some df) None = Returns stats ->
  NoDup (map fst stats) /\
  exists xs entry,
    mapM as_number (filter notna (values c)) = Returns xs
    /\ lookup stats col = Some entry
    /\ lookup entry "count"
       = Some (VNum (inject_Z (Z.of_nat (length (filter notna (values c))))))
    /\ (xs <> [] ->
        exists lo hi,
          lookup entry "min" = Some lo
          /\ lookup entry "max" = Some hi
          /\ In lo xs /\ In hi xs
          /\ (forall x, In x xs -> num_leb lo x = true /\ num_leb x hi = true))
    /\ (xs = [] ->
        entry = [("mean", VNaN); ("median", VNaN); ("std", VNaN);
                 ("min", VNaN); ("max", VNaN); ("count", VNum (inject_Z 0))]).
Proof.
  intros ND G T M. unfold get_basic_stats, numeric_data in M.
  split.
  { rewrite (stats_keys _ _ _ M). now apply NoDup_map_filter. }
  pose proof (get_column_filter (fun c => is_float_or_int (dtype_of c)) df col c G T)
    as G'.
  destruct (stats_lookup (column_stats sqrt) _ _ _ _ M G') as (entry & Cs & Lk).
  unfold column_stats, bind in Cs.
  destruct (mapM as_number (filter notna (values c))) as [xs|] eqn:X;
    [|discriminate].
  inversion Cs; subst entry. clear Cs.
  pose proof (as_number_ordered _ _ X) as O.
  exists xs. eexists. split; [reflexivity|]. split; [exact Lk|].
  split; [cbn; unfold count_of; now rewrite (as_number_cells _ _ X)|]. split.
  - intros N. destruct xs as [|x0 rest] eqn:Ex; [congruence|].
    destruct (fold_min_least rest x0 O) as [I1 L1].
    destruct (fold_max_greatest rest x0 O) as [I2 L2].
    assert (D : forall v, extreme (dtype_of c) v = v)
      by (intros v; destruct (dtype_of c); try discriminate; reflexivity).
    exists (fold_left num_min rest x0), (fold_left num_max rest x0).
    unfold np_min, np_max. rewrite !D.
    cbn [lookup String.eqb Ascii.eqb Bool.eqb].
    split; [reflexivity|]. split; [reflexivity|].
    split; [exact I1|]. split; [exact I2|].
    intros x Hx. split; [now apply L1 | now apply L2].
  - intros ->. reflexivity.
Qed.

Lemma played_columns_distinct : NoDup (columns played).
Proof.
  unfold columns. simpl.
  repeat (constructor; [simpl; intuition discriminate|]). constructor.
Defined.

Lemma basic_stats_of_a_column_witness :
  exists entry,
    lookup (result_or [] (get_basic_stats floor_root (Some played) None)) "kills"
    = Some entry
    /\ lookup entry "count" = Some (VNum (inject_Z 3)).
Proof.
  destruct (basic_stats_of_a_column floor_root played "kills"
              (mkSeries "kills" int64 [VNum 5; VNum 2; VNum 10])
              (result_or [] (get_basic_stats floor_root (Some played) None))
              played_columns_distinct eq_refl eq_refl eq_refl)
    as (_ & xs & entry & _ & Lk & Cn & _).
  exists entry. split; [exact Lk | exact Cn].
Defined.

Lemma numeric_data_names df cols :
  map name (numeric_data df (Some cols))
  = filter (fun col => match get_column df col with
                       | Some c => is_numeric_dtype (dtype_of c)
                       | None => false
                       end) cols.
Proof.
  unfold numeric_data. induction cols as [|col cols IH]; simpl; auto.
  destruct (get_column df col) as [c|] eqn:G; auto.
  destruct (is_numeric_dtype (dtype_of c)); simpl; auto.
  apply get_column_In in G. destruct G as [_ ->]. now rewrite IH.
Qed.

(** X22. For a request that names no column twice, the heat map is drawn
    over the columns [get_basic_stats] describes for the same request,
    the first twenty of them: the names of the list that are numeric
    columns of the frame, in the order of the list, or the float and
    integer columns when no list is given; the dictionary of statistics
    has each of them as a key once.  On the empty list the two part: the
    statistics are empty, the heat map takes the float and integer
    columns. *)
Theorem heatmap_follows_basic_stats
  (sqrt : Q -> Q) (df : DataFrame) (columns_ : option (list string))
  (title : option string) (stats : list (string * list (string * value))) :
  NoDup (requested df columns_) ->
  get_basic_stats sqrt (Some df) columns_ = Returns stats ->
  NoDup (map fst stats)
  /\
  (columns_ <> Some [] ->
   create_heatmap (Some df) columns_ title
   = match firstn 20 (map fst stats) with
     | [] => TextFigure "Nenhuma coluna numérica disponível"
     | cols => HeatmapFigure cols (title_or title "Mapa de Calor de Correlação")
     end)
  /\
  (columns_ = Some [] ->
   stats = []
   /\ create_heatmap (Some df) columns_ title = create_heatmap (Some df) None title).
Proof.
  intros ND M. unfold get_basic_stats in M.
  pose proof (stats_keys _ _ _ M) as K.
  assert (F : forall l : list string,
             (if Nat.ltb 20 (length l) then firstn 20 l else l) = firstn 20 l).
  { intros l. destruct (Nat.ltb_spec 20 (length l)); auto.
    symmetry. now apply firstn_all2. }
  split; [|split].
  - rewrite K. destruct columns_ as [cols|]; cbn [requested] in ND.
    + rewrite numeric_data_names. now apply NoDup_filter.
    + unfold numeric_data. now apply NoDup_map_filter.
  - intros N. unfold create_heatmap. rewrite F, K.
    destruct columns_ as [[|col cols]|]; [congruence| |].
    + rewrite numeric_data_names. now destruct (firstn 20 _).
    + unfold numeric_data. now destruct (firstn 20 _).
  - intros ->. split; [|reflexivity]. now inversion M.
Qed.

Lemma heatmap_follows_basic_stats_witness :
  create_heatmap (Some played) (Some ["firstblood"; "side"; "kills"]) None
  = HeatmapFigure ["firstblood"; "kills"] "Mapa de Calor de Correlação".
Proof.
  destruct (heatmap_follows_basic_stats floor_root played
              (Some ["firstblood"; "side"; "kills"]) None
              (result_or []
                 (get_basic_stats floor_root (Some played)
                    (Some ["firstblood"; "side"; "kills"]))))
    as (_ & H & _).
  - simpl. repeat (constructor; [simpl; intuition discriminate|]). constructor.
  - reflexivity.
  - rewrite H; [reflexivity | discriminate].
Defined.

(* ================================================================== *)
(** * Win rates and the comparison of groups *)




